(** * EOS optimisation engine: [akkudoktoreos/class_optimize.py]

    A shallow embedding of the class [optimization_problem] and of the
    properties its specification states about it.

    Conventions of the embedding.
    - Python [int] is [Z]; a Python list is a [list]; slices and negative
      indices follow Python's rules and are written out in module [Py].
      The [int64] arithmetic of NumPy is written with its wrap-around in
      [split_charge_discharge_int64]; in the range where nothing wraps it
      is the arithmetic of [Z] that [split_charge_discharge] uses.
    - Python [float] quantities of the fitness (euros, percentages, watt
      hours) are exact rationals [Q]: rounding is not modelled.  The one place
      where IEEE special values decide the behaviour, the element-wise
      division of NumPy in [split_charge_discharge], uses [np_float], which
      keeps [nan] and the infinities.
    - A raised Python exception is the [Raise] branch of [result].
    - The module-level generator of [random] is explicit state: a tape of raw
      draws threaded through the monad [M]. *)

From Stdlib Require Import ZArith QArith Qminmax List Bool Lia Lqa.
Import ListNotations.

Open Scope Z_scope.

(** ** Exceptions and results *)

Inductive exception : Type :=
| ValueError
| IndexError
| TypeError
| AttributeError
| SimulationError (code : Z).

Inductive result (A : Type) : Type :=
| Ok (a : A)
| Raise (e : exception).

Arguments Ok {A} a.
Arguments Raise {A} e.

(** ** Python list operations *)

Module Py.

Section Lists.
Context {A : Type}.

Definition len (l : list A) : Z := Z.of_nat (length l).

(** Clamping of a slice bound, as [PySlice_AdjustIndices] does it. *)
Definition norm_index (n i : Z) : Z :=
if i <? 0 then Z.max 0 (n + i) else Z.min i n.

Definition bound (n : Z) (d : Z) (i : option Z) : Z :=
match i with Some i => norm_index n i | None => d end.

(** [l[start:stop]] *)
Definition slice (l : list A) (start stop : option Z) : list A :=
let n := len l in
let a := bound n 0 start in
let b := bound n n stop in
firstn (Z.to_nat (b - a)) (skipn (Z.to_nat a) l).

(** [l[start:stop] = new] *)
Definition setslice (l : list A) (start stop : option Z) (new : list A)
: list A :=
let n := len l in
let a := bound n 0 start in
let b := Z.max a (bound n n stop) in
firstn (Z.to_nat a) l ++ new ++ skipn (Z.to_nat b) l.

(** The position [l[i]] designates, when there is one. *)
Definition position (l : list A) (i : Z) : option nat :=
let n := len l in
let j := if i <? 0 then n + i else i in
if (0 <=? j) && (j <? n) then Some (Z.to_nat j) else None.

(** [l[i]] *)
Definition getitem (l : list A) (i : Z) : result A :=
match position l i with
| Some j =>
    match nth_error l j with
    | Some x => Ok x
    | None => Raise IndexError
    end
| None => Raise IndexError
end.

(** [l[i] = v] *)
Definition setitem (l : list A) (i : Z) (v : A) : result (list A) :=
match position l i with
| Some j => Ok (firstn j l ++ v :: skipn (S j) l)
| None => Raise IndexError
end.

(** [l.insert(0, x)] *)
Definition insert0 (x : A) (l : list A) : list A := x :: l.

(** [[x] * n] *)
Definition replicate (x : A) (n : Z) : list A := repeat x (Z.to_nat n).

End Lists.

End Py.

(** ** NumPy values *)

(** A [float64] as far as the code can tell values apart: a finite value,
    an infinity with its sign, or not-a-number. *)
Inductive np_float : Type :=
| np_finite (q : Q)
| np_inf (negative : bool)
| np_nan.

(** [a / b] on integer operands ([numpy.true_divide]): division by zero does
    not raise, it yields [nan] for [0 / 0] and an infinity otherwise. *)
Definition np_true_divide (a b : Z) : np_float :=
  if b =? 0 then
    if a =? 0 then np_nan else np_inf (a <? 0)
  else np_finite (inject_Z a / inject_Z b).

(** [np.max] of a one-dimensional integer array; an empty array has no
    maximum and raises [ValueError]. *)
Definition np_max (a : list Z) : result Z :=
  match a with
  | [] => Raise ValueError
  | x :: rest => Ok (fold_left Z.max rest x)
  end.

(** [np.where(cond, x, 0)] with the condition given per element. *)
Definition np_where (cond : Z -> bool) (a : list Z) : list Z :=
  map (fun x => if cond x then x else 0) a.

(** ** [split_charge_discharge] (lines 38-61) *)

(** NumPy holds the genes as [int64] and negates them in that type.  This
    definition computes in [Z]: it is the code for genes strictly between
    [-2^63] and [2^63], where the negation does not wrap around (the genes
    the operators draw lie between -5 and 1);
    [split_charge_discharge_int64] below has the wrap-around.  The
    quotients are exact rationals; NumPy rounds them to the nearest
    [float64]. *)
Definition split_charge_discharge (discharge_hours_bin : list Z)
  : result (list np_float * list Z) :=
  let charge := map Z.opp (np_where (fun x => x <? 0) discharge_hours_bin) in
  match np_max charge with
  | Raise e => Raise e
  | Ok m =>
      let charge := map (fun c => np_true_divide c m) charge in
      let discharge := np_where (fun x => 0 <? x) discharge_hours_bin in
      Ok (charge, discharge)
  end.

(** The value an [int64] operation of NumPy returns for the exact result
    [x]: it wraps around modulo [2^64]. *)
Definition int64 (x : Z) : Z :=
  (x + 9223372036854775808) mod 18446744073709551616 - 9223372036854775808.

(** [split_charge_discharge] on an [int64] array, with the negation of
    line 55 in that type. *)
Definition split_charge_discharge_int64 (discharge_hours_bin : list Z)
  : result (list np_float * list Z) :=
  let charge :=
    map (fun x => int64 (- x))
      (np_where (fun x => x <? 0) discharge_hours_bin) in
  match np_max charge with
  | Raise e => Raise e
  | Ok m =>
      let charge := map (fun c => np_true_divide c m) charge in
      let discharge := np_where (fun x => 0 <? x) discharge_hours_bin in
      Ok (charge, discharge)
  end.

(** ** The error monad and the random generator *)

Definition bindR {A B} (r : result A) (k : A -> result B) : result B :=
  match r with
  | Ok a => k a
  | Raise e => Raise e
  end.

(** The state of the [random] module: the raw draws still to come.  A draw
    from an exhausted tape is 0.  Quantifying over all tapes quantifies over
    every sequence of outcomes the generator can produce. *)
Definition random_state : Type := list Z.

Definition M (A : Type) : Type := random_state -> result (A * random_state).

Definition ret {A} (a : A) : M A := fun g => Ok (a, g).

Definition bind {A B} (m : M A) (k : A -> M B) : M B :=
  fun g =>
    match m g with
    | Ok (a, g') => k a g'
    | Raise e => Raise e
    end.

Definition raise {A} (e : exception) : M A := fun _ => Raise e.

Definition lift {A} (r : result A) : M A :=
  fun g => match r with Ok a => Ok (a, g) | Raise e => Raise e end.

Declare Scope py_scope.
Delimit Scope py_scope with py.

Notation "x <- c1 ;; c2" := (bind c1 (fun x => c2))
  (at level 61, c1 at next level, right associativity) : py_scope.
Notation "x <~ c1 ;; c2" := (bindR c1 (fun x => c2))
  (at level 61, c1 at next level, right associativity) : py_scope.

Open Scope py_scope.

Definition next_draw (g : random_state) : Z * random_state :=
  match g with
  | [] => (0, [])
  | r :: g' => (r, g')
  end.

(** [random.random()]: a float in the half-open interval from 0 to 1, on the
    grid of 2^-53. *)
Definition random_random : M Q :=
  fun g =>
    let (r, g') := next_draw g in
    Ok (Qmake (r mod 9007199254740992) 9007199254740992, g').

(** [random.randint(a, b)]: an integer between [a] and [b], both included;
    an empty range raises [ValueError]. *)
Definition random_randint (a b : Z) : M Z :=
  fun g =>
    if a <=? b then
      let (r, g') := next_draw g in
      Ok (a + r mod (b - a + 1), g')
    else Raise ValueError.

Definition Qlt_bool (x y : Q) : bool := negb (Qle_bool y x).

(** [[m() for _ in range(n)]] *)
Fixpoint repeatM {A} (n : nat) (m : M A) : M (list A) :=
  match n with
  | O => ret []
  | S n' => x <- m ;; xs <- repeatM n' m ;; ret (x :: xs)
  end.

(** ** The operators of DEAP the class registers *)

(** [tools.mutUniformInt(individual, low, up, indpb)] with scalar bounds:
    each position is, with probability [indpb], replaced by a fresh draw of
    [random.randint(low, up)]. *)
Fixpoint mutUniformInt (individual : list Z) (low up : Z) (indpb : Q)
  : M (list Z) :=
  match individual with
  | [] => ret []
  | x :: rest =>
      u <- random_random ;;
      x' <- (if Qlt_bool u indpb then random_randint low up else ret x) ;;
      rest' <- mutUniformInt rest low up indpb ;;
      ret (x' :: rest')
  end.

(** [tools.cxTwoPoint(ind1, ind2)]: the two parents exchange the genes
    between two cut points. *)
Definition cxTwoPoint (ind1 ind2 : list Z) : M (list Z * list Z) :=
  let size := Z.min (Py.len ind1) (Py.len ind2) in
  cxpoint1 <- random_randint 1 size ;;
  cxpoint2 <- random_randint 1 (size - 1) ;;
  let (cxpoint1, cxpoint2) :=
    if cxpoint1 <=? cxpoint2 then (cxpoint1, cxpoint2 + 1)
    else (cxpoint2, cxpoint1) in
  let from2 := Py.slice ind2 (Some cxpoint1) (Some cxpoint2) in
  let from1 := Py.slice ind1 (Some cxpoint1) (Some cxpoint2) in
  ret (Py.setslice ind1 (Some cxpoint1) (Some cxpoint2) from2,
       Py.setslice ind2 (Some cxpoint1) (Some cxpoint2) from1).

(** ** Individuals *)

(** [creator.Individual]: a list of genes with a fitness and, once it has
    been evaluated successfully, the diagnostic tuple [extra_data]. *)
Record Individual : Type := {
  genes : list Z;
  fitness_values : option Q;
  extra_data : option (Q * Q * Q)
}.

(** [creator.Individual(l)] *)
Definition creator_Individual (l : list Z) : Individual :=
  {| genes := l; fitness_values := None; extra_data := None |}.

Definition set_genes (ind : Individual) (l : list Z) : Individual :=
  {| genes := l;
     fitness_values := fitness_values ind;
     extra_data := extra_data ind |}.

Definition set_extra_data (ind : Individual) (d : Q * Q * Q) : Individual :=
  {| genes := genes ind;
     fitness_values := fitness_values ind;
     extra_data := Some d |}.

(** ** The optimisation problem *)

(** What [setup_deap_environment] registers and the methods read back: the
    start hour bound into [attr_int] and [mutate_hour], whether
    [attr_ev_charge_index] was registered, and the fitness function
    [optimierung_ems] registers afterwards. *)
Record Toolbox : Type := {
  tb_start_hour : Z;
  tb_attr_ev_charge_index : bool;
  tb_evaluate : option (Individual -> result (Q * Individual))
}.

(** The attributes of [self].  [opti_param] holds the value of the key
    ["haushaltsgeraete"] once the environment is set up. *)
Record optimization_problem : Type := {
  prediction_hours : Z;
  strafe : Q;
  opti_param : option Z;
  fixed_eauto_hours : Z;
  verbose : bool;
  optimize_ev : bool;
  toolbox : option Toolbox
}.

(** [__init__] (lines 16-36); seeding the generator is the caller's choice of
    the tape. *)
Definition init (prediction_hours : Z) (strafe : Q) (optimization_hours : Z)
  (verbose : bool) : optimization_problem :=
  {| prediction_hours := prediction_hours;
     strafe := strafe;
     opti_param := None;
     fixed_eauto_hours := prediction_hours - optimization_hours;
     verbose := verbose;
     optimize_ev := true;
     toolbox := None |}.

Definition set_optimize_ev (self : optimization_problem) (b : bool)
  : optimization_problem :=
  {| prediction_hours := prediction_hours self;
     strafe := strafe self;
     opti_param := opti_param self;
     fixed_eauto_hours := fixed_eauto_hours self;
     verbose := verbose self;
     optimize_ev := b;
     toolbox := toolbox self |}.

Definition set_toolbox (self : optimization_problem) (op : option Z)
  (tb : Toolbox) : optimization_problem :=
  {| prediction_hours := prediction_hours self;
     strafe := strafe self;
     opti_param := op;
     fixed_eauto_hours := fixed_eauto_hours self;
     verbose := verbose self;
     optimize_ev := optimize_ev self;
     toolbox := Some tb |}.

(** [self.opti_param["haushaltsgeraete"]]; subscripting [None] raises. *)
Definition haushaltsgeraete (self : optimization_problem) : result Z :=
  match opti_param self with
  | Some n => Ok n
  | None => Raise TypeError
  end.

(** [self.opti_param and self.opti_param.get("haushaltsgeraete", 0) > 0] *)
Definition has_haushaltsgeraet (self : optimization_problem) : bool :=
  match opti_param self with
  | Some n => 0 <? n
  | None => false
  end.

(** [self.toolbox.register("evaluate", f)], called once the toolbox has been
    set up. *)
Definition register_evaluate (self : optimization_problem)
  (f : Individual -> result (Q * Individual)) : optimization_problem :=
  match toolbox self with
  | Some tb =>
      set_toolbox self (opti_param self)
        {| tb_start_hour := tb_start_hour tb;
           tb_attr_ev_charge_index := tb_attr_ev_charge_index tb;
           tb_evaluate := Some f |}
  | None => self
  end.

(** [self.toolbox]; the attribute does not exist before the set-up. *)
Definition the_toolbox (self : optimization_problem) : result Toolbox :=
  match toolbox self with
  | Some tb => Ok tb
  | None => Raise AttributeError
  end.

(** ** The collaborators of the class *)

(** [PVAkku(...)] as [optimierung_ems] constructs it; the class itself lives
    in [class_akku]. *)
Record PVAkku : Type := {
  kapazitaet_wh : Q;
  hours : Z;
  lade_effizienz : option Q;
  entlade_effizienz : option Q;
  max_ladeleistung_w : Q;
  start_soc_prozent : Q;
  min_soc_prozent : option Q;
  charge_per_hour : list Z
}.

(** [Haushaltsgeraet(...)] of [class_haushaltsgeraet]. *)
Record Haushaltsgeraet : Type := {
  hg_hours : Z;
  verbrauch_wh : Q;
  dauer_h : Z
}.

(** [Wechselrichter(max_leistung_wh, akku)] of [class_inverter]. *)
Record Wechselrichter : Type := {
  max_leistung_wh : Q;
  akku : PVAkku
}.

(** [EnergieManagementSystem(...)] of [class_ems], as constructed. *)
Record EnergieManagementSystem : Type := {
  ems_gesamtlast : list Q;
  ems_pv_prognose_wh : list Q;
  ems_strompreis_euro_pro_wh : list Q;
  ems_einspeiseverguetung_euro_pro_wh : list Q;
  ems_eauto : PVAkku;
  ems_haushaltsgeraet : option Haushaltsgeraet;
  ems_wechselrichter : Wechselrichter
}.

(** What one call of [evaluate_inner] hands to the simulation after
    [ems.reset()]; [None] is a setter that was not called. *)
Record ems_inputs : Type := {
  haushaltsgeraet_start : option (option Z * Z);
  akku_discharge_hours : list Z;
  akku_charge_hours : list np_float;
  eauto_charge_hours : option (list Q)
}.

(** The nine per-hour arrays of the dictionary [ems.simuliere] returns. *)
Record HourArrays (E : Type) : Type := {
  Last_Wh_pro_Stunde : list E;
  Netzeinspeisung_Wh_pro_Stunde : list E;
  akku_soc_pro_stunde : list E;
  Netzbezug_Wh_pro_Stunde : list E;
  Kosten_Euro_pro_Stunde : list E;
  Einnahmen_Euro_pro_Stunde : list E;
  E_Auto_SoC_pro_Stunde : list E;
  Verluste_Pro_Stunde : list E;
  Haushaltsgeraet_wh_pro_stunde : list E
}.

Arguments Last_Wh_pro_Stunde {E} _.
Arguments Netzeinspeisung_Wh_pro_Stunde {E} _.
Arguments akku_soc_pro_stunde {E} _.
Arguments Netzbezug_Wh_pro_Stunde {E} _.
Arguments Kosten_Euro_pro_Stunde {E} _.
Arguments Einnahmen_Euro_pro_Stunde {E} _.
Arguments E_Auto_SoC_pro_Stunde {E} _.
Arguments Verluste_Pro_Stunde {E} _.
Arguments Haushaltsgeraet_wh_pro_stunde {E} _.

(** The dictionary [o] and the state of the batteries the fitness reads after
    the simulation: [ems.eauto.ladezustand_in_prozent()],
    [ems.akku.aktueller_energieinhalt()] and [ems.eauto.to_dict()]. *)
Record Simulation (EautoDict : Type) : Type := {
  Gesamtbilanz_Euro : Q;
  Gesamt_Verluste : Q;
  pro_stunde : HourArrays np_float;
  ladezustand_in_prozent : Q;
  aktueller_energieinhalt : Q;
  eauto_to_dict : EautoDict
}.

Arguments Gesamtbilanz_Euro {EautoDict} _.
Arguments Gesamt_Verluste {EautoDict} _.
Arguments pro_stunde {EautoDict} _.
Arguments ladezustand_in_prozent {EautoDict} _.
Arguments aktueller_energieinhalt {EautoDict} _.
Arguments eauto_to_dict {EautoDict} _.

(** The argument [start_solution] of [optimize] as its annotation
    [Optional[List[float]]] and the callers of this repository have it:
    [None], the integer [-1], or a genome.  Python does not enforce the
    annotation; [PyValue] below is the wider type. *)
Inductive StartSolution : Type :=
| StartNone
| StartMinusOne
| StartGenome (l : list Z).

(** What a caller can hand to [optimize] as [start_solution] beyond the
    annotation: [None], any integer, any float, or a list of genes. *)
Inductive PyValue : Type :=
| PyNone
| PyInt (z : Z)
| PyFloat (x : np_float)
| PyList (l : list Z).

Definition of_StartSolution (start_solution : StartSolution) : PyValue :=
  match start_solution with
  | StartNone => PyNone
  | StartMinusOne => PyInt (-1)
  | StartGenome l => PyList l
  end.

(** [v in [None, -1]]: [v] is [None], or compares equal to the integer -1,
    as the float -1.0 does; [nan], the infinities and a list compare equal
    to neither. *)
Definition in_None_minus_one (v : PyValue) : bool :=
  match v with
  | PyNone => true
  | PyInt z => z =? -1
  | PyFloat (np_finite q) => Qeq_bool q (- (1))
  | PyFloat _ => false
  | PyList _ => false
  end.

(** [creator.Individual(v)]: the list constructor iterates over [v]; [None]
    and a number are not iterable. *)
Definition creator_Individual_of (v : PyValue) : result Individual :=
  match v with
  | PyList l => Ok (creator_Individual l)
  | _ => Raise TypeError
  end.

(** The dictionary [parameter]. *)
Record ParameterDict : Type := {
  p_einspeiseverguetung_euro_pro_wh : Q;
  p_pv_akku_cap : Q;
  p_pv_soc : Q;
  p_min_soc_prozent : Q;
  p_eauto_min_soc : Q;
  p_eauto_soc : Q;
  p_eauto_cap : Q;
  p_eauto_charge_efficiency : Q;
  p_eauto_charge_power : Q;
  p_haushaltsgeraet_wh : Q;
  p_haushaltsgeraet_dauer : Z;
  p_gesamtlast : list Q;
  p_pv_forecast : list Q;
  p_strompreis_euro_pro_wh : list Q;
  p_temperature_forecast : list Q;
  p_preis_euro_pro_wh_akku : Q;
  p_start_solution : StartSolution
}.

(** The dictionary [optimierung_ems] returns. *)
Record Ergebnis (EautoDict : Type) : Type := {
  r_discharge_hours_bin : list Z;
  r_eautocharge_hours_float : list Z;
  r_result : Q * Q * HourArrays (option np_float);
  r_eauto_obj : EautoDict;
  r_start_solution : Individual;
  r_spuelstart : option Z;
  r_simulation_data : Q * Q * HourArrays (option np_float)
}.

Arguments r_discharge_hours_bin {EautoDict} _.
Arguments r_eautocharge_hours_float {EautoDict} _.
Arguments r_result {EautoDict} _.
Arguments r_eauto_obj {EautoDict} _.
Arguments r_start_solution {EautoDict} _.
Arguments r_spuelstart {EautoDict} _.
Arguments r_simulation_data {EautoDict} _.

(** [range(n)] *)
Definition py_range (n : Z) : list Z := map Z.of_nat (seq 0 (Z.to_nat n)).

(** The diagnostic lists [optimize] collects. *)
Record Member : Type := {
  bilanz : list Q;
  verluste : list Q;
  nebenbedingung : list Q
}.

Definition member_append (m : Member) (d : Q * Q * Q) : Member :=
  let '(v1, v2, v3) := d in
  {| bilanz := bilanz m ++ [v1];
     verluste := verluste m ++ [v2];
     nebenbedingung := nebenbedingung m ++ [v3] |}.

(** ** The methods of [optimization_problem] *)

Section Methods.

(** [config.possible_ev_charge_currents], the table of charging currents. *)
Variable possible_ev_charge_currents : list Q.

(** What [ems.eauto.to_dict()] returns. *)
Variable EautoDict : Type.

(** [ems.reset()], the setters and [ems.simuliere(start_hour)] of
    [class_ems] taken together: the simulation of the system as it was
    constructed, under the inputs of this evaluation.  It may raise. *)
Variable simuliere :
  EnergieManagementSystem -> ems_inputs -> Z -> result (Simulation EautoDict).

(** [algorithms.eaMuPlusLambda] of DEAP with tournament selection of size
    3: from the population, the fitness function, the crossover and the
    mutation it computes the final population and the hall of fame. *)
Variable eaMuPlusLambda :
  list Individual ->
  (Individual -> result (Q * Individual)) ->
  (list Z -> list Z -> M (list Z * list Z)) ->
  (Individual -> M Individual) ->
  Z -> Z -> Q -> Q -> Z ->
  M (list Individual * list Individual).

(** *** [setup_deap_environment] (lines 118-160) *)

Definition setup_deap_environment (self : optimization_problem)
  (opti_param : Z) (start_hour : Z) : optimization_problem :=
  set_toolbox self (Some opti_param)
    {| tb_start_hour := start_hour;
       tb_attr_ev_charge_index := optimize_ev self;
       tb_evaluate := None |}.

Definition attr_discharge_state (self : optimization_problem) : M Z :=
  _ <- lift (the_toolbox self) ;;
  random_randint (-5) 1.

Definition attr_ev_charge_index (self : optimization_problem) : M Z :=
  tb <- lift (the_toolbox self) ;;
  if tb_attr_ev_charge_index tb
  then random_randint 0 (Py.len possible_ev_charge_currents - 1)
  else raise AttributeError.

Definition attr_int (self : optimization_problem) : M Z :=
  tb <- lift (the_toolbox self) ;;
  random_randint (tb_start_hour tb) 23.

Definition mutate_discharge (self : optimization_problem) (l : list Z)
  : M (list Z) :=
  _ <- lift (the_toolbox self) ;;
  mutUniformInt l (-5) 1 (1 # 10).

Definition mutate_ev_charge_index (self : optimization_problem)
  (l : list Z) : M (list Z) :=
  _ <- lift (the_toolbox self) ;;
  mutUniformInt l 0 (Py.len possible_ev_charge_currents - 1) (1 # 10).

Definition mutate_hour (self : optimization_problem) (l : list Z)
  : M (list Z) :=
  tb <- lift (the_toolbox self) ;;
  mutUniformInt l (tb_start_hour tb) 23 (1 # 10).

(** *** [mutate] (lines 64-83) *)

Definition mutate_genes (self : optimization_problem) (individual : list Z)
  : M (list Z) :=
  let H := prediction_hours self in
  discharge <- mutate_discharge self (Py.slice individual None (Some H)) ;;
  let individual := Py.setslice individual None (Some H) discharge in
  individual <-
    (if optimize_ev self then
       let ev_charge_part := Py.slice individual (Some H) (Some (H * 2)) in
       ev_charge_part_mutated <- mutate_ev_charge_index self ev_charge_part ;;
       let ev_charge_part_mutated :=
         Py.setslice ev_charge_part_mutated
           (Some (H - fixed_eauto_hours self)) None
           (Py.replicate 0 (fixed_eauto_hours self)) in
       ret (Py.setslice individual (Some H) (Some (H * 2))
              ev_charge_part_mutated)
     else ret individual) ;;
  n <- lift (haushaltsgeraete self) ;;
  if 0 <? n then
    last <- lift (Py.getitem individual (-1)) ;;
    appliance_part_mutated <- mutate_hour self [last] ;;
    hour <- lift (Py.getitem appliance_part_mutated 0) ;;
    lift (Py.setitem individual (-1) hour)
  else ret individual.

(** The genes are mutated in place: the fitness and [extra_data] the
    object carries stay attached. *)
Definition mutate (self : optimization_problem) (individual : Individual)
  : M Individual :=
  l <- mutate_genes self (genes individual) ;;
  ret (set_genes individual l).

(** *** [create_individual] (lines 86-98) *)

Definition create_individual (self : optimization_problem) : M Individual :=
  let H := Z.to_nat (prediction_hours self) in
  individual_components <- repeatM H (attr_discharge_state self) ;;
  individual_components <-
    (if optimize_ev self then
       ev <- repeatM H (attr_ev_charge_index self) ;;
       ret (individual_components ++ ev)
     else ret individual_components) ;;
  n <- lift (haushaltsgeraete self) ;;
  individual_components <-
    (if 0 <? n then
       hour <- attr_int self ;;
       ret (individual_components ++ [hour])
     else ret individual_components) ;;
  ret (creator_Individual individual_components).

(** *** [split_individual] (lines 100-116) *)

Definition split_individual (self : optimization_problem)
  (individual : list Z) : result (list Z * list Z * option Z) :=
  let H := prediction_hours self in
  let discharge_hours_bin := Py.slice individual None (Some H) in
  let eautocharge_hours_float :=
    Py.slice individual (Some H) (Some (H * 2)) in
  spuelstart_int <~
    (if has_haushaltsgeraet self then
       last <~ Py.getitem individual (-1) ;; Ok (Some last)
     else Ok None) ;;
  Ok (discharge_hours_bin, eautocharge_hours_float, spuelstart_int).

(** *** [evaluate_inner] (lines 162-188) *)

(** [[possible_ev_charge_currents[i] for i in l]] *)
Fixpoint charge_currents (l : list Z) : result (list Q) :=
  match l with
  | [] => Ok []
  | i :: rest =>
      c <~ Py.getitem possible_ev_charge_currents i ;;
      cs <~ charge_currents rest ;;
      Ok (c :: cs)
  end.

(** Lines 169-186: what the setters receive. *)
Definition simulation_inputs (self : optimization_problem)
  (individual : list Z) (start_hour : Z) : result ems_inputs :=
  parts <~ split_individual self individual ;;
  let '(discharge_hours_bin, eautocharge_hours_index, spuelstart_int) :=
    parts in
  start <~
    match opti_param self with
    | None => Raise AttributeError
    | Some n =>
        if 0 <? n then Ok (Some (spuelstart_int, start_hour)) else Ok None
    end ;;
  cd <~ split_charge_discharge discharge_hours_bin ;;
  let '(charge, discharge) := cd in
  eauto <~
    (if optimize_ev self then
       eautocharge_hours_float <~ charge_currents eautocharge_hours_index ;;
       Ok (Some eautocharge_hours_float)
     else Ok None) ;;
  Ok {| haushaltsgeraet_start := start;
        akku_discharge_hours := discharge;
        akku_charge_hours := charge;
        eauto_charge_hours := eauto |}.

Definition evaluate_inner (self : optimization_problem)
  (individual : list Z) (ems : EnergieManagementSystem) (start_hour : Z)
  : result (Simulation EautoDict) :=
  inputs <~ simulation_inputs self individual start_hour ;;
  simuliere ems inputs start_hour.

(** *** [evaluate] (lines 190-244) *)

(** [sum(0.01 for i in range(H) if discharge_hours_bin[i] == 0.0)]; the
    subscript raises past the end of the list. *)
Fixpoint idle_penalty (discharge_hours_bin : list Z) (hours : list Z)
  (acc : Q) : result Q :=
  match hours with
  | [] => Ok acc
  | i :: rest =>
      x <~ Py.getitem discharge_hours_bin i ;;
      idle_penalty discharge_hours_bin rest
        (if x =? 0 then (acc + (1 # 100))%Q else acc)
  end.

(** [sum(self.strafe for ladeleistung in l if ladeleistung != 0.0)] *)
Definition charging_penalty (strafe : Q) (l : list Z) : Q :=
  fold_left (fun acc ladeleistung =>
               if ladeleistung =? 0 then acc else (acc + strafe)%Q)
            l 0%Q.

(** Lines 222-226: the statement guarded by
    [parameter["eauto_min_soc"] - ems.eauto.ladezustand_in_prozent() <= 0.0],
    applied to the running total. *)
Definition add_charging_penalty (strafe eauto_min_soc ladezustand : Q)
  (eautocharge_hours_float : list Z) (gesamtbilanz : Q) : Q :=
  if Qle_bool (eauto_min_soc - ladezustand) 0
  then (gesamtbilanz + charging_penalty strafe eautocharge_hours_float)%Q
  else gesamtbilanz.

(** [max(0, x)] *)
Definition max0 (x : Q) : Q := if Qlt_bool 0 x then x else 0%Q.

Definition evaluate (self : optimization_problem) (individual : Individual)
  (ems : EnergieManagementSystem) (parameter : ParameterDict)
  (start_hour : Z) (worst_case : bool) : result (Q * Individual) :=
  match evaluate_inner self (genes individual) ems start_hour with
  | Raise _ => Ok (100000%Q, individual)
  | Ok o =>
      let gesamtbilanz :=
        (Gesamtbilanz_Euro o * (if worst_case then - (1) else 1))%Q in
      parts <~ split_individual self (genes individual) ;;
      let '(discharge_hours_bin, eautocharge_hours_float, _) := parts in
      idle <~ idle_penalty discharge_hours_bin
                (py_range (prediction_hours self)) 0%Q ;;
      let gesamtbilanz := (gesamtbilanz + idle)%Q in
      let gesamtbilanz :=
        add_charging_penalty (strafe self) (p_eauto_min_soc parameter)
          (ladezustand_in_prozent o) eautocharge_hours_float gesamtbilanz in
      let individual :=
        set_extra_data individual
          (Gesamtbilanz_Euro o,
           Gesamt_Verluste o,
           (p_eauto_min_soc parameter - ladezustand_in_prozent o)%Q) in
      let restwert_akku :=
        (aktueller_energieinhalt o * p_preis_euro_pro_wh_akku parameter)%Q in
      let gesamtbilanz :=
        (gesamtbilanz
         + (max0 ((p_eauto_min_soc parameter - ladezustand_in_prozent o)
                  * strafe self)
            - restwert_akku))%Q in
      Ok (gesamtbilanz, individual)
  end.

(** *** [optimize] (lines 246-285) *)

(** [self.toolbox.population(n=300)]: the toolbox is read first, then
    [create_individual] is called [n] times. *)
Definition population (self : optimization_problem) (n : nat)
  : M (list Individual) :=
  _ <- lift (the_toolbox self) ;;
  repeatM n (create_individual self).

(** Lines 250-261: the population [eaMuPlusLambda] receives. *)
Definition initial_population (self : optimization_problem)
  (start_solution : StartSolution) : M (list Individual) :=
  population <- population self 300 ;;
  match start_solution with
  | StartNone | StartMinusOne => ret population
  | StartGenome l =>
      ret (fold_left
             (fun population _ =>
                Py.insert0 (creator_Individual l) population)
             (py_range 3) population)
  end.

(** Lines 277-283. *)
Definition collect_extra_data (population : list Individual) : Member :=
  fold_left
    (fun member ind =>
       match extra_data ind with
       | Some d => member_append member d
       | None => member
       end)
    population
    {| bilanz := []; verluste := []; nebenbedingung := [] |}.

Definition optimize (self : optimization_problem)
  (start_solution : StartSolution) (ngen : Z) : M (Individual * Member) :=
  population <- initial_population self start_solution ;;
  tb <- lift (the_toolbox self) ;;
  evaluate <-
    match tb_evaluate tb with
    | Some f => ret f
    | None => raise AttributeError
    end ;;
  final <- eaMuPlusLambda population evaluate cxTwoPoint (mutate self)
             100 150 (1 # 2) (1 # 2) ngen ;;
  let '(population, hof) := final in
  let member := collect_extra_data population in
  best <- lift (Py.getitem hof 0) ;;
  ret (best, member).

(** [optimize] once more, for every value a caller can pass.  Lines
    250-261: the population is drawn, then the test [not in [None, -1]]
    decides whether the loop runs; each of its three rounds builds an
    individual from the start solution and puts it in front. *)
Definition initial_population_any (self : optimization_problem)
  (start_solution : PyValue) : M (list Individual) :=
  population <- population self 300 ;;
  if negb (in_None_minus_one start_solution) then
    lift (fold_left
            (fun acc _ =>
               population <~ acc ;;
               individual <~ creator_Individual_of start_solution ;;
               Ok (Py.insert0 individual population))
            (py_range 3) (Ok population))
  else ret population.

(** Lines 263-285: the evolution on the population, the diagnostic lists
    and the best individual. *)
Definition run_evolution (self : optimization_problem)
  (population : list Individual) (ngen : Z) : M (Individual * Member) :=
  tb <- lift (the_toolbox self) ;;
  evaluate <-
    match tb_evaluate tb with
    | Some f => ret f
    | None => raise AttributeError
    end ;;
  final <- eaMuPlusLambda population evaluate cxTwoPoint (mutate self)
             100 150 (1 # 2) (1 # 2) ngen ;;
  let '(population, hof) := final in
  let member := collect_extra_data population in
  best <- lift (Py.getitem hof 0) ;;
  ret (best, member).

Definition optimize_any (self : optimization_problem)
  (start_solution : PyValue) (ngen : Z) : M (Individual * Member) :=
  population <- initial_population_any self start_solution ;;
  run_evolution self population ngen.

(** *** [optimierung_ems] (lines 287-416) *)

(** [np.full(n, v)] *)
Definition np_full {A} (n : Z) (v : A) : result (list A) :=
  if n <? 0 then Raise ValueError else Ok (repeat v (Z.to_nat n)).

(** Lines 313-315. *)
Definition auto_optimize_ev (parameter : ParameterDict) : bool :=
  if Qlt_bool (p_eauto_min_soc parameter - p_eauto_soc parameter) 0
  then false else true.

(** Lines 393-405 for one key: the first element and every [nan] become
    [None]. *)
Definition null_first_and_nan (a : list np_float)
  : result (list (option np_float)) :=
  match a with
  | [] => Raise IndexError
  | _ :: rest =>
      Ok (None ::
          map (fun x => match x with np_nan => None | _ => Some x end) rest)
  end.

Definition null_all (h : HourArrays np_float)
  : result (HourArrays (option np_float)) :=
  a1 <~ null_first_and_nan (Last_Wh_pro_Stunde h) ;;
  a2 <~ null_first_and_nan (Netzeinspeisung_Wh_pro_Stunde h) ;;
  a3 <~ null_first_and_nan (akku_soc_pro_stunde h) ;;
  a4 <~ null_first_and_nan (Netzbezug_Wh_pro_Stunde h) ;;
  a5 <~ null_first_and_nan (Kosten_Euro_pro_Stunde h) ;;
  a6 <~ null_first_and_nan (Einnahmen_Euro_pro_Stunde h) ;;
  a7 <~ null_first_and_nan (E_Auto_SoC_pro_Stunde h) ;;
  a8 <~ null_first_and_nan (Verluste_Pro_Stunde h) ;;
  a9 <~ null_first_and_nan (Haushaltsgeraet_wh_pro_stunde h) ;;
  Ok {| Last_Wh_pro_Stunde := a1;
        Netzeinspeisung_Wh_pro_Stunde := a2;
        akku_soc_pro_stunde := a3;
        Netzbezug_Wh_pro_Stunde := a4;
        Kosten_Euro_pro_Stunde := a5;
        Einnahmen_Euro_pro_Stunde := a6;
        E_Auto_SoC_pro_Stunde := a7;
        Verluste_Pro_Stunde := a8;
        Haushaltsgeraet_wh_pro_stunde := a9 |}.

(** The call of [visualisiere_ergebnisse] only draws and is left out.  The
    method returns the dictionary and leaves [self] updated. *)
Definition optimierung_ems {Any : Type} (self : optimization_problem)
  (parameter : ParameterDict) (start_hour : Z) (worst_case : bool)
  (startdate : option Any) (ngen : Z)
  : M (Ergebnis EautoDict * optimization_problem) :=
  let H := prediction_hours self in
  einspeiseverguetung_euro_pro_wh <-
    lift (np_full H (p_einspeiseverguetung_euro_pro_wh parameter)) ;;
  ones <- lift (np_full H 1) ;;
  let akku :=
    {| kapazitaet_wh := p_pv_akku_cap parameter;
       hours := H;
       lade_effizienz := None;
       entlade_effizienz := None;
       max_ladeleistung_w := 5000;
       start_soc_prozent := p_pv_soc parameter;
       min_soc_prozent := Some (p_min_soc_prozent parameter);
       charge_per_hour := ones |} in
  let self := set_optimize_ev self (auto_optimize_ev parameter) in
  let eauto :=
    {| kapazitaet_wh := p_eauto_cap parameter;
       hours := H;
       lade_effizienz := Some (p_eauto_charge_efficiency parameter);
       entlade_effizienz := Some 1%Q;
       max_ladeleistung_w := p_eauto_charge_power parameter;
       start_soc_prozent := p_eauto_soc parameter;
       min_soc_prozent := None;
       charge_per_hour := ones |} in
  let spuelmaschine :=
    if 0 <? p_haushaltsgeraet_dauer parameter
    then Some {| hg_hours := H;
                 verbrauch_wh := p_haushaltsgeraet_wh parameter;
                 dauer_h := p_haushaltsgeraet_dauer parameter |}
    else None in
  let wr := {| max_leistung_wh := 10000; akku := akku |} in
  let ems :=
    {| ems_gesamtlast := p_gesamtlast parameter;
       ems_pv_prognose_wh := p_pv_forecast parameter;
       ems_strompreis_euro_pro_wh := p_strompreis_euro_pro_wh parameter;
       ems_einspeiseverguetung_euro_pro_wh :=
         einspeiseverguetung_euro_pro_wh;
       ems_eauto := eauto;
       ems_haushaltsgeraet := spuelmaschine;
       ems_wechselrichter := wr |} in
  let self :=
    setup_deap_environment self
      (match spuelmaschine with Some _ => 1 | None => 0 end) start_hour in
  let self :=
    register_evaluate self
      (fun ind => evaluate self ind ems parameter start_hour worst_case) in
  best <- optimize self (p_start_solution parameter) ngen ;;
  let '(start_solution, extra_data) := best in
  o <- lift (evaluate_inner self (genes start_solution) ems start_hour) ;;
  parts <- lift (split_individual self (genes start_solution)) ;;
  let '(discharge_hours_bin, eautocharge_hours_float, spuelstart_int) :=
    parts in
  arrays <- lift (null_all (pro_stunde o)) ;;
  let o' := (Gesamtbilanz_Euro o, Gesamt_Verluste o, arrays) in
  ret ({| r_discharge_hours_bin := discharge_hours_bin;
          r_eautocharge_hours_float := eautocharge_hours_float;
          r_result := o';
          r_eauto_obj := eauto_to_dict o;
          r_start_solution := start_solution;
          r_spuelstart := spuelstart_int;
          r_simulation_data := o' |},
       self).

(** Lines 299-348 on their own: the system [optimierung_ems] constructs
    from [parameter].  Both batteries are set to charge in every hour. *)
Definition optimierung_ems_system (self : optimization_problem)
  (parameter : ParameterDict) : result EnergieManagementSystem :=
  let H := prediction_hours self in
  einspeiseverguetung_euro_pro_wh <~
    np_full H (p_einspeiseverguetung_euro_pro_wh parameter) ;;
  ones <~ np_full H 1 ;;
  let akku :=
    {| kapazitaet_wh := p_pv_akku_cap parameter;
       hours := H;
       lade_effizienz := None;
       entlade_effizienz := None;
       max_ladeleistung_w := 5000;
       start_soc_prozent := p_pv_soc parameter;
       min_soc_prozent := Some (p_min_soc_prozent parameter);
       charge_per_hour := ones |} in
  let eauto :=
    {| kapazitaet_wh := p_eauto_cap parameter;
       hours := H;
       lade_effizienz := Some (p_eauto_charge_efficiency parameter);
       entlade_effizienz := Some 1%Q;
       max_ladeleistung_w := p_eauto_charge_power parameter;
       start_soc_prozent := p_eauto_soc parameter;
       min_soc_prozent := None;
       charge_per_hour := ones |} in
  let spuelmaschine :=
    if 0 <? p_haushaltsgeraet_dauer parameter
    then Some {| hg_hours := H;
                 verbrauch_wh := p_haushaltsgeraet_wh parameter;
                 dauer_h := p_haushaltsgeraet_dauer parameter |}
    else None in
  let wr := {| max_leistung_wh := 10000; akku := akku |} in
  Ok {| ems_gesamtlast := p_gesamtlast parameter;
        ems_pv_prognose_wh := p_pv_forecast parameter;
        ems_strompreis_euro_pro_wh := p_strompreis_euro_pro_wh parameter;
        ems_einspeiseverguetung_euro_pro_wh :=
          einspeiseverguetung_euro_pro_wh;
        ems_eauto := eauto;
        ems_haushaltsgeraet := spuelmaschine;
        ems_wechselrichter := wr |}.

(** Lines 313-315 and 351-355 on their own: [self] as [optimierung_ems]
    hands it to [optimize], with the fitness function registered for the
    system [ems]. *)
Definition optimierung_ems_problem (self : optimization_problem)
  (parameter : ParameterDict) (start_hour : Z) (worst_case : bool)
  (ems : EnergieManagementSystem) : optimization_problem :=
  let self := set_optimize_ev self (auto_optimize_ev parameter) in
  let self :=
    setup_deap_environment self
      (match ems_haushaltsgeraet ems with Some _ => 1 | None => 0 end)
      start_hour in
  register_evaluate self
    (fun ind => evaluate self ind ems parameter start_hour worst_case).


End Methods.

(** ** The gene layout and its invariants *)

(** The length of the genomes [create_individual] builds. *)
Definition genome_length (self : optimization_problem) : Z :=
  prediction_hours self
  + (if optimize_ev self then prediction_hours self else 0)
  + (if has_haushaltsgeraet self then 1 else 0).

(** The domain of the gene at position [i]: a battery action, then (when the
    EV is optimised) an index into the table of [n] charging currents, then
    the start hour of the appliance. *)
Definition gene_domain (self : optimization_problem) (start_hour n : Z)
  (i x : Z) : bool :=
  let H := prediction_hours self in
  if i <? H then (-5 <=? x) && (x <=? 1)
  else if optimize_ev self && (i <? H * 2) then (0 <=? x) && (x <=? n - 1)
  else (start_hour <=? x) && (x <=? 23).

(** The three domains as propositions. *)
Definition battery_action (x : Z) : Prop := -5 <= x <= 1.

Definition charge_index (n : Z) (x : Z) : Prop := 0 <= x <= n - 1.

Definition appliance_hour (start_hour : Z) (x : Z) : Prop :=
  start_hour <= x <= 23.

(** [P i x] for every gene [x] of [l], [i] counting its position from [k]. *)
Fixpoint all_at (P : Z -> Z -> bool) (k : Z) (l : list Z) : bool :=
  match l with
  | [] => true
  | x :: rest => P k x && all_at P (k + 1) rest
  end.

Definition in_domain (self : optimization_problem) (start_hour n : Z)
  (l : list Z) : bool :=
  (Py.len l =? genome_length self)
  && all_at (gene_domain self start_hour n) 0 l.

(** The EV genes of the last [fixed_eauto_hours] hours are zero. *)
Definition locked_gene (self : optimization_problem) (i x : Z) : bool :=
  let H := prediction_hours self in
  if (H * 2 - fixed_eauto_hours self <=? i) && (i <? H * 2)
  then x =? 0 else true.

Definition locked_tail_zero (self : optimization_problem) (l : list Z)
  : bool :=
  all_at (locked_gene self) 0 l.

(** [self] after [setup_deap_environment] has run with [start_hour]. *)
Definition set_up (self : optimization_problem) (start_hour : Z) : bool :=
  match toolbox self, opti_param self with
  | Some tb, Some _ =>
      (tb_start_hour tb =? start_hour)
      && Bool.eqb (tb_attr_ev_charge_index tb) (optimize_ev self)
  | _, _ => false
  end.

(** Every [random.randint] the toolbox registers has a non-empty range:
    there is a charging current when the EV is optimised, and the start hour
    is an hour of the day when there is an appliance. *)
Definition drawable (self : optimization_problem) (start_hour n : Z) : bool :=
  (if optimize_ev self then 1 <=? n else true)
  && (if has_haushaltsgeraet self then start_hour <=? 23 else true).

(** ** The statements of the specification, for comparison *)

Definition count_if (f : Z -> bool) (l : list Z) : Z :=
  Py.len (filter f l).

(** Fitness term 4 in the words of the specification: [P] per hour with a
    non-zero EV current, if the shortfall is strictly positive. *)
Definition spec_under_soc_penalty (P ev_min_soc ev_final_soc : Q)
  (ev : list Z) : Q :=
  if Qlt_bool 0 (ev_min_soc - ev_final_soc)
  then (P * inject_Z (count_if (fun x => negb (x =? 0)) ev))%Q
  else 0%Q.

(** The fitness in the words of the specification. *)
Definition spec_fitness (worst_case : bool) (total_balance_eur : Q)
  (battery : list Z) (ev : list Z) (P ev_min_soc ev_final_soc : Q)
  (battery_energy_wh pi_akku : Q) : Q :=
  let sign := if worst_case then (- (1))%Q else 1%Q in
  (sign * total_balance_eur
   + (1 # 100) * inject_Z (count_if (fun x => x =? 0) battery)
   + spec_under_soc_penalty P ev_min_soc ev_final_soc ev
   + Qmax 0 ((ev_min_soc - ev_final_soc) * P)
   - battery_energy_wh * pi_akku)%Q.

(** The genome length in the words of the specification. *)
Definition spec_genome_length (H : Z) (has_appliance : bool) : Z :=
  2 * H + (if has_appliance then 1 else 0).

(** ** A small instance *)

Module Demo.

(** A table of three charging currents; index 0 is no charging. *)
Definition currents : list Q := [0; 3 # 8; 1]%Q.

Definition charging_hours (inp : ems_inputs) : Z :=
  match eauto_charge_hours inp with
  | Some l =>
      Py.len (filter (fun c => negb (Qeq_bool c 0)) l)
  | None => 0
  end.

Definition flat (inp : ems_inputs) : list np_float :=
  map (fun _ => np_finite 0) (akku_discharge_hours inp).

(** A simulation that charges the EV by ten points per charging hour at
    half a euro each, and fails outside the hours of a day. *)
Definition simuliere (ems : EnergieManagementSystem) (inp : ems_inputs)
  (start_hour : Z) : result (Simulation Q) :=
  if (start_hour <? 0) || (23 <? start_hour)
  then Raise (SimulationError 1)
  else
    let soc :=
      Qmin 100 (start_soc_prozent (ems_eauto ems)
                + 10 * inject_Z (charging_hours inp))%Q in
    Ok {| Gesamtbilanz_Euro := ((1 # 2) * inject_Z (charging_hours inp))%Q;
          Gesamt_Verluste := 0;
          pro_stunde :=
            {| Last_Wh_pro_Stunde := flat inp;
               Netzeinspeisung_Wh_pro_Stunde := flat inp;
               akku_soc_pro_stunde := flat inp;
               Netzbezug_Wh_pro_Stunde := flat inp;
               Kosten_Euro_pro_Stunde := flat inp;
               Einnahmen_Euro_pro_Stunde := flat inp;
               E_Auto_SoC_pro_Stunde := flat inp;
               Verluste_Pro_Stunde := flat inp;
               Haushaltsgeraet_wh_pro_stunde := flat inp |};
          ladezustand_in_prozent := soc;
          aktueller_energieinhalt := 0;
          eauto_to_dict := soc |}.

Definition eauto (soc : Q) : PVAkku :=
  {| kapazitaet_wh := 60000;
     hours := 2;
     lade_effizienz := Some (95 # 100);
     entlade_effizienz := Some 1%Q;
     max_ladeleistung_w := 11040;
     start_soc_prozent := soc;
     min_soc_prozent := None;
     charge_per_hour := [1; 1] |}.

Definition ems (soc : Q) : EnergieManagementSystem :=
  {| ems_gesamtlast := [0; 0]%Q;
     ems_pv_prognose_wh := [0; 0]%Q;
     ems_strompreis_euro_pro_wh := [3 # 10000; 3 # 10000];
     ems_einspeiseverguetung_euro_pro_wh := [7 # 100000; 7 # 100000];
     ems_eauto := eauto soc;
     ems_haushaltsgeraet := None;
     ems_wechselrichter :=
       {| max_leistung_wh := 10000;
          akku :=
            {| kapazitaet_wh := 26400;
               hours := 2;
               lade_effizienz := None;
               entlade_effizienz := None;
               max_ladeleistung_w := 5000;
               start_soc_prozent := 0;
               min_soc_prozent := Some 0%Q;
               charge_per_hour := [1; 1] |} |} |}.

(** The dictionary [parameter] for an EV at [soc] percent that shall
    reach [min_soc] percent. *)
Definition parameter (min_soc soc : Q) : ParameterDict :=
  {| p_einspeiseverguetung_euro_pro_wh := 7 # 100000;
     p_pv_akku_cap := 26400;
     p_pv_soc := 0;
     p_min_soc_prozent := 0;
     p_eauto_min_soc := min_soc;
     p_eauto_soc := soc;
     p_eauto_cap := 60000;
     p_eauto_charge_efficiency := 95 # 100;
     p_eauto_charge_power := 11040;
     p_haushaltsgeraet_wh := 0;
     p_haushaltsgeraet_dauer := 0;
     p_gesamtlast := [0; 0]%Q;
     p_pv_forecast := [0; 0]%Q;
     p_strompreis_euro_pro_wh := [3 # 10000; 3 # 10000];
     p_temperature_forecast := [15; 15]%Q;
     p_preis_euro_pro_wh_akku := 1 # 10000;
     p_start_solution := StartNone |}.

(** A problem over two hours, the second one locked for the EV, set up
    as [optimierung_ems] does it for [parameter min_soc soc], with
    [appliance] 1 when there is an appliance and 0 otherwise. *)
Definition problem (min_soc soc : Q) (appliance : Z) : optimization_problem :=
  setup_deap_environment
    (set_optimize_ev (init 2 10 1 false)
       (auto_optimize_ev (parameter min_soc soc)))
    appliance 8.

(** The start of the evolution only: every individual is evaluated, a
    failure of the fitness function propagates, and the hall of fame holds
    the first individual of least fitness.  No generation is run. *)
Fixpoint evaluate_all (evaluate : Individual -> result (Q * Individual))
  (population : list Individual) : result (list Individual) :=
  match population with
  | [] => Ok []
  | ind :: rest =>
      r <~ evaluate ind ;;
      rest' <~ evaluate_all evaluate rest ;;
      Ok ({| genes := genes (snd r);
             fitness_values := Some (fst r);
             extra_data := extra_data (snd r) |} :: rest')
  end.

Definition fitter (a b : Individual) : Individual :=
  match fitness_values a, fitness_values b with
  | Some x, Some y => if Qlt_bool y x then b else a
  | _, _ => a
  end.

Definition eaMuPlusLambda (population : list Individual)
  (evaluate : Individual -> result (Q * Individual))
  (mate : list Z -> list Z -> M (list Z * list Z))
  (mutate : Individual -> M Individual)
  (mu lambda_ : Z) (cxpb mutpb : Q) (ngen : Z)
  : M (list Individual * list Individual) :=
  lift (evaluated <~ evaluate_all evaluate population ;;
        Ok (evaluated,
            match evaluated with
            | [] => []
            | ind :: rest => [fold_left fitter rest ind]
            end)).



(** [problem] with the fitness function registered as [optimierung_ems]
    does it. *)
Definition registered (min_soc soc : Q) (appliance : Z)
  : optimization_problem :=
  register_evaluate (problem min_soc soc appliance)
    (fun ind =>
       evaluate currents Q simuliere (problem min_soc soc appliance) ind
         (ems soc) (parameter min_soc soc) 8 false).

End Demo.

(** * Properties *)

(** ** Decoding the battery actions *)

Lemma np_where_negative_nonneg (l : list Z) :
  Forall (fun x => 0 <= x) l ->
  map Z.opp (np_where (fun x => x <? 0) l) = repeat 0 (length l).
Proof.
  induction 1 as [|x l Hx _ IH]; simpl; [reflexivity|].
  rewrite IH. destruct (Z.ltb_spec x 0); [lia | reflexivity].
Qed.

Lemma np_where_positive (l : list Z) :
  np_where (fun x => 0 <? x) l = map (fun x => Z.max x 0) l.
Proof.
  unfold np_where. apply map_ext. intros x.
  destruct (Z.ltb_spec 0 x); lia.
Qed.

Lemma fold_max_zeros (n : nat) : fold_left Z.max (repeat 0 n) 0 = 0.
Proof. induction n; simpl; auto. Qed.

Lemma divide_zeros (n : nat) :
  map (fun c => np_true_divide c 0) (repeat 0 n) = repeat np_nan n.
Proof. induction n; simpl; [reflexivity | now rewrite IHn]. Qed.

(** C1, as the code has it: on a non-empty vector of battery actions without
    a negative gene the maximum of the raw charge is 0, the normalisation
    divides 0 by 0, and every entry of the charge vector is [nan], not 0.
    The discharge vector is [max(gene, 0)] per position. *)
Theorem split_charge_discharge_nonneg_is_nan (l : list Z) :
  l <> [] ->
  Forall (fun x => 0 <= x) l ->
  split_charge_discharge l
  = Ok (repeat np_nan (length l), map (fun x => Z.max x 0) l).
Proof.
  intros Hne Hpos. unfold split_charge_discharge.
  rewrite (np_where_negative_nonneg l Hpos), np_where_positive.
  destruct l as [|x l]; [congruence|].
  cbn [length repeat np_max]. rewrite fold_max_zeros.
  change (0 :: repeat 0 (length l)) with (repeat 0 (S (length l))).
  now rewrite divide_zeros.
Qed.

Lemma split_charge_discharge_nonneg_is_nan_witness :
  split_charge_discharge [0; 1; 0]
  = Ok ([np_nan; np_nan; np_nan], [0; 1; 0]).
Proof.
  apply (split_charge_discharge_nonneg_is_nan [0; 1; 0]).
  - discriminate.
  - repeat constructor; lia.
Defined.

(** With no hour at all [np.max] has nothing to take the maximum of. *)
Lemma split_charge_discharge_empty :
  split_charge_discharge [] = Raise ValueError.
Proof. reflexivity. Qed.

(** With a charging hour the profile is normalised to its peak. *)
Lemma split_charge_discharge_example :
  split_charge_discharge [-5; 1; 0; -2]
  = Ok ([np_finite (5 # 5); np_finite (0 # 5); np_finite (0 # 5);
         np_finite (2 # 5)], [0; 1; 0; 0]).
Proof. reflexivity. Qed.

(** ** The fitness *)

Lemma Qlt_bool_iff (x y : Q) : Qlt_bool x y = true <-> (x < y)%Q.
Proof.
  unfold Qlt_bool. rewrite negb_true_iff.
  split; intros H.
  - apply Qnot_le_lt. intros Hle. apply Qle_bool_iff in Hle. congruence.
  - destruct (Qle_bool y x) eqn:E; [|reflexivity].
    apply Qle_bool_iff in E. exfalso. eapply Qlt_not_le; eauto.
Qed.

Lemma max0_Qmax (x : Q) : (max0 x == Qmax 0 x)%Q.
Proof.
  unfold max0. destruct (Qlt_bool 0 x) eqn:E.
  - apply Qlt_bool_iff in E. symmetry. apply Q.max_r. now apply Qlt_le_weak.
  - symmetry. apply Q.max_l. apply Qnot_lt_le. intros H.
    apply Qlt_bool_iff in H. congruence.
Qed.

Lemma count_if_cons (f : Z -> bool) (x : Z) (l : list Z) :
  count_if f (x :: l) = (if f x then 1 else 0) + count_if f l.
Proof.
  unfold count_if, Py.len. simpl. destruct (f x); simpl length; lia.
Qed.

Lemma charging_penalty_acc (P : Q) (l : list Z) (acc : Q) :
  (fold_left (fun acc x => if x =? 0 then acc else acc + P) l acc
   == acc + P * inject_Z (count_if (fun x => negb (x =? 0)) l))%Q.
Proof.
  revert acc. induction l as [|x l IH]; intros acc.
  - cbn [fold_left]. change (count_if _ []) with 0.
    change (inject_Z 0) with 0%Q. ring.
  - cbn [fold_left]. rewrite IH, count_if_cons.
    destruct (x =? 0); cbn [negb]; rewrite inject_Z_plus;
      [change (inject_Z 0) with 0%Q | change (inject_Z 1) with 1%Q]; ring.
Qed.

Lemma charging_penalty_count (P : Q) (l : list Z) :
  (charging_penalty P l
   == P * inject_Z (count_if (fun x => negb (x =? 0)) l))%Q.
Proof. unfold charging_penalty. rewrite charging_penalty_acc. ring. Qed.

(** What lines 222-226 add: the penalty per charging hour when the shortfall
    is not positive, nothing when it is positive. *)
Lemma add_charging_penalty_spec (P m s : Q) (l : list Z) (g : Q) :
  (add_charging_penalty P m s l g
   == g + (if Qle_bool (m - s) 0
           then P * inject_Z (count_if (fun x => negb (x =? 0)) l)
           else 0))%Q.
Proof.
  unfold add_charging_penalty. destruct (Qle_bool (m - s) 0).
  - now rewrite charging_penalty_count.
  - ring.
Qed.

(** C2, at two inputs.  Target 80, final state of charge 30, one charging
    hour: the shortfall is positive, the specification charges the penalty
    10, the code adds nothing.  Target 50, final state of charge 60, one
    charging hour: the target is met, the specification charges nothing, the
    code adds 10. *)
Theorem charging_penalty_guard_is_inverted :
  (add_charging_penalty 10 80 30 [2; 0]%Z 0 == 0)%Q
  /\ (spec_under_soc_penalty 10 80 30 [2; 0]%Z == 10)%Q
  /\ (add_charging_penalty 10 50 60 [2; 0]%Z 0 == 10)%Q
  /\ (spec_under_soc_penalty 10 50 60 [2; 0]%Z == 0)%Q.
Proof. repeat split; reflexivity. Qed.

Lemma getitem_middle {A} (pre : list A) (x : A) (rest : list A) :
  Py.getitem (pre ++ x :: rest) (Z.of_nat (length pre)) = Ok x.
Proof.
  unfold Py.getitem, Py.position, Py.len.
  rewrite length_app. cbn [length].
  destruct (Z.ltb_spec (Z.of_nat (length pre)) 0); [lia|].
  destruct (Z.leb_spec 0 (Z.of_nat (length pre))); [|lia].
  destruct (Z.ltb_spec (Z.of_nat (length pre))
              (Z.of_nat (length pre + S (length rest)))); [|lia].
  cbn [andb]. rewrite Nat2Z.id, nth_error_app2 by lia.
  now rewrite Nat.sub_diag.
Qed.

Lemma idle_penalty_from (pre rest : list Z) (acc : Q) :
  exists q,
    idle_penalty (pre ++ rest)
      (map Z.of_nat (seq (length pre) (length rest))) acc = Ok q
    /\ (q == acc + (1 # 100) * inject_Z (count_if (fun x => x =? 0) rest))%Q.
Proof.
  revert pre acc. induction rest as [|x rest IH]; intros pre acc.
  - exists acc. split; [reflexivity|].
    change (count_if _ []) with 0. change (inject_Z 0) with 0%Q. ring.
  - cbn [length seq map idle_penalty].
    rewrite getitem_middle. cbn [bindR].
    destruct (IH (pre ++ [x]) (if x =? 0 then (acc + (1 # 100))%Q else acc))
      as (q & Hq & Heq).
    rewrite <- app_assoc, length_app, Nat.add_1_r in Hq. cbn [app] in Hq.
    exists q. split; [exact Hq|].
    rewrite Heq, count_if_cons, inject_Z_plus.
    destruct (x =? 0);
      [change (inject_Z 1) with 1%Q | change (inject_Z 0) with 0%Q]; ring.
Qed.

Lemma idle_penalty_range (d : list Z) :
  exists q,
    idle_penalty d (py_range (Py.len d)) 0 = Ok q
    /\ (q == (1 # 100) * inject_Z (count_if (fun x => x =? 0) d))%Q.
Proof.
  destruct (idle_penalty_from [] d 0) as (q & Hq & Heq).
  exists q. unfold py_range, Py.len. rewrite Nat2Z.id.
  split; [exact Hq|]. rewrite Heq. ring.
Qed.

Lemma len_slice_prefix {A} (l : list A) (H : Z) :
  0 <= H <= Py.len l -> Py.len (Py.slice l None (Some H)) = H.
Proof.
  unfold Py.slice, Py.bound, Py.norm_index, Py.len. intros HH.
  destruct (Z.ltb_spec H 0); [lia|].
  rewrite skipn_O, length_firstn. lia.
Qed.

Section Fitness.

Variable currents : list Q.
Variable EautoDict : Type.
Variable sim :
  EnergieManagementSystem -> ems_inputs -> Z -> result (Simulation EautoDict).

Lemma evaluate_inner_split (self : optimization_problem) (l : list Z)
  (ems : EnergieManagementSystem) (start_hour : Z)
  (o : Simulation EautoDict) :
  evaluate_inner currents EautoDict sim self l ems start_hour = Ok o ->
  exists spuelstart_int inputs,
    split_individual self l
    = Ok (Py.slice l None (Some (prediction_hours self)),
          Py.slice l (Some (prediction_hours self))
            (Some (prediction_hours self * 2)),
          spuelstart_int)
    /\ simulation_inputs currents self l start_hour = Ok inputs
    /\ sim ems inputs start_hour = Ok o.
Proof.
  unfold evaluate_inner. intros H.
  destruct (simulation_inputs currents self l start_hour) as [inputs|e] eqn:Hin;
    [|discriminate].
  cbn [bindR] in H.
  unfold simulation_inputs in Hin.
  destruct (split_individual self l) as [[[d ev] sp]|e] eqn:Hsp;
    [|discriminate].
  exists sp, inputs. split; [|split; [reflexivity | exact H]].
  unfold split_individual in Hsp |- *.
  destruct (has_haushaltsgeraet self).
  - destruct (Py.getitem l (-1)); cbn [bindR] in Hsp |- *;
      [|discriminate].
    now inversion Hsp.
  - cbn [bindR] in Hsp |- *. now inversion Hsp.
Qed.

(** The fitness of a genome whose simulation succeeds, term by term: the
    balance with the sign of the mode, 0.01 per idle hour, the penalty per
    charging hour under the guard of lines 223, the shortfall penalty and
    the residual value of the battery.  The diagnostic tuple is stored. *)
Lemma evaluate_fitness (self : optimization_problem) (ind : Individual)
  (ems : EnergieManagementSystem) (parameter : ParameterDict)
  (start_hour : Z) (worst_case : bool) (o : Simulation EautoDict) :
  evaluate_inner currents EautoDict sim self (genes ind) ems start_hour = Ok o ->
  0 <= prediction_hours self <= Py.len (genes ind) ->
  let H := prediction_hours self in
  let shortfall := (p_eauto_min_soc parameter - ladezustand_in_prozent o)%Q in
  exists f,
    evaluate currents EautoDict sim self ind ems parameter start_hour worst_case
    = Ok (f, set_extra_data ind
               (Gesamtbilanz_Euro o, Gesamt_Verluste o, shortfall))
    /\ (f == (if worst_case then - (1) else 1) * Gesamtbilanz_Euro o
           + (1 # 100)
             * inject_Z (count_if (fun x => x =? 0)
                           (Py.slice (genes ind) None (Some H)))
           + (if Qle_bool shortfall 0
              then strafe self
                   * inject_Z (count_if (fun x => negb (x =? 0))
                                 (Py.slice (genes ind) (Some H)
                                    (Some (H * 2)%Z)))
              else 0)
           + Qmax 0 (shortfall * strafe self)
           - aktueller_energieinhalt o
             * p_preis_euro_pro_wh_akku parameter)%Q.
Proof.
  intros Hin HH H shortfall.
  destruct (evaluate_inner_split _ _ _ _ _ Hin) as (sp & inputs & Hsp & _).
  unfold evaluate. rewrite Hin, Hsp. cbn [bindR].
  destruct (idle_penalty_range (Py.slice (genes ind) None (Some H)))
    as (q & Hq & Heq).
  rewrite len_slice_prefix in Hq by exact HH.
  fold H. rewrite Hq. cbn [bindR].
  eexists. split; [reflexivity|].
  rewrite add_charging_penalty_spec, max0_Qmax, Heq.
  fold shortfall. destruct worst_case; ring.
Qed.

(** C7: when the decoding or the simulation raises, the fitness is the
    sentinel 100000 and the individual is returned as it was: nothing is
    stored in [extra_data]. *)
Theorem evaluate_failure_sentinel (self : optimization_problem)
  (ind : Individual) (ems : EnergieManagementSystem)
  (parameter : ParameterDict) (start_hour : Z) (worst_case : bool)
  (e : exception) :
  evaluate_inner currents EautoDict sim self (genes ind) ems start_hour = Raise e ->
  evaluate currents EautoDict sim self ind ems parameter start_hour worst_case
  = Ok (100000%Q, ind).
Proof. intros H. unfold evaluate. now rewrite H. Qed.





End Fitness.

Lemma evaluate_failure_sentinel_witness :
  evaluate Demo.currents Q Demo.simuliere (Demo.problem 80 20 0)
    (creator_Individual [-1; 1; 7; 0]) (Demo.ems 20) (Demo.parameter 80 20)
    8 false
  = Ok (100000%Q, creator_Individual [-1; 1; 7; 0]).
Proof.
  apply (evaluate_failure_sentinel Demo.currents Q Demo.simuliere
           (Demo.problem 80 20 0) (creator_Individual [-1; 1; 7; 0])
           (Demo.ems 20) (Demo.parameter 80 20) 8 false IndexError).
  reflexivity.
Defined.

(** A failure of the simulation itself is treated alike. *)
Lemma evaluate_simulation_failure :
  evaluate_inner Demo.currents Q Demo.simuliere (Demo.problem 80 20 0)
    [-1; 1; 2; 0] (Demo.ems 20) 24
  = Raise (SimulationError 1)
  /\ evaluate Demo.currents Q Demo.simuliere (Demo.problem 80 20 0)
       (creator_Individual [-1; 1; 2; 0]) (Demo.ems 20)
       (Demo.parameter 80 20) 24 true
     = Ok (100000%Q, creator_Individual [-1; 1; 2; 0]).
Proof. split; reflexivity. Qed.

(** C3, at an input.  Two hours, target 80, EV at 20; the genome idles in
    hour 0, discharges in hour 1 and charges the EV with index 2 in hour 0.
    The simulation ends at 30 percent with a balance of 1/2.  The code
    returns 500.51; the fitness of the specification, which charges the
    penalty per charging hour because the shortfall is positive, is
    510.51. *)
Theorem evaluate_differs_from_spec_fitness :
  exists f,
    evaluate Demo.currents Q Demo.simuliere (Demo.problem 80 20 0)
      (creator_Individual [0; 1; 2; 0]) (Demo.ems 20) (Demo.parameter 80 20)
      8 false
    = Ok (f, set_extra_data (creator_Individual [0; 1; 2; 0])
               (1 # 2, 0, 50)%Q)
    /\ (f == 50051 # 100)%Q
    /\ (spec_fitness false (1 # 2) [0; 1]%Z [2; 0]%Z 10 80 30 0 (1 # 10000)
        == 51051 # 100)%Q.
Proof. eexists. repeat split; reflexivity. Qed.



(** ** Drawing genomes *)

Lemma random_randint_ok (a b : Z) (g : random_state) :
  a <= b ->
  exists x g', random_randint a b g = Ok (x, g') /\ a <= x <= b.
Proof.
  intros Hab. unfold random_randint.
  destruct (Z.leb_spec a b); [|lia].
  destruct (next_draw g) as [r g'].
  exists (a + r mod (b - a + 1)), g'. split; [reflexivity|].
  pose proof (Z.mod_pos_bound r (b - a + 1)). lia.
Qed.

Lemma repeatM_ok {A} (P : A -> Prop) (m : M A) (n : nat) :
  (forall g, exists x g', m g = Ok (x, g') /\ P x) ->
  forall g, exists l g',
    repeatM n m g = Ok (l, g') /\ length l = n /\ Forall P l.
Proof.
  intros Hm. induction n as [|n IH]; intros g.
  - exists [], g. repeat split. constructor.
  - destruct (Hm g) as (x & g1 & Hx & HP).
    destruct (IH g1) as (l & g2 & Hl & Hlen & HF).
    exists (x :: l), g2. cbn [repeatM]. unfold bind at 1. rewrite Hx.
    unfold bind at 1. rewrite Hl. unfold ret.
    repeat split; [simpl; lia | now constructor].
Qed.

Lemma set_up_inv (self : optimization_problem) (start_hour : Z) :
  set_up self start_hour = true ->
  exists tb n,
    toolbox self = Some tb /\ opti_param self = Some n
    /\ tb_start_hour tb = start_hour
    /\ tb_attr_ev_charge_index tb = optimize_ev self.
Proof.
  unfold set_up.
  destruct (toolbox self) as [tb|]; [|discriminate].
  destruct (opti_param self) as [n|]; [|discriminate].
  intros H. apply andb_true_iff in H. destruct H as [H1 H2].
  exists tb, n. repeat split; [lia | now apply eqb_prop].
Qed.

Lemma set_up_setup (self : optimization_problem) (op start_hour : Z) :
  set_up (setup_deap_environment self op start_hour) start_hour = true.
Proof.
  unfold set_up. cbn. rewrite Z.eqb_refl. now destruct (optimize_ev self).
Qed.

Section Drawing.

Variable currents : list Q.
Variable self : optimization_problem.
Variable start_hour : Z.
Hypothesis Hset : set_up self start_hour = true.
Hypothesis Hdraw : drawable self start_hour (Py.len currents) = true.

Lemma attr_discharge_state_ok (g : random_state) :
  exists x g', attr_discharge_state self g = Ok (x, g') /\ battery_action x.
Proof.
  destruct (set_up_inv _ _ Hset) as (tb & n & Htb & _).
  unfold attr_discharge_state, the_toolbox, bind, lift. rewrite Htb.
  apply random_randint_ok. lia.
Qed.

Lemma attr_ev_charge_index_ok (g : random_state) :
  optimize_ev self = true ->
  exists x g',
    attr_ev_charge_index currents self g = Ok (x, g')
    /\ charge_index (Py.len currents) x.
Proof.
  intros Hev.
  destruct (set_up_inv _ _ Hset) as (tb & n & Htb & _ & _ & Hattr).
  unfold attr_ev_charge_index, the_toolbox, bind, lift.
  rewrite Htb, Hattr, Hev.
  apply random_randint_ok.
  unfold drawable in Hdraw. rewrite Hev in Hdraw.
  apply andb_true_iff in Hdraw. lia.
Qed.

Lemma attr_int_ok (g : random_state) :
  has_haushaltsgeraet self = true ->
  exists x g', attr_int self g = Ok (x, g') /\ appliance_hour start_hour x.
Proof.
  intros Hhg.
  destruct (set_up_inv _ _ Hset) as (tb & n & Htb & _ & Hsh & _).
  unfold attr_int, the_toolbox, bind, lift. rewrite Htb, Hsh.
  apply random_randint_ok.
  unfold drawable in Hdraw. rewrite Hhg in Hdraw.
  apply andb_true_iff in Hdraw. lia.
Qed.

(** [create_individual] returns, and its genome is made of
    [prediction_hours] battery actions, as many charge indices when the EV is
    optimised and none otherwise, and the start hour when there is an
    appliance. *)
Lemma create_individual_parts (g : random_state) :
  exists b e a g',
    create_individual currents self g
    = Ok (creator_Individual ((b ++ e) ++ a), g')
    /\ length b = Z.to_nat (prediction_hours self)
    /\ Forall battery_action b
    /\ (if optimize_ev self
        then length e = Z.to_nat (prediction_hours self)
             /\ Forall (charge_index (Py.len currents)) e
        else e = [])
    /\ (if has_haushaltsgeraet self
        then exists x, a = [x] /\ appliance_hour start_hour x
        else a = []).
Proof.
  destruct (set_up_inv _ _ Hset) as (tb & n & Htb & Hop & _).
  destruct (repeatM_ok battery_action (attr_discharge_state self)
              (Z.to_nat (prediction_hours self)) attr_discharge_state_ok g)
    as (b & g1 & Hb & Hlb & HFb).
  assert (exists e g2,
             (if optimize_ev self
              then bind (repeatM (Z.to_nat (prediction_hours self))
                           (attr_ev_charge_index currents self))
                     (fun ev => ret (b ++ ev))
              else ret b) g1 = Ok (b ++ e, g2)
             /\ (if optimize_ev self
                 then length e = Z.to_nat (prediction_hours self)
                      /\ Forall (charge_index (Py.len currents)) e
                 else e = [])) as (e & g2 & He & HPe).
  { destruct (optimize_ev self) eqn:Hev.
    - destruct (repeatM_ok (charge_index (Py.len currents))
                  (attr_ev_charge_index currents self)
                  (Z.to_nat (prediction_hours self))
                  (fun g => attr_ev_charge_index_ok g Hev) g1)
        as (e & g2 & He & Hle & HFe).
      exists e, g2. unfold bind. rewrite He. now split.
    - exists [], g1. rewrite app_nil_r. now split. }
  assert (exists a g3,
             (if 0 <? n
              then bind (attr_int self) (fun hour => ret ((b ++ e) ++ [hour]))
              else ret (b ++ e)) g2 = Ok ((b ++ e) ++ a, g3)
             /\ (if has_haushaltsgeraet self
                 then exists x, a = [x] /\ appliance_hour start_hour x
                 else a = [])) as (a & g3 & Ha & HPa).
  { assert (has_haushaltsgeraet self = (0 <? n)) as Hhg
      by (unfold has_haushaltsgeraet; now rewrite Hop).
    rewrite Hhg. destruct (0 <? n) eqn:Hn.
    - destruct (attr_int_ok g2 Hhg) as (x & g3 & Hx & HPx).
      exists [x], g3. unfold bind. rewrite Hx. split; [reflexivity|].
      now exists x.
    - exists [], g2. rewrite app_nil_r. now split. }
  exists b, e, a, g3.
  split; [|now repeat split].
  unfold create_individual.
  unfold bind at 1. rewrite Hb.
  unfold bind at 1. rewrite He.
  unfold bind at 1. unfold lift, haushaltsgeraete. rewrite Hop.
  unfold bind at 1. rewrite Ha. reflexivity.
Qed.

End Drawing.

(** ** Positional invariants *)

Lemma all_at_app (P : Z -> Z -> bool) (k : Z) (l1 l2 : list Z) :
  all_at P k (l1 ++ l2) = all_at P k l1 && all_at P (k + Py.len l1) l2.
Proof.
  revert k. induction l1 as [|x l1 IH]; intros k.
  - cbn. now rewrite Z.add_0_r.
  - cbn [app all_at]. rewrite IH, andb_assoc. unfold Py.len. cbn [length].
    now replace (k + Z.of_nat (S (length l1)))
      with (k + 1 + Z.of_nat (length l1)) by lia.
Qed.

Lemma all_at_Forall (P : Z -> Z -> bool) (Q : Z -> Prop) (k : Z)
  (l : list Z) :
  Forall Q l ->
  (forall i x, k <= i < k + Py.len l -> Q x -> P i x = true) ->
  all_at P k l = true.
Proof.
  intros HF. revert k. induction HF as [|x l Hx _ IH]; intros k HP.
  - reflexivity.
  - unfold Py.len in HP. cbn [length] in HP. cbn [all_at].
    rewrite HP by (auto; lia). apply IH. intros i y Hi Hy.
    apply HP; [unfold Py.len in Hi; lia | exact Hy].
Qed.

(** A genome made of the three regions lies in the domain. *)
Lemma in_domain_parts (self : optimization_problem) (start_hour n : Z)
  (b e a : list Z) :
  0 <= prediction_hours self ->
  length b = Z.to_nat (prediction_hours self) ->
  Forall battery_action b ->
  (if optimize_ev self
   then length e = Z.to_nat (prediction_hours self)
        /\ Forall (charge_index n) e
   else e = []) ->
  (if has_haushaltsgeraet self
   then exists x, a = [x] /\ appliance_hour start_hour x
   else a = []) ->
  in_domain self start_hour n ((b ++ e) ++ a) = true.
Proof.
  intros HH Hb HFb He Ha.
  assert (Py.len b = prediction_hours self) as Hlb
    by (unfold Py.len; lia).
  assert (Py.len e = if optimize_ev self then prediction_hours self else 0)
    as Hle.
  { unfold Py.len. destruct (optimize_ev self).
    - destruct He. lia.
    - now subst e. }
  unfold in_domain. apply andb_true_iff. split.
  - apply Z.eqb_eq. unfold genome_length, Py.len in *.
    rewrite !length_app.
    destruct (has_haushaltsgeraet self).
    + destruct Ha as (x & -> & _). cbn [length]. lia.
    + subst a. cbn [length]. lia.
  - rewrite !all_at_app, !andb_true_iff. repeat split.
    + apply (all_at_Forall _ battery_action); [exact HFb|].
      intros i x Hi Hx. unfold gene_domain, battery_action in *.
      destruct (Z.ltb_spec i (prediction_hours self)); lia.
    + destruct (optimize_ev self) eqn:Hev.
      * destruct He as [_ HFe].
        apply (all_at_Forall _ (charge_index n)); [exact HFe|].
        intros i x Hi Hx. unfold gene_domain, charge_index in *.
        rewrite Hev.
        destruct (Z.ltb_spec i (prediction_hours self)); [lia|].
        destruct (Z.ltb_spec i (prediction_hours self * 2)); [|lia].
        cbn [andb]. lia.
      * now subst e.
    + destruct (has_haushaltsgeraet self).
      * destruct Ha as (x & -> & Hx). cbn [all_at]. rewrite andb_true_r.
        unfold gene_domain, appliance_hour in *.
        replace (Py.len (b ++ e))
          with (prediction_hours self
                + (if optimize_ev self then prediction_hours self else 0))
          by (unfold Py.len in *; rewrite length_app; lia).
        destruct (optimize_ev self).
        -- destruct (Z.ltb_spec (0 + (prediction_hours self
                                      + prediction_hours self))
                       (prediction_hours self)); [lia|].
           destruct (Z.ltb_spec (0 + (prediction_hours self
                                      + prediction_hours self))
                       (prediction_hours self * 2)); [lia|].
           cbn [andb]. lia.
        -- destruct (Z.ltb_spec (0 + (prediction_hours self + 0))
                       (prediction_hours self)); [lia|].
           cbn [andb]. lia.
      * now subst a.
Qed.

Lemma drawable_setup (self0 : optimization_problem) (op start_hour n : Z) :
  (optimize_ev self0 = true -> 1 <= n) ->
  (0 < op -> start_hour <= 23) ->
  drawable (setup_deap_environment self0 op start_hour) start_hour n = true.
Proof.
  intros Hev Hop. unfold drawable, has_haushaltsgeraet. cbn.
  apply andb_true_iff. split.
  - destruct (optimize_ev self0); [|reflexivity]. apply Z.leb_le. auto.
  - destruct (Z.ltb_spec 0 op); [|reflexivity]. apply Z.leb_le. auto.
Qed.

(** ** The length of the genome *)

(** C4, as the code has it: after the set-up, [create_individual] returns a
    genome of [H] battery genes, [H] more genes only when the EV is
    optimised, and one more gene exactly when there is an appliance. *)
Theorem create_individual_length (currents : list Q)
  (self0 : optimization_problem) (op start_hour : Z) (g : random_state) :
  0 <= prediction_hours self0 ->
  (optimize_ev self0 = true -> 1 <= Py.len currents) ->
  (0 < op -> start_hour <= 23) ->
  exists ind g',
    create_individual currents (setup_deap_environment self0 op start_hour) g
    = Ok (ind, g')
    /\ Py.len (genes ind)
       = prediction_hours self0
         + (if optimize_ev self0 then prediction_hours self0 else 0)
         + (if 0 <? op then 1 else 0).
Proof.
  intros HH Hev Hop.
  pose proof (set_up_setup self0 op start_hour) as Hset.
  pose proof (drawable_setup self0 op start_hour _ Hev Hop) as Hdraw.
  destruct (create_individual_parts currents _ start_hour Hset Hdraw g)
    as (b & e & a & g' & Hc & Hb & HFb & He & Ha).
  exists (creator_Individual ((b ++ e) ++ a)), g'. split; [exact Hc|].
  pose proof (in_domain_parts (setup_deap_environment self0 op start_hour)
                start_hour (Py.len currents) b e a HH Hb HFb He Ha) as Hdom.
  unfold in_domain in Hdom. apply andb_true_iff in Hdom.
  destruct Hdom as [Hlen _]. apply Z.eqb_eq in Hlen.
  cbn [genes creator_Individual]. rewrite Hlen.
  reflexivity.
Qed.

Lemma create_individual_length_witness :
  exists ind g',
    create_individual Demo.currents (Demo.problem 20 50 1) [0; 0; 1; 2]
    = Ok (ind, g')
    /\ Py.len (genes ind) = 3.
Proof.
  apply (create_individual_length Demo.currents
           (set_optimize_ev (init 2 10 1 false)
              (auto_optimize_ev (Demo.parameter 20 50)))
           1 8 [0; 0; 1; 2]).
  - cbn. lia.
  - cbn. discriminate.
  - lia.
Defined.

(** The claim that the genome has length [2H] or [2H + 1] fails when the EV
    is taken out of the optimisation: for two hours and no appliance the
    genome has two genes. *)
Lemma create_individual_length_counterexample :
  exists ind g',
    create_individual Demo.currents (Demo.problem 20 50 0) [0; 0; 1; 2]
    = Ok (ind, g')
    /\ Py.len (genes ind) = 2
    /\ Py.len (genes ind) <> spec_genome_length 2 false
    /\ Py.len (genes ind) <> spec_genome_length 2 true.
Proof.
  eexists. eexists. split; [reflexivity|].
  cbn. repeat split; discriminate.
Qed.

(** ** The initial population *)

Lemma bind_ret_eta {A} (m : M A) (g : random_state) : bind m ret g = m g.
Proof. unfold bind, ret. destruct (m g) as [[a g']|e]; reflexivity. Qed.

Lemma bind_congr {A B} (m1 m2 : M A) (k : A -> M B) (g : random_state) :
  m1 g = m2 g -> bind m1 k g = bind m2 k g.
Proof. unfold bind. now intros ->. Qed.

(** Lines 258-261 for [None] and for [-1]: the population is left as it was
    drawn. *)
Lemma initial_population_unseeded (currents : list Q)
  (self : optimization_problem) (g : random_state) :
  initial_population currents self StartNone g = population currents self 300 g
  /\ initial_population currents self StartMinusOne g
     = population currents self 300 g.
Proof. unfold initial_population. now rewrite bind_ret_eta. Qed.

(** Lines 258-261 for a genome: three fresh copies are put in front. *)
Lemma initial_population_seeded (currents : list Q)
  (self : optimization_problem) (l : list Z) (g : random_state) :
  initial_population currents self (StartGenome l) g
  = match population currents self 300 g with
    | Ok (pop, g') =>
        Ok (creator_Individual l :: creator_Individual l
              :: creator_Individual l :: pop, g')
    | Raise e => Raise e
    end.
Proof.
  unfold initial_population, bind.
  destruct (population currents self 300 g) as [[pop g']|e]; reflexivity.
Qed.

Lemma population_ok (currents : list Q) (self : optimization_problem)
  (start_hour : Z) (n : nat) (g : random_state) :
  set_up self start_hour = true ->
  drawable self start_hour (Py.len currents) = true ->
  0 <= prediction_hours self ->
  exists pop g',
    population currents self n g = Ok (pop, g')
    /\ length pop = n
    /\ Forall (fun ind =>
                 in_domain self start_hour (Py.len currents) (genes ind)
                 = true) pop.
Proof.
  intros Hset Hdraw HH.
  destruct (set_up_inv _ _ Hset) as (tb & k & Htb & _).
  unfold population, bind, lift, the_toolbox. rewrite Htb.
  apply repeatM_ok. intros g0.
  destruct (create_individual_parts currents self start_hour Hset Hdraw g0)
    as (b & e & a & g' & Hc & Hb & HFb & He & Ha).
  exists (creator_Individual ((b ++ e) ++ a)), g'. split; [exact Hc|].
  now apply in_domain_parts.
Qed.

Section Seeding.

Variable currents : list Q.
Variable eaMuPlusLambda :
  list Individual ->
  (Individual -> result (Q * Individual)) ->
  (list Z -> list Z -> M (list Z * list Z)) ->
  (Individual -> M Individual) ->
  Z -> Z -> Q -> Q -> Z ->
  M (list Individual * list Individual).

(** The rest of [optimize] once the toolbox holds a fitness function: the
    call of the evolution on [population], then lines 277-285. *)
Lemma run_evolution_registered (self : optimization_problem) (tb : Toolbox)
  (f : Individual -> result (Q * Individual)) (pop : list Individual)
  (ngen : Z) (g : random_state) :
  toolbox self = Some tb ->
  tb_evaluate tb = Some f ->
  run_evolution currents eaMuPlusLambda self pop ngen g
  = bind (eaMuPlusLambda pop f cxTwoPoint (mutate currents self)
            100 150 (1 # 2)%Q (1 # 2)%Q ngen)
      (fun final =>
         let '(population, hof) := final in
         bind (lift (Py.getitem hof 0))
           (fun best => ret (best, collect_extra_data population)))
      g.
Proof.
  intros Htb Hf. unfold run_evolution.
  unfold bind at 1. unfold lift, the_toolbox. rewrite Htb.
  unfold bind at 1. rewrite Hf. unfold ret at 1. reflexivity.
Qed.

(** On the values of the annotation, [optimize_any] is [optimize]. *)
Lemma optimize_any_of_StartSolution (self : optimization_problem)
  (start_solution : StartSolution) (ngen : Z) (g : random_state) :
  optimize_any currents eaMuPlusLambda self (of_StartSolution start_solution)
    ngen g
  = optimize currents eaMuPlusLambda self start_solution ngen g.
Proof.
  unfold optimize_any, optimize, initial_population_any, initial_population,
    bind.
  destruct (population currents self 300 g) as [[pop g']|e]; [|reflexivity].
  destruct start_solution; reflexivity.
Qed.

(** C10, as the code has it.  Once the 300 individuals [pop] are drawn and a
    fitness function [f] is registered: for [None], for the integer -1 and
    for a float equal to -1, no copy is put into the population and the
    evolution is called on [pop]; for every list, three copies of it are put
    in front and the evolution is called on these 303 individuals; for every
    other integer or float no copy is put in: [creator.Individual] raises
    [TypeError] and so does [optimize].  On [None], -1 and a genome
    [optimize] is [optimize_any]. *)
Theorem optimize_minus_one_like_none (self : optimization_problem)
  (tb : Toolbox) (f : Individual -> result (Q * Individual)) (ngen : Z)
  (g g' : random_state) (pop : list Individual) :
  population currents self 300 g = Ok (pop, g') ->
  toolbox self = Some tb ->
  tb_evaluate tb = Some f ->
  (forall v,
     v = PyNone \/ v = PyInt (-1)
     \/ (exists q, v = PyFloat (np_finite q) /\ (q == - (1))%Q) ->
     initial_population_any currents self v g = Ok (pop, g')
     /\ optimize_any currents eaMuPlusLambda self v ngen g
        = bind (eaMuPlusLambda pop f cxTwoPoint (mutate currents self)
                  100 150 (1 # 2)%Q (1 # 2)%Q ngen)
            (fun final =>
               let '(population, hof) := final in
               bind (lift (Py.getitem hof 0))
                 (fun best => ret (best, collect_extra_data population)))
            g')
  /\ (forall l,
        initial_population_any currents self (PyList l) g
        = Ok (creator_Individual l :: creator_Individual l
                :: creator_Individual l :: pop, g')
        /\ optimize_any currents eaMuPlusLambda self (PyList l) ngen g
           = bind (eaMuPlusLambda
                     (creator_Individual l :: creator_Individual l
                        :: creator_Individual l :: pop)
                     f cxTwoPoint (mutate currents self)
                     100 150 (1 # 2)%Q (1 # 2)%Q ngen)
               (fun final =>
                  let '(population, hof) := final in
                  bind (lift (Py.getitem hof 0))
                    (fun best => ret (best, collect_extra_data population)))
               g')
  /\ (forall v,
        (exists z, v = PyInt z /\ z <> -1)
        \/ (exists x, v = PyFloat x
                      /\ forall q, x = np_finite q -> ~ (q == - (1))%Q) ->
        initial_population_any currents self v g = Raise TypeError
        /\ optimize_any currents eaMuPlusLambda self v ngen g
           = Raise TypeError)
  /\ (forall start_solution,
        optimize currents eaMuPlusLambda self start_solution ngen g
        = optimize_any currents eaMuPlusLambda self
            (of_StartSolution start_solution) ngen g).
Proof.
  intros Hpop Htb Hf.
  assert (forall v p,
             initial_population_any currents self v g = Ok (p, g') ->
             optimize_any currents eaMuPlusLambda self v ngen g
             = bind (eaMuPlusLambda p f cxTwoPoint (mutate currents self)
                       100 150 (1 # 2)%Q (1 # 2)%Q ngen)
                 (fun final =>
                    let '(population, hof) := final in
                    bind (lift (Py.getitem hof 0))
                      (fun best => ret (best, collect_extra_data population)))
                 g') as Hrun.
  { intros v p Hv. unfold optimize_any. unfold bind at 1. rewrite Hv.
    now apply run_evolution_registered with (tb := tb). }
  assert (forall v,
             initial_population_any currents self v g = Raise TypeError ->
             optimize_any currents eaMuPlusLambda self v ngen g
             = Raise TypeError) as Hraise.
  { intros v Hv. unfold optimize_any. unfold bind at 1. now rewrite Hv. }
  split; [|split; [|split]].
  - intros v Hv.
    assert (initial_population_any currents self v g = Ok (pop, g')) as Hi.
    { unfold initial_population_any. unfold bind at 1. rewrite Hpop.
      destruct Hv as [-> | [-> | (q & -> & Hq)]]; [reflexivity..|].
      cbn [in_None_minus_one].
      apply Qeq_bool_iff in Hq. now rewrite Hq. }
    split; [exact Hi | now apply Hrun].
  - intros l.
    assert (initial_population_any currents self (PyList l) g
            = Ok (creator_Individual l :: creator_Individual l
                    :: creator_Individual l :: pop, g')) as Hi.
    { unfold initial_population_any. unfold bind at 1. now rewrite Hpop. }
    split; [exact Hi | now apply Hrun].
  - intros v Hv.
    assert (initial_population_any currents self v g = Raise TypeError)
      as Hi.
    { unfold initial_population_any. unfold bind at 1. rewrite Hpop.
      destruct Hv as [(z & -> & Hz) | (x & -> & Hx)].
      - cbn [in_None_minus_one].
        apply Z.eqb_neq in Hz. now rewrite Hz.
      - destruct x as [q| |]; [|reflexivity..].
        cbn [in_None_minus_one].
        destruct (Qeq_bool q (- (1))) eqn:E; [|reflexivity].
        apply Qeq_bool_iff in E. now destruct (Hx q eq_refl). }
    split; [exact Hi | now apply Hraise].
  - intros start_solution. symmetry. apply optimize_any_of_StartSolution.
Qed.

(** C8, as the code has it: a start solution is not checked against the
    length of the genome.  Whatever its length, three copies of it stand at
    the head of the 303 individuals the evolution starts from. *)
Theorem start_solution_not_checked (self : optimization_problem)
  (start_hour : Z) (tb : Toolbox)
  (f : Individual -> result (Q * Individual)) (l : list Z) (ngen : Z)
  (g : random_state) :
  set_up self start_hour = true ->
  drawable self start_hour (Py.len currents) = true ->
  0 <= prediction_hours self ->
  toolbox self = Some tb ->
  tb_evaluate tb = Some f ->
  exists pop g',
    population currents self 300 g = Ok (pop, g')
    /\ length pop = 300%nat
    /\ initial_population currents self (StartGenome l) g
       = Ok (creator_Individual l :: creator_Individual l
               :: creator_Individual l :: pop, g')
    /\ optimize currents eaMuPlusLambda self (StartGenome l) ngen g
       = bind (eaMuPlusLambda
                 (creator_Individual l :: creator_Individual l
                    :: creator_Individual l :: pop)
                 f cxTwoPoint (mutate currents self)
                 100 150 (1 # 2)%Q (1 # 2)%Q ngen)
           (fun final =>
              let '(population, hof) := final in
              bind (lift (Py.getitem hof 0))
                (fun best => ret (best, collect_extra_data population)))
           g'.
Proof.
  intros Hset Hdraw HH Htb Hf.
  destruct (population_ok currents self start_hour 300 g Hset Hdraw HH)
    as (pop & g' & Hpop & Hlen & _).
  exists pop, g'.
  pose proof (initial_population_seeded currents self l g) as Hseed.
  rewrite Hpop in Hseed.
  repeat split; [exact Hpop | exact Hlen | exact Hseed |].
  unfold optimize. unfold bind at 1. rewrite Hseed.
  unfold bind at 1. unfold lift, the_toolbox. rewrite Htb.
  unfold bind at 1. rewrite Hf. unfold ret at 1.
  reflexivity.
Qed.

End Seeding.

Lemma start_solution_not_checked_witness :
  exists pop g',
    initial_population Demo.currents (Demo.registered 80 20 0)
      (StartGenome [7]) []
    = Ok (creator_Individual [7] :: creator_Individual [7]
            :: creator_Individual [7] :: pop, g')
    /\ length pop = 300%nat.
Proof.
  edestruct (start_solution_not_checked Demo.currents Demo.eaMuPlusLambda
               (Demo.registered 80 20 0) 8)
    with (l := [7]) (ngen := 1) (g := @nil Z)
    as (pop & g' & _ & Hlen & Hseed & _);
    [reflexivity | reflexivity | vm_compute; discriminate
    | reflexivity | reflexivity |].
  exists pop, g'. split; [exact Hseed | exact Hlen].
Defined.

Lemma optimize_minus_one_like_none_witness :
  exists pop g',
    population Demo.currents (Demo.registered 80 20 0) 300 [] = Ok (pop, g')
    /\ length pop = 300%nat
    /\ initial_population_any Demo.currents (Demo.registered 80 20 0)
         (PyInt (-1)) []
       = Ok (pop, g')
    /\ initial_population_any Demo.currents (Demo.registered 80 20 0)
         PyNone []
       = Ok (pop, g')
    /\ initial_population_any Demo.currents (Demo.registered 80 20 0)
         (PyList [0; 1; 2; 0]) []
       = Ok (creator_Individual [0; 1; 2; 0]
               :: creator_Individual [0; 1; 2; 0]
               :: creator_Individual [0; 1; 2; 0] :: pop, g').
Proof.
  destruct (population_ok Demo.currents (Demo.registered 80 20 0) 8 300 []
              eq_refl eq_refl ltac:(vm_compute; discriminate))
    as (pop & g' & Hpop & Hlen & _).
  exists pop, g'.
  destruct (optimize_minus_one_like_none Demo.currents Demo.eaMuPlusLambda
              (Demo.registered 80 20 0) _ _ 1 [] g' pop Hpop
              eq_refl eq_refl) as (Hskip & Hlist & _).
  split; [exact Hpop|]. split; [exact Hlen|].
  split; [apply (Hskip (PyInt (-1))); right; now left|].
  split; [apply (Hskip PyNone); now left|].
  apply (Hlist [0; 1; 2; 0]).
Defined.

(** The claim that three copies are inserted for every start solution
    other than [None] and the integer -1 fails.  The integer 5 is such a
    start solution: no copy of it is put into the population, [optimize]
    raises [TypeError].  The float -1.0 is another one: it is skipped like
    [None], the evolution starts from the 300 drawn individuals. *)
Lemma start_solution_number_not_copied :
  PyInt 5 <> PyNone /\ PyInt 5 <> PyInt (-1)
  /\ initial_population_any Demo.currents (Demo.registered 80 20 0)
       (PyInt 5) []
     = Raise TypeError
  /\ optimize_any Demo.currents Demo.eaMuPlusLambda (Demo.registered 80 20 0)
       (PyInt 5) 1 []
     = Raise TypeError
  /\ PyFloat (np_finite (- (1))) <> PyNone
  /\ PyFloat (np_finite (- (1))) <> PyInt (-1)
  /\ (exists pop g',
        initial_population_any Demo.currents (Demo.registered 80 20 0)
          (PyFloat (np_finite (- (1)))) []
        = Ok (pop, g')
        /\ length pop = 300%nat
        /\ initial_population_any Demo.currents (Demo.registered 80 20 0)
             PyNone []
           = Ok (pop, g')).
Proof.
  destruct (population_ok Demo.currents (Demo.registered 80 20 0) 8 300 []
              eq_refl eq_refl ltac:(vm_compute; discriminate))
    as (pop & g' & Hpop & Hlen & _).
  split; [discriminate|]. split; [discriminate|].
  assert (initial_population_any Demo.currents (Demo.registered 80 20 0)
            (PyInt 5) [] = Raise TypeError) as Hi.
  { unfold initial_population_any. unfold bind at 1. now rewrite Hpop. }
  split; [exact Hi|].
  split; [unfold optimize_any; unfold bind at 1; now rewrite Hi|].
  split; [discriminate|]. split; [discriminate|].
  exists pop, g'.
  unfold initial_population_any, bind. rewrite Hpop.
  split; [reflexivity|]. split; [exact Hlen | reflexivity].
Qed.

(** The claim that a start solution of the wrong length is rejected before
    the evolution starts fails: with genomes of four genes, the start
    solution of five genes is copied into the initial population, and the
    fitness function evaluates it like the genome of its first four genes. *)
Lemma wrong_length_start_solution_accepted :
  Py.len [0; 1; 2; 0; 9] <> genome_length (Demo.registered 80 20 0)
  /\ (exists pop g',
        initial_population Demo.currents (Demo.registered 80 20 0)
          (StartGenome [0; 1; 2; 0; 9]) []
        = Ok (creator_Individual [0; 1; 2; 0; 9]
                :: creator_Individual [0; 1; 2; 0; 9]
                :: creator_Individual [0; 1; 2; 0; 9] :: pop, g'))
  /\ (exists f,
        evaluate Demo.currents Q Demo.simuliere (Demo.registered 80 20 0)
          (creator_Individual [0; 1; 2; 0; 9]) (Demo.ems 20)
          (Demo.parameter 80 20) 8 false
        = Ok (f, set_extra_data (creator_Individual [0; 1; 2; 0; 9])
                   (1 # 2, 0, 50)%Q)
        /\ (f == 50051 # 100)%Q).
Proof.
  split; [vm_compute; discriminate|]. split.
  - destruct (population_ok Demo.currents (Demo.registered 80 20 0) 8 300 []
                eq_refl eq_refl ltac:(vm_compute; discriminate))
      as (pop & g' & Hpop & _).
    exists pop, g'. now rewrite initial_population_seeded, Hpop.
  - eexists. split; reflexivity.
Qed.

(** A start solution that is too short is copied in as well; its evaluation
    raises outside the [try] of [evaluate], when the idle hours are
    counted. *)
Lemma evaluate_short_genome_raises :
  evaluate Demo.currents Q Demo.simuliere (Demo.registered 80 20 0)
    (creator_Individual [7]) (Demo.ems 20) (Demo.parameter 80 20) 8 false
  = Raise IndexError.
Proof. reflexivity. Qed.

(** ** The entry point *)

(** C9: [startdate] is not used.  Two calls of [optimierung_ems] that differ
    in this argument alone, on the same state of the generator and with the
    same collaborators, return the same dictionary (and leave [self] in the
    same state). *)
Theorem optimierung_ems_ignores_startdate (currents : list Q)
  (EautoDict : Type)
  (sim : EnergieManagementSystem -> ems_inputs -> Z
         -> result (Simulation EautoDict))
  (ea : list Individual -> (Individual -> result (Q * Individual))
        -> (list Z -> list Z -> M (list Z * list Z))
        -> (Individual -> M Individual)
        -> Z -> Z -> Q -> Q -> Z -> M (list Individual * list Individual))
  (Any1 Any2 : Type) (self : optimization_problem)
  (parameter : ParameterDict) (start_hour : Z) (worst_case : bool)
  (startdate1 : option Any1) (startdate2 : option Any2) (ngen : Z)
  (g : random_state) :
  optimierung_ems currents EautoDict sim ea self parameter start_hour
    worst_case startdate1 ngen g
  = optimierung_ems currents EautoDict sim ea self parameter start_hour
      worst_case startdate2 ngen g.
Proof. reflexivity. Qed.

(** [optimierung_ems] in two steps: it constructs the system of
    [optimierung_ems_system] and runs [optimize] on the problem of
    [optimierung_ems_problem], which it also leaves behind as [self]. *)
Lemma optimierung_ems_by_parts (currents : list Q) (EautoDict : Type)
  (sim : EnergieManagementSystem -> ems_inputs -> Z
         -> result (Simulation EautoDict))
  (ea : list Individual -> (Individual -> result (Q * Individual))
        -> (list Z -> list Z -> M (list Z * list Z))
        -> (Individual -> M Individual)
        -> Z -> Z -> Q -> Q -> Z -> M (list Individual * list Individual))
  (Any : Type) (self : optimization_problem) (parameter : ParameterDict)
  (start_hour : Z) (worst_case : bool) (startdate : option Any) (ngen : Z)
  (g g' : random_state) (r : Ergebnis EautoDict)
  (self' : optimization_problem) :
  optimierung_ems currents EautoDict sim ea self parameter start_hour
    worst_case startdate ngen g
  = Ok (r, self', g') ->
  exists ems member o,
    optimierung_ems_system self parameter = Ok ems
    /\ self'
       = optimierung_ems_problem currents EautoDict sim self parameter
           start_hour worst_case ems
    /\ optimize currents ea self' (p_start_solution parameter) ngen g
       = Ok (r_start_solution r, member, g')
    /\ evaluate_inner currents EautoDict sim self'
         (genes (r_start_solution r)) ems start_hour
       = Ok o
    /\ r_eauto_obj r = eauto_to_dict o.
Proof.
  unfold optimierung_ems, optimierung_ems_system, np_full.
  destruct (prediction_hours self <? 0); [discriminate|].
  unfold bind at 1. cbn [lift]. unfold bind at 1. cbn [lift bindR].
  set (ems := Build_EnergieManagementSystem _ _ _ _ _ _ _).
  change (register_evaluate _ _)
    with (optimierung_ems_problem currents EautoDict sim self parameter
            start_hour worst_case ems).
  set (problem := optimierung_ems_problem _ _ _ _ _ _ _ _).
  unfold bind at 1.
  destruct (optimize currents ea problem (p_start_solution parameter) ngen g)
    as [[[best member] g1]|e] eqn:Hopt; [|discriminate].
  unfold bind at 1. unfold lift at 1.
  destruct (evaluate_inner currents EautoDict sim problem (genes best) ems
              start_hour) as [o|e] eqn:Ho; [|discriminate].
  unfold bind at 1. unfold lift at 1.
  destruct (split_individual problem (genes best)) as [[[d c] sp]|e];
    [|discriminate].
  unfold bind at 1. unfold lift at 1.
  destruct (null_all (pro_stunde o)) as [arrays|e]; [|discriminate].
  unfold ret. intros Heq. injection Heq as <- <- <-.
  exists ems, member, o. cbn [r_start_solution r_eauto_obj].
  split; [reflexivity|]. split; [reflexivity|]. split; [exact Hopt|].
  split; [exact Ho | reflexivity].
Qed.

(** The entry point does return on the small instance: the plan of the best
    individual of the initial population. *)
Lemma optimierung_ems_example :
  exists r self',
    optimierung_ems Demo.currents Q Demo.simuliere Demo.eaMuPlusLambda
      (init 2 10 1 false) (Demo.parameter 80 20) 8 false (Some 20240101) 1
      [6; 1; 2; 1]
    = Ok (r, self', [])
    /\ r_discharge_hours_bin r = [1; -4]
    /\ r_eautocharge_hours_float r = [2; 1]
    /\ r_spuelstart r = None.
Proof. vm_compute. do 2 eexists. repeat split. Qed.

(** ** Slices of a genome in three regions *)

Lemma slice_head {A} (m s : list A) :
  Py.slice (m ++ s) None (Some (Py.len m)) = m.
Proof.
  unfold Py.slice, Py.bound, Py.norm_index, Py.len.
  destruct (Z.ltb_spec (Z.of_nat (length m)) 0); [lia|].
  rewrite length_app, Z.sub_0_r, Z.min_l by lia.
  rewrite Nat2Z.id. cbn [Z.to_nat skipn].
  rewrite firstn_app, Nat.sub_diag, firstn_all. cbn [firstn].
  apply app_nil_r.
Qed.

Lemma setslice_head {A} (m s new : list A) :
  Py.setslice (m ++ s) None (Some (Py.len m)) new = new ++ s.
Proof.
  unfold Py.setslice, Py.bound, Py.norm_index, Py.len.
  destruct (Z.ltb_spec (Z.of_nat (length m)) 0); [lia|].
  rewrite length_app, Z.min_l, Z.max_r by lia.
  rewrite Nat2Z.id. cbn [Z.to_nat firstn app].
  rewrite skipn_app, Nat.sub_diag, skipn_all. reflexivity.
Qed.

Lemma slice_middle {A} (p m s : list A) :
  Py.slice (p ++ m ++ s) (Some (Py.len p)) (Some (Py.len p + Py.len m)) = m.
Proof.
  unfold Py.slice, Py.bound, Py.norm_index, Py.len.
  destruct (Z.ltb_spec (Z.of_nat (length p)) 0); [lia|].
  destruct (Z.ltb_spec (Z.of_nat (length p) + Z.of_nat (length m)) 0);
    [lia|].
  rewrite !length_app, !Z.min_l by lia.
  replace (Z.to_nat (Z.of_nat (length p) + Z.of_nat (length m)
                     - Z.of_nat (length p))) with (length m) by lia.
  rewrite Nat2Z.id, skipn_app, Nat.sub_diag, skipn_all. cbn [skipn app].
  rewrite firstn_app, Nat.sub_diag, firstn_all. cbn [firstn].
  apply app_nil_r.
Qed.

Lemma setslice_middle {A} (p m s new : list A) :
  Py.setslice (p ++ m ++ s) (Some (Py.len p))
    (Some (Py.len p + Py.len m)) new
  = p ++ new ++ s.
Proof.
  unfold Py.setslice, Py.bound, Py.norm_index, Py.len.
  destruct (Z.ltb_spec (Z.of_nat (length p)) 0); [lia|].
  destruct (Z.ltb_spec (Z.of_nat (length p) + Z.of_nat (length m)) 0);
    [lia|].
  rewrite !length_app, !Z.min_l, Z.max_r by lia.
  replace (Z.to_nat (Z.of_nat (length p) + Z.of_nat (length m)))
    with (length p + length m)%nat by lia.
  rewrite Nat2Z.id, firstn_app, Nat.sub_diag, firstn_all. cbn [firstn].
  rewrite app_nil_r. f_equal. f_equal.
  rewrite app_assoc, skipn_app, length_app, Nat.sub_diag.
  rewrite skipn_all2 by (rewrite length_app; lia). reflexivity.
Qed.

(** Line 74: the last [fixed] genes of the EV part are overwritten with
    zeros, and the part keeps its length, as long as [fixed] does not exceed
    the length. *)
Lemma setslice_locked_tail (ev : list Z) (fixed : Z) :
  fixed <= Py.len ev ->
  Py.setslice ev (Some (Py.len ev - fixed)) None (Py.replicate 0 fixed)
  = firstn (Z.to_nat (Py.len ev - Z.max fixed 0)) ev
    ++ repeat 0 (Z.to_nat fixed).
Proof.
  intros Hf.
  unfold Py.setslice, Py.bound, Py.norm_index, Py.replicate.
  destruct (Z.ltb_spec (Py.len ev - fixed) 0); [lia|].
  replace (Z.min (Py.len ev - fixed) (Py.len ev))
    with (Py.len ev - Z.max fixed 0) by lia.
  rewrite (Z.max_r (Py.len ev - Z.max fixed 0) (Py.len ev)) by lia.
  replace (skipn (Z.to_nat (Py.len ev)) ev) with (@nil Z)
    by (unfold Py.len; now rewrite Nat2Z.id, skipn_all).
  now rewrite app_nil_r.
Qed.

Lemma getitem_last {A} (r : list A) (x : A) :
  Py.getitem (r ++ [x]) (-1) = Ok x.
Proof.
  unfold Py.getitem, Py.position, Py.len. rewrite length_app. cbn [length].
  cbn [Z.ltb Z.compare].
  destruct (Z.leb_spec 0 (Z.of_nat (length r + 1) + -1)); [|lia].
  destruct (Z.ltb_spec (Z.of_nat (length r + 1) + -1)
              (Z.of_nat (length r + 1))); [|lia].
  cbn [andb].
  replace (Z.to_nat (Z.of_nat (length r + 1) + -1)) with (length r) by lia.
  rewrite nth_error_app2, Nat.sub_diag by lia. reflexivity.
Qed.

Lemma setitem_last {A} (r : list A) (x y : A) :
  Py.setitem (r ++ [x]) (-1) y = Ok (r ++ [y]).
Proof.
  unfold Py.setitem, Py.position, Py.len. rewrite length_app. cbn [length].
  cbn [Z.ltb Z.compare].
  destruct (Z.leb_spec 0 (Z.of_nat (length r + 1) + -1)); [|lia].
  destruct (Z.ltb_spec (Z.of_nat (length r + 1) + -1)
              (Z.of_nat (length r + 1))); [|lia].
  cbn [andb].
  replace (Z.to_nat (Z.of_nat (length r + 1) + -1)) with (length r) by lia.
  rewrite firstn_app, Nat.sub_diag, firstn_all. cbn [firstn].
  rewrite app_nil_r, skipn_all2 by (rewrite length_app; cbn; lia).
  reflexivity.
Qed.

(** The same with the bounds given by their values. *)
Lemma slice_head_at {A} (m s : list A) (h : Z) :
  h = Py.len m -> Py.slice (m ++ s) None (Some h) = m.
Proof. intros ->. apply slice_head. Qed.

Lemma setslice_head_at {A} (m s new : list A) (h : Z) :
  h = Py.len m -> Py.setslice (m ++ s) None (Some h) new = new ++ s.
Proof. intros ->. apply setslice_head. Qed.

Lemma slice_middle_at {A} (p m s : list A) (h1 h2 : Z) :
  h1 = Py.len p -> h2 = Py.len p + Py.len m ->
  Py.slice (p ++ m ++ s) (Some h1) (Some h2) = m.
Proof. intros -> ->. apply slice_middle. Qed.

Lemma setslice_middle_at {A} (p m s new : list A) (h1 h2 : Z) :
  h1 = Py.len p -> h2 = Py.len p + Py.len m ->
  Py.setslice (p ++ m ++ s) (Some h1) (Some h2) new = p ++ new ++ s.
Proof. intros -> ->. apply setslice_middle. Qed.

Lemma setslice_locked_tail_at (ev : list Z) (h fixed : Z) :
  h = Py.len ev ->
  fixed <= h ->
  Py.setslice ev (Some (h - fixed)) None (Py.replicate 0 fixed)
  = firstn (Z.to_nat (h - Z.max fixed 0)) ev ++ repeat 0 (Z.to_nat fixed).
Proof. intros ->. apply setslice_locked_tail. Qed.

Lemma Forall_firstn_keep {A} (P : A -> Prop) (n : nat) (l : list A) :
  Forall P l -> Forall P (firstn n l).
Proof.
  intros HF. rewrite <- (firstn_skipn n l) in HF.
  now apply Forall_app in HF.
Qed.

(** ** Mutation *)

Lemma random_random_ok (g : random_state) :
  exists u g', random_random g = Ok (u, g').
Proof.
  unfold random_random. destruct (next_draw g) as [r g'].
  now eexists; eexists.
Qed.

(** [mutUniformInt] returns when the range is not empty, keeps the length,
    and keeps every gene in the range if it was there before. *)
Lemma mutUniformInt_ok (low up : Z) (indpb : Q) (l : list Z)
  (g : random_state) :
  low <= up ->
  Forall (fun x => low <= x <= up) l ->
  exists l' g',
    mutUniformInt l low up indpb g = Ok (l', g')
    /\ length l' = length l
    /\ Forall (fun x => low <= x <= up) l'.
Proof.
  intros Hr HF. revert g. induction HF as [|x l Hx _ IH]; intros g.
  - exists [], g. repeat split. constructor.
  - cbn [mutUniformInt].
    destruct (random_random_ok g) as (u & g1 & Hu).
    unfold bind at 1. rewrite Hu.
    assert (exists x' g2,
               (if Qlt_bool u indpb then random_randint low up else ret x) g1
               = Ok (x', g2) /\ low <= x' <= up) as (x' & g2 & Hx' & Hr').
    { destruct (Qlt_bool u indpb).
      - now apply random_randint_ok.
      - now exists x, g1. }
    unfold bind at 1. rewrite Hx'.
    destruct (IH g2) as (l' & g3 & Hl' & Hlen & HF').
    unfold bind at 1. rewrite Hl'.
    exists (x' :: l'), g3. repeat split; [cbn; lia | now constructor].
Qed.

Lemma all_at_Forall_inv (P : Z -> Z -> bool) (Q : Z -> Prop) (k : Z)
  (l : list Z) :
  all_at P k l = true ->
  (forall i x, k <= i < k + Py.len l -> P i x = true -> Q x) ->
  Forall Q l.
Proof.
  revert k. induction l as [|y l IH]; intros k Hall HP; [constructor|].
  cbn [all_at] in Hall. apply andb_true_iff in Hall. destruct Hall as [Hy Hl].
  unfold Py.len in HP. cbn [length] in HP.
  constructor.
  - apply (HP k); [lia | exact Hy].
  - apply (IH (k + 1) Hl). intros i x Hi. apply HP. unfold Py.len in Hi. lia.
Qed.

(** A genome in the domain is made of the three regions. *)
Lemma in_domain_inv (self : optimization_problem) (start_hour n : Z)
  (l : list Z) :
  0 <= prediction_hours self ->
  in_domain self start_hour n l = true ->
  exists b e a,
    l = (b ++ e) ++ a
    /\ length b = Z.to_nat (prediction_hours self)
    /\ Forall battery_action b
    /\ (if optimize_ev self
        then length e = Z.to_nat (prediction_hours self)
             /\ Forall (charge_index n) e
        else e = [])
    /\ (if has_haushaltsgeraet self
        then exists x, a = [x] /\ appliance_hour start_hour x
        else a = []).
Proof.
  intros HH Hdom. unfold in_domain in Hdom.
  apply andb_true_iff in Hdom. destruct Hdom as [Hlen Hall].
  apply Z.eqb_eq in Hlen. unfold genome_length, Py.len in Hlen.
  set (H := Z.to_nat (prediction_hours self)) in *.
  set (b := firstn H l).
  set (rest := skipn H l).
  set (e := if optimize_ev self then firstn H rest else []).
  set (a := skipn (if optimize_ev self then H else 0%nat) rest).
  assert (l = (b ++ e) ++ a) as Hl.
  { rewrite <- app_assoc.
    replace (e ++ a) with rest.
    - subst b rest. now rewrite firstn_skipn.
    - subst a e. destruct (optimize_ev self).
      + now rewrite firstn_skipn.
      + reflexivity. }
  assert (length b = H) as Hb.
  { subst b. rewrite length_firstn.
    destruct (optimize_ev self), (has_haushaltsgeraet self); lia. }
  assert (length rest = (length l - H)%nat) as Hrest
    by (subst rest; apply length_skipn).
  assert (length e = if optimize_ev self then H else 0%nat) as He.
  { subst e. destruct (optimize_ev self); [|reflexivity].
    rewrite length_firstn. destruct (has_haushaltsgeraet self); lia. }
  assert (length a = if has_haushaltsgeraet self then 1%nat else 0%nat)
    as Ha.
  { subst a. rewrite length_skipn, Hrest.
    destruct (optimize_ev self), (has_haushaltsgeraet self); lia. }
  rewrite Hl, !all_at_app, !andb_true_iff in Hall.
  destruct Hall as [[Hab Hae] Haa].
  exists b, e, a. split; [exact Hl|]. split; [exact Hb|].
  split; [|split].
  - apply (all_at_Forall_inv _ _ _ _ Hab).
    intros i x Hi HP. unfold gene_domain, Py.len in *.
    destruct (Z.ltb_spec i (prediction_hours self)); [|lia].
    unfold battery_action. lia.
  - destruct (optimize_ev self) eqn:Hev; [|now destruct e].
    split; [exact He|].
    apply (all_at_Forall_inv _ _ _ _ Hae).
    intros i x Hi HP. unfold gene_domain, Py.len in *. rewrite Hev in HP.
    destruct (Z.ltb_spec i (prediction_hours self)); [lia|].
    destruct (Z.ltb_spec i (prediction_hours self * 2)); [|lia].
    cbn [andb] in HP. unfold charge_index. lia.
  - destruct (has_haushaltsgeraet self); [|now destruct a].
    destruct a as [|x [|y a']]; try discriminate Ha.
    exists x. split; [reflexivity|].
    cbn [all_at] in Haa. rewrite andb_true_r in Haa.
    unfold gene_domain, Py.len in Haa. rewrite length_app, Hb, He in Haa.
    destruct (optimize_ev self).
    + destruct (Z.ltb_spec (0 + Z.of_nat (H + H)) (prediction_hours self));
        [lia|].
      destruct (Z.ltb_spec (0 + Z.of_nat (H + H))
                  (prediction_hours self * 2)); [lia|].
      cbn [andb] in Haa. unfold appliance_hour. lia.
    + destruct (Z.ltb_spec (0 + Z.of_nat (H + 0)) (prediction_hours self));
        [lia|].
      cbn [andb] in Haa. unfold appliance_hour. lia.
Qed.

Section Mutation.

Variable currents : list Q.
Variable self : optimization_problem.
Variable start_hour : Z.
Hypothesis Hset : set_up self start_hour = true.
Hypothesis Hdraw : drawable self start_hour (Py.len currents) = true.
Hypothesis HH : 0 <= prediction_hours self.
Hypothesis Hfix : fixed_eauto_hours self <= prediction_hours self.

Lemma mutate_discharge_ok (b : list Z) (g : random_state) :
  Forall battery_action b ->
  exists b' g',
    mutate_discharge self b g = Ok (b', g')
    /\ length b' = length b /\ Forall battery_action b'.
Proof.
  intros HF. destruct (set_up_inv _ _ Hset) as (tb & n & Htb & _).
  unfold mutate_discharge, the_toolbox, bind, lift. rewrite Htb.
  apply mutUniformInt_ok; [lia | exact HF].
Qed.

Lemma mutate_ev_charge_index_ok (e : list Z) (g : random_state) :
  optimize_ev self = true ->
  Forall (charge_index (Py.len currents)) e ->
  exists e' g',
    mutate_ev_charge_index currents self e g = Ok (e', g')
    /\ length e' = length e /\ Forall (charge_index (Py.len currents)) e'.
Proof.
  intros Hev HF. destruct (set_up_inv _ _ Hset) as (tb & n & Htb & _).
  unfold mutate_ev_charge_index, the_toolbox, bind, lift. rewrite Htb.
  apply mutUniformInt_ok; [|exact HF].
  unfold drawable in Hdraw. rewrite Hev in Hdraw.
  apply andb_true_iff in Hdraw. lia.
Qed.

Lemma mutate_hour_ok (x : Z) (g : random_state) :
  has_haushaltsgeraet self = true ->
  appliance_hour start_hour x ->
  exists x' g',
    mutate_hour self [x] g = Ok ([x'], g') /\ appliance_hour start_hour x'.
Proof.
  intros Hhg Hx.
  destruct (set_up_inv _ _ Hset) as (tb & n & Htb & _ & Hsh & _).
  unfold mutate_hour, the_toolbox, bind, lift. rewrite Htb, Hsh.
  destruct (mutUniformInt_ok start_hour 23 (1 # 10) [x] g)
    as (l' & g' & Hl' & Hlen & HF).
  - unfold drawable in Hdraw. rewrite Hhg in Hdraw.
    apply andb_true_iff in Hdraw. lia.
  - now constructor.
  - destruct l' as [|x' [|y l']]; try discriminate Hlen.
    exists x', g'. split; [exact Hl'|]. now inversion HF.
Qed.

(** [mutate] on a genome in three regions: each region is mutated within
    its domain, and when the EV is optimised its part ends in
    [fixed_eauto_hours] zeros. *)
Lemma mutate_genes_parts (b e a : list Z) (g : random_state) :
  length b = Z.to_nat (prediction_hours self) ->
  Forall battery_action b ->
  (if optimize_ev self
   then length e = Z.to_nat (prediction_hours self)
        /\ Forall (charge_index (Py.len currents)) e
   else e = []) ->
  (if has_haushaltsgeraet self
   then exists x, a = [x] /\ appliance_hour start_hour x
   else a = []) ->
  exists b' e' a' g',
    mutate_genes currents self ((b ++ e) ++ a) g = Ok ((b' ++ e') ++ a', g')
    /\ length b' = Z.to_nat (prediction_hours self)
    /\ Forall battery_action b'
    /\ (if optimize_ev self
        then length e' = Z.to_nat (prediction_hours self)
             /\ Forall (charge_index (Py.len currents)) e'
             /\ exists pre,
                  e' = pre ++ repeat 0 (Z.to_nat (fixed_eauto_hours self))
        else e' = [])
    /\ (if has_haushaltsgeraet self
        then exists x, a' = [x] /\ appliance_hour start_hour x
        else a' = []).
Proof.
  intros Hb HFb He Ha.
  destruct (set_up_inv _ _ Hset) as (tb & n & Htb & Hop & _).
  assert (prediction_hours self = Py.len b) as HHb by (unfold Py.len; lia).
  destruct (mutate_discharge_ok b g HFb) as (b' & g1 & Hd & Hlb' & HFb').
  assert (prediction_hours self = Py.len b') as HHb'
    by (unfold Py.len; lia).
  (* the EV part *)
  assert (exists e' g2,
             (if optimize_ev self
              then
                bind (mutate_ev_charge_index currents self
                        (Py.slice (b' ++ e ++ a)
                           (Some (prediction_hours self))
                           (Some (prediction_hours self * 2))))
                  (fun m =>
                     ret (Py.setslice (b' ++ e ++ a)
                            (Some (prediction_hours self))
                            (Some (prediction_hours self * 2))
                            (Py.setslice m
                               (Some (prediction_hours self
                                      - fixed_eauto_hours self)) None
                               (Py.replicate 0 (fixed_eauto_hours self)))))
              else ret (b' ++ e ++ a)) g1 = Ok (b' ++ e' ++ a, g2)
             /\ (if optimize_ev self
                 then length e' = Z.to_nat (prediction_hours self)
                      /\ Forall (charge_index (Py.len currents)) e'
                      /\ exists pre,
                           e' = pre
                                ++ repeat 0
                                     (Z.to_nat (fixed_eauto_hours self))
                 else e' = [])) as (e' & g2 & Hev' & HPe').
  { destruct (optimize_ev self) eqn:Hev.
    - destruct He as [Hle HFe].
      assert (prediction_hours self * 2 = Py.len b' + Py.len e) as H2
        by (unfold Py.len; lia).
      rewrite (slice_middle_at b' e a _ _ HHb' H2).
      destruct (mutate_ev_charge_index_ok e g1 Hev HFe)
        as (m & g2 & Hm & Hlm & HFm).
      unfold bind. rewrite Hm. unfold ret.
      assert (prediction_hours self = Py.len m) as HHm
        by (unfold Py.len; lia).
      rewrite (setslice_middle_at b' e a _ _ _ HHb' H2).
      rewrite (setslice_locked_tail_at m _ _ HHm Hfix).
      eexists. exists g2. split; [reflexivity|].
      split; [|split].
      + rewrite length_app, length_firstn, repeat_length. unfold Py.len. lia.
      + apply Forall_app. split.
        * now apply Forall_firstn_keep.
        * apply Forall_forall. intros x Hx. apply repeat_spec in Hx. subst x.
          unfold charge_index. unfold drawable in Hdraw.
          rewrite Hev in Hdraw. apply andb_true_iff in Hdraw. lia.
      + now eexists.
    - subst e. exists [], g1. now split. }
  (* the appliance *)
  assert (exists a' g3,
             (if 0 <? n
              then
                bind (lift (Py.getitem (b' ++ e' ++ a) (-1)))
                  (fun last =>
                     bind (mutate_hour self [last])
                       (fun m =>
                          bind (lift (Py.getitem m 0))
                            (fun hour =>
                               lift (Py.setitem (b' ++ e' ++ a) (-1) hour))))
              else ret (b' ++ e' ++ a)) g2 = Ok ((b' ++ e') ++ a', g3)
             /\ (if has_haushaltsgeraet self
                 then exists x, a' = [x] /\ appliance_hour start_hour x
                 else a' = [])) as (a' & g3 & Ha' & HPa').
  { assert (has_haushaltsgeraet self = (0 <? n)) as Hhg
      by (unfold has_haushaltsgeraet; now rewrite Hop).
    rewrite Hhg in Ha |- *. destruct (0 <? n) eqn:Hn.
    - destruct Ha as (x & -> & Hx).
      destruct (mutate_hour_ok x g2 Hhg Hx) as (x' & g3 & Hm & Hx').
      exists [x'], g3. split; [|exists x'; now split].
      rewrite !app_assoc.
      unfold bind, lift. rewrite getitem_last, Hm. cbn [Py.getitem].
      unfold Py.getitem. cbn. now rewrite setitem_last.
    - subst a. exists [], g2. rewrite !app_nil_r. now split. }
  exists b', e', a', g3.
  split; [|split; [lia|split; [exact HFb'|split; [exact HPe'|exact HPa']]]].
  unfold mutate_genes. rewrite <- app_assoc. cbv zeta.
  rewrite (slice_head_at b (e ++ a) _ HHb).
  unfold bind at 1. rewrite Hd. cbv beta iota.
  rewrite (setslice_head_at b (e ++ a) b' _ HHb).
  unfold bind at 1. rewrite Hev'. cbv beta iota.
  unfold bind at 1. unfold lift at 1, haushaltsgeraete. rewrite Hop.
  cbv beta iota. exact Ha'.
Qed.

End Mutation.

(** The EV part written by [mutate] keeps the locked tail at zero. *)
Lemma locked_tail_parts (self : optimization_problem) (b e pre a : list Z) :
  0 <= prediction_hours self ->
  fixed_eauto_hours self <= prediction_hours self ->
  length b = Z.to_nat (prediction_hours self) ->
  length e = Z.to_nat (prediction_hours self) ->
  e = pre ++ repeat 0 (Z.to_nat (fixed_eauto_hours self)) ->
  locked_tail_zero self ((b ++ e) ++ a) = true.
Proof.
  intros HH Hfix Hb He Hpre.
  assert (Py.len pre + Z.max (fixed_eauto_hours self) 0
          = prediction_hours self) as Hlp.
  { rewrite Hpre, length_app, repeat_length in He. unfold Py.len. lia. }
  unfold locked_tail_zero.
  assert (forall l, Forall (fun _ : Z => True) l) as Htrue
    by (intros l; apply Forall_forall; auto).
  rewrite !all_at_app, !andb_true_iff. repeat split.
  - apply (all_at_Forall _ (fun _ => True)); [apply Htrue|].
    intros i x Hi _. unfold locked_gene, Py.len in *.
    destruct (Z.leb_spec (prediction_hours self * 2 - fixed_eauto_hours self)
                i); [lia | reflexivity].
  - rewrite Hpre, all_at_app, andb_true_iff. split.
    + apply (all_at_Forall _ (fun _ => True)); [apply Htrue|].
      intros i x Hi _. unfold locked_gene, Py.len in *.
      destruct (Z.leb_spec
                  (prediction_hours self * 2 - fixed_eauto_hours self) i);
        [lia | reflexivity].
    + apply (all_at_Forall _ (fun x => x = 0)).
      * apply Forall_forall. intros x Hx. now apply repeat_spec in Hx.
      * intros i x _ ->. unfold locked_gene. now destruct (_ && _).
  - apply (all_at_Forall _ (fun _ => True)); [apply Htrue|].
    intros i x Hi _. unfold locked_gene, Py.len in *.
    rewrite length_app in Hi.
    destruct (Z.ltb_spec i (prediction_hours self * 2)); [lia|].
    now rewrite andb_false_r.
Qed.

(** ** Crossover *)

Lemma all_at_firstn (P : Z -> Z -> bool) (k : Z) (n : nat) (l : list Z) :
  all_at P k l = true -> all_at P k (firstn n l) = true.
Proof.
  intros H. rewrite <- (firstn_skipn n l), all_at_app in H.
  now apply andb_true_iff in H.
Qed.

Lemma all_at_skipn (P : Z -> Z -> bool) (k : Z) (n : nat) (l : list Z) :
  (n <= length l)%nat ->
  all_at P k l = true -> all_at P (k + Z.of_nat n) (skipn n l) = true.
Proof.
  intros Hn H. rewrite <- (firstn_skipn n l), all_at_app in H.
  apply andb_true_iff in H. destruct H as [_ H].
  unfold Py.len in H. now rewrite length_firstn, Nat.min_l in H by lia.
Qed.

(** A child of a two-point crossover: the genes of [l1] with those of [l2]
    between the cut points [a] and [b].  A property that holds position by
    position in both parents holds in the child. *)
Lemma all_at_splice (P : Z -> Z -> bool) (l1 l2 : list Z) (a b : nat) :
  (a <= b <= length l1)%nat ->
  length l1 = length l2 ->
  all_at P 0 l1 = true ->
  all_at P 0 l2 = true ->
  all_at P 0 (firstn a l1 ++ firstn (b - a) (skipn a l2) ++ skipn b l1)
  = true.
Proof.
  intros Hab Hlen H1 H2.
  rewrite !all_at_app, !andb_true_iff. unfold Py.len.
  rewrite !length_firstn, length_skipn.
  replace (Init.Nat.min a (length l1)) with a by lia.
  replace (Init.Nat.min (b - a) (length l2 - a)) with (b - a)%nat by lia.
  repeat split.
  - now apply all_at_firstn.
  - apply all_at_firstn. apply all_at_skipn; [lia | exact H2].
  - replace (0 + Z.of_nat a + Z.of_nat (b - a)) with (0 + Z.of_nat b) by lia.
    apply all_at_skipn; [lia | exact H1].
Qed.

Lemma length_splice (l1 l2 : list Z) (a b : nat) :
  (a <= b <= length l1)%nat ->
  length l1 = length l2 ->
  length (firstn a l1 ++ firstn (b - a) (skipn a l2) ++ skipn b l1)
  = length l1.
Proof.
  intros Hab Hlen. rewrite !length_app, !length_firstn, !length_skipn. lia.
Qed.

Lemma setslice_slice (l1 l2 : list Z) (c1 c2 : Z) :
  0 <= c1 <= c2 -> c2 <= Py.len l1 -> Py.len l1 = Py.len l2 ->
  Py.setslice l1 (Some c1) (Some c2) (Py.slice l2 (Some c1) (Some c2))
  = firstn (Z.to_nat c1) l1
    ++ firstn (Z.to_nat c2 - Z.to_nat c1) (skipn (Z.to_nat c1) l2)
    ++ skipn (Z.to_nat c2) l1.
Proof.
  intros Hc Hc2 Hlen.
  unfold Py.setslice, Py.slice, Py.bound, Py.norm_index.
  rewrite <- Hlen.
  destruct (Z.ltb_spec c1 0); [lia|].
  destruct (Z.ltb_spec c2 0); [lia|].
  rewrite !Z.min_l, Z.max_r by lia.
  now rewrite Z2Nat.inj_sub by lia.
Qed.

(** [cxTwoPoint] returns on two parents of the same length, at least 2, and
    its children are the two splices at the same cut points. *)
Lemma cxTwoPoint_ok (p1 p2 : list Z) (g : random_state) :
  2 <= Py.len p1 ->
  Py.len p1 = Py.len p2 ->
  exists (a b : nat) g',
    (a <= b <= length p1)%nat
    /\ cxTwoPoint p1 p2 g
       = Ok (firstn a p1 ++ firstn (b - a) (skipn a p2) ++ skipn b p1,
             firstn a p2 ++ firstn (b - a) (skipn a p1) ++ skipn b p2,
             g').
Proof.
  intros H2 Hlen. unfold cxTwoPoint.
  rewrite <- Hlen, Z.min_id.
  destruct (random_randint_ok 1 (Py.len p1) g ltac:(lia))
    as (c1 & g1 & Hc1 & Hr1).
  destruct (random_randint_ok 1 (Py.len p1 - 1) g1 ltac:(lia))
    as (c2 & g2 & Hc2 & Hr2).
  unfold bind at 1. rewrite Hc1. unfold bind at 1. rewrite Hc2.
  unfold ret.
  destruct (Z.leb_spec c1 c2).
  - exists (Z.to_nat c1), (Z.to_nat (c2 + 1)), g2.
    split; [unfold Py.len in *; lia|].
    rewrite !setslice_slice by lia. reflexivity.
  - exists (Z.to_nat c2), (Z.to_nat c1), g2.
    split; [unfold Py.len in *; lia|].
    rewrite !setslice_slice by lia. reflexivity.
Qed.

(** ** The invariants of the operators *)

(** C5, as the code has it.  After the set-up, with the locked tail no longer
    than the horizon: [create_individual] returns a genome whose genes lie
    in their domains; [mutate] returns, keeps the genes in their domains and,
    when the EV is optimised, leaves the locked tail at zero; [cxTwoPoint]
    has no repair step, it keeps the genes in their domains and keeps the
    locked tail at zero when both parents have it at zero. *)
Theorem operators_keep_domains (currents : list Q)
  (self : optimization_problem) (start_hour : Z) :
  set_up self start_hour = true ->
  drawable self start_hour (Py.len currents) = true ->
  0 <= prediction_hours self ->
  fixed_eauto_hours self <= prediction_hours self ->
  (forall g, exists ind g',
      create_individual currents self g = Ok (ind, g')
      /\ in_domain self start_hour (Py.len currents) (genes ind) = true)
  /\ (forall ind g,
        in_domain self start_hour (Py.len currents) (genes ind) = true ->
        exists ind' g',
          mutate currents self ind g = Ok (ind', g')
          /\ in_domain self start_hour (Py.len currents) (genes ind') = true
          /\ (optimize_ev self = true ->
              locked_tail_zero self (genes ind') = true))
  /\ (forall p1 p2 g,
        in_domain self start_hour (Py.len currents) p1 = true ->
        in_domain self start_hour (Py.len currents) p2 = true ->
        2 <= genome_length self ->
        exists c1 c2 g',
          cxTwoPoint p1 p2 g = Ok (c1, c2, g')
          /\ in_domain self start_hour (Py.len currents) c1 = true
          /\ in_domain self start_hour (Py.len currents) c2 = true
          /\ (locked_tail_zero self p1 = true ->
              locked_tail_zero self p2 = true ->
              locked_tail_zero self c1 = true
              /\ locked_tail_zero self c2 = true)).
Proof.
  intros Hset Hdraw HH Hfix. split; [|split].
  - intros g.
    destruct (create_individual_parts currents self start_hour Hset Hdraw g)
      as (b & e & a & g' & Hc & Hb & HFb & He & Ha).
    exists (creator_Individual ((b ++ e) ++ a)), g'. split; [exact Hc|].
    now apply in_domain_parts.
  - intros ind g Hdom.
    destruct (in_domain_inv _ _ _ _ HH Hdom)
      as (b & e & a & Hl & Hb & HFb & He & Ha).
    destruct (mutate_genes_parts currents self start_hour Hset Hdraw HH Hfix
                b e a g Hb HFb He Ha)
      as (b' & e' & a' & g' & Hm & Hb' & HFb' & He' & Ha').
    exists (set_genes ind ((b' ++ e') ++ a')), g'.
    split; [|split].
    + unfold mutate, bind. rewrite Hl, Hm. reflexivity.
    + cbn [genes set_genes]. apply in_domain_parts; auto.
      destruct (optimize_ev self); [|exact He']. now destruct He' as (? & ? & _).
    + intros Hev. cbn [genes set_genes]. rewrite Hev in He'.
      destruct He' as (Hle' & _ & pre & Hpre).
      now apply (locked_tail_parts self b' e' pre a').
  - intros p1 p2 g Hd1 Hd2 H2.
    unfold in_domain in Hd1, Hd2 |- *.
    apply andb_true_iff in Hd1, Hd2.
    destruct Hd1 as [Hl1 Ha1], Hd2 as [Hl2 Ha2].
    apply Z.eqb_eq in Hl1, Hl2.
    assert (length p1 = length p2) as Hlen by (unfold Py.len in *; lia).
    destruct (cxTwoPoint_ok p1 p2 g ltac:(lia) ltac:(lia))
      as (a & b & g' & Hab & Hcx).
    eexists. eexists. exists g'. split; [exact Hcx|].
    unfold Py.len.
    rewrite !length_splice by lia.
    fold (Py.len p1). fold (Py.len p2). rewrite Hl1, Hl2, Z.eqb_refl.
    cbn [andb].
    split; [|split].
    + now apply all_at_splice.
    + apply all_at_splice; auto. lia.
    + unfold locked_tail_zero. intros Ht1 Ht2. split.
      * now apply all_at_splice.
      * apply all_at_splice; auto. lia.
Qed.

Lemma operators_keep_domains_witness :
  (exists ind g',
      create_individual Demo.currents (Demo.problem 80 20 1) [0; 0; 1; 2; 5]
      = Ok (ind, g')
      /\ in_domain (Demo.problem 80 20 1) 8 3 (genes ind) = true)
  /\ (exists ind' g',
        mutate Demo.currents (Demo.problem 80 20 1)
          (creator_Individual [-5; -5; 1; 2; 13]) [0; 3; 1; 0; 0; 2; 0; 1]
        = Ok (ind', g')
        /\ in_domain (Demo.problem 80 20 1) 8 3 (genes ind') = true
        /\ locked_tail_zero (Demo.problem 80 20 1) (genes ind') = true)
  /\ (exists c1 c2 g',
        cxTwoPoint [-5; -5; 1; 0; 13] [0; 1; 2; 0; 9] [3; 0]
        = Ok (c1, c2, g')
        /\ in_domain (Demo.problem 80 20 1) 8 3 c1 = true
        /\ in_domain (Demo.problem 80 20 1) 8 3 c2 = true
        /\ locked_tail_zero (Demo.problem 80 20 1) c1 = true
        /\ locked_tail_zero (Demo.problem 80 20 1) c2 = true).
Proof.
  destruct (operators_keep_domains Demo.currents (Demo.problem 80 20 1) 8)
    as (Hcreate & Hmutate & Hcx);
    [reflexivity | reflexivity | vm_compute; discriminate
    | vm_compute; discriminate |].
  split; [apply Hcreate|]. split.
  - destruct (Hmutate (creator_Individual [-5; -5; 1; 2; 13])
                [0; 3; 1; 0; 0; 2; 0; 1] eq_refl)
      as (ind' & g' & Hm & Hd & Ht).
    exists ind', g'. split; [exact Hm|]. split; [exact Hd|].
    apply Ht. reflexivity.
  - destruct (Hcx [-5; -5; 1; 0; 13] [0; 1; 2; 0; 9] [3; 0] eq_refl eq_refl)
      as (c1 & c2 & g' & Hc & Hd1 & Hd2 & Ht);
      [vm_compute; discriminate|].
    exists c1, c2, g'. split; [exact Hc|]. split; [exact Hd1|].
    split; [exact Hd2|]. apply Ht; reflexivity.
Defined.

(** The claim that every individual has its locked tail at zero fails for
    the individuals [create_individual] draws, and crossover does not repair
    it.  Two hours, the second one locked: the drawn genome [-5, -5, 1, 2]
    charges the EV in the locked hour, and so do both children of a
    crossover of two such genomes. *)
Lemma locked_tail_not_zero :
  (exists ind g',
      create_individual Demo.currents (Demo.problem 80 20 0) [0; 0; 1; 2]
      = Ok (ind, g')
      /\ genes ind = [-5; -5; 1; 2]
      /\ locked_tail_zero (Demo.problem 80 20 0) (genes ind) = false)
  /\ (exists c1 c2 g',
        cxTwoPoint [-5; -5; 1; 2] [0; 1; 2; 1] [3; 0] = Ok (c1, c2, g')
        /\ c1 = [-5; 1; 2; 1]
        /\ c2 = [0; -5; 1; 2]
        /\ locked_tail_zero (Demo.problem 80 20 0) c1 = false
        /\ locked_tail_zero (Demo.problem 80 20 0) c2 = false).
Proof.
  split.
  - eexists. eexists. split; [reflexivity|]. split; reflexivity.
  - exists [-5; 1; 2; 1], [0; -5; 1; 2], [].
    repeat split; vm_compute; reflexivity.
Qed.

(** * Further properties of the code *)

(** ** [split_charge_discharge] on every input *)



(** X1: [split_charge_discharge] raises, with [ValueError], exactly on the
    empty vector; on every other vector it returns a charge and a discharge
    vector of the length of the input. *)
Theorem split_charge_discharge_total (l : list Z) :
  match l with
  | [] => split_charge_discharge l = Raise ValueError
  | _ :: _ =>
      exists charge discharge,
        split_charge_discharge l = Ok (charge, discharge)
        /\ length charge = length l
        /\ length discharge = length l
  end.
Proof.
  destruct l as [|x l]; [reflexivity|].
  unfold split_charge_discharge. cbn [np_where map np_max].
  eexists. eexists. split; [reflexivity|].
  cbn [length]. now rewrite !length_map.
Qed.


(** Outside it is not: the negation of [-2^63] wraps around to [-2^63],
    and the charge of that hour is negative. *)
Lemma split_charge_discharge_int64_wraps :
  exists c,
    split_charge_discharge_int64 [-9223372036854775808; -1]
    = Ok ([np_finite c; np_finite (1 / 1)], [0; 0])
    /\ (c == -9223372036854775808)%Q
    /\ split_charge_discharge [-9223372036854775808; -1]
       = Ok ([np_finite (9223372036854775808 / 9223372036854775808);
              np_finite (1 / 9223372036854775808)], [0; 0]).
Proof. eexists. split; [reflexivity|]. split; reflexivity. Qed.




(** ** Subscripts and the table of charging currents *)

(** A subscript is accepted from [-len] to [len - 1] and raises [IndexError]
    elsewhere. *)
Lemma getitem_range {A} (l : list A) (i : Z) :
  if (- Py.len l <=? i) && (i <? Py.len l)
  then exists x, Py.getitem l i = Ok x
  else Py.getitem l i = Raise IndexError.
Proof.
  unfold Py.getitem, Py.position.
  destruct (Z.leb_spec (- Py.len l) i), (Z.ltb_spec i (Py.len l)),
    (Z.ltb_spec i 0); cbn [andb].
  - destruct (Z.leb_spec 0 (Py.len l + i)); [|lia].
    destruct (Z.ltb_spec (Py.len l + i) (Py.len l)); [|lia]. cbn [andb].
    destruct (nth_error l (Z.to_nat (Py.len l + i))) eqn:E; [now eexists|].
    apply nth_error_None in E. unfold Py.len in *. lia.
  - destruct (Z.leb_spec 0 i); [|lia].
    destruct (Z.ltb_spec i (Py.len l)); [|lia]. cbn [andb].
    destruct (nth_error l (Z.to_nat i)) eqn:E; [now eexists|].
    apply nth_error_None in E. unfold Py.len in *. lia.
  - unfold Py.len in *. lia.
  - destruct (Z.leb_spec 0 i); [|lia].
    destruct (Z.ltb_spec i (Py.len l)); [lia|]. reflexivity.
  - destruct (Z.leb_spec 0 (Py.len l + i)); [lia|]. reflexivity.
  - unfold Py.len in *. lia.
  - destruct (Z.leb_spec 0 (Py.len l + i)); [lia|]. reflexivity.
  - unfold Py.len in *. lia.
Qed.

Lemma charge_currents_spec (currents : list Q) (l : list Z) :
  if forallb (fun i => (- Py.len currents <=? i) && (i <? Py.len currents)) l
  then exists cs,
      charge_currents currents l = Ok cs /\ length cs = length l
  else charge_currents currents l = Raise IndexError.
Proof.
  induction l as [|i l IH]; [now exists []|].
  cbn [forallb charge_currents].
  pose proof (getitem_range currents i) as Hi.
  destruct ((- Py.len currents <=? i) && (i <? Py.len currents)).
  - destruct Hi as (c & Hc). rewrite Hc. cbn [andb bindR].
    destruct (forallb _ l).
    + destruct IH as (cs & Hcs & Hlen). rewrite Hcs. cbn [bindR].
      exists (c :: cs). split; [reflexivity | cbn; lia].
    + now rewrite IH.
  - now rewrite Hi.
Qed.

(** X3: the EV genes are mapped through the table of charging currents
    exactly when every gene is a valid Python subscript of the table, from
    [-n] to [n - 1] for [n] currents: a negative gene down to [-n] is
    accepted and counts from the end.  Any other gene raises [IndexError].
    The mapped list has one current per gene. *)
Theorem charge_currents_index_range (currents : list Q) (l : list Z) :
  if forallb (fun i => (- Py.len currents <=? i) && (i <? Py.len currents)) l
  then exists cs,
      charge_currents currents l = Ok cs /\ length cs = length l
  else charge_currents currents l = Raise IndexError.
Proof. exact (charge_currents_spec currents l). Qed.

(** ** [split_individual] *)

(** X4: [split_individual] undoes the concatenation of [create_individual]
    when the EV is optimised: a genome made of [H] battery genes, [H] EV
    genes and the appliance gene, when there is an appliance, is split into
    exactly these three parts. *)
Theorem split_individual_round_trip (self : optimization_problem)
  (b e a : list Z) :
  Py.len b = prediction_hours self ->
  Py.len e = prediction_hours self ->
  (if has_haushaltsgeraet self then exists x, a = [x] else a = []) ->
  split_individual self ((b ++ e) ++ a)
  = Ok (b, e, if has_haushaltsgeraet self then head a else None).
Proof.
  intros Hb He Ha. unfold split_individual. rewrite <- app_assoc.
  rewrite (slice_head_at b (e ++ a) _ (eq_sym Hb)).
  rewrite (slice_middle_at b e a (prediction_hours self)
             (prediction_hours self * 2)) by lia.
  destruct (has_haushaltsgeraet self).
  - destruct Ha as (x & ->). rewrite !app_assoc, getitem_last. reflexivity.
  - reflexivity.
Qed.

Lemma split_individual_round_trip_witness :
  split_individual (Demo.problem 80 20 1) (([-1; 0] ++ [2; 0]) ++ [13])
  = Ok ([-1; 0], [2; 0], Some 13).
Proof.
  apply (split_individual_round_trip (Demo.problem 80 20 1)
           [-1; 0] [2; 0] [13]).
  - reflexivity.
  - reflexivity.
  - now exists 13.
Defined.

(** A slice that reaches past the end stops at the end. *)
Lemma slice_rest_at {A} (p m : list A) (h1 h2 : Z) :
  h1 = Py.len p -> Py.len p + Py.len m <= h2 ->
  Py.slice (p ++ m) (Some h1) (Some h2) = m.
Proof.
  intros -> Hh. unfold Py.slice, Py.bound, Py.norm_index, Py.len in *.
  destruct (Z.ltb_spec (Z.of_nat (length p)) 0); [lia|].
  destruct (Z.ltb_spec h2 0); [lia|].
  rewrite length_app.
  rewrite (Z.min_l (Z.of_nat (length p))), (Z.min_r h2) by lia.
  replace (Z.to_nat (Z.of_nat (length p + length m) - Z.of_nat (length p)))
    with (length m) by lia.
  rewrite Nat2Z.id, skipn_app, Nat.sub_diag, skipn_all. cbn [skipn app].
  apply firstn_all.
Qed.

(** X5: with the EV taken out of the optimisation and an appliance present,
    the genome has [H] battery genes and the appliance gene, and
    [split_individual] returns the appliance gene a second time, as the EV
    part. *)
Theorem split_individual_appliance_as_ev (self : optimization_problem)
  (b : list Z) (x : Z) :
  has_haushaltsgeraet self = true ->
  1 <= prediction_hours self ->
  Py.len b = prediction_hours self ->
  split_individual self (b ++ [x]) = Ok (b, [x], Some x).
Proof.
  intros Hhg HH Hb. unfold split_individual.
  rewrite (slice_head_at b [x] _ (eq_sym Hb)), Hhg, getitem_last.
  rewrite (slice_rest_at b [x] (prediction_hours self)
             (prediction_hours self * 2) (eq_sym Hb))
    by (unfold Py.len in *; cbn [length] in *; lia).
  reflexivity.
Qed.

Lemma split_individual_appliance_as_ev_witness :
  split_individual (Demo.problem 20 50 1) ([-1; 0] ++ [13])
  = Ok ([-1; 0], [13], Some 13).
Proof.
  apply (split_individual_appliance_as_ev (Demo.problem 20 50 1) [-1; 0] 13).
  - reflexivity.
  - vm_compute. discriminate.
  - reflexivity.
Defined.

(** ** Decoding a genome for the simulation *)

Lemma split_charge_discharge_nonempty (l : list Z) :
  l <> [] ->
  exists charge discharge,
    split_charge_discharge l = Ok (charge, discharge)
    /\ length charge = length l /\ length discharge = length l.
Proof.
  intros Hne. destruct l as [|x l]; [congruence|].
  unfold split_charge_discharge. cbn [np_where map np_max].
  eexists. eexists. split; [reflexivity|].
  cbn [length]. now rewrite !length_map.
Qed.

Lemma charge_currents_in_domain (currents : list Q) (e : list Z) :
  Forall (charge_index (Py.len currents)) e ->
  exists cs, charge_currents currents e = Ok cs /\ length cs = length e.
Proof.
  intros HF. pose proof (charge_currents_spec currents e) as H.
  replace (forallb _ e) with true in H; [exact H|].
  symmetry. apply forallb_forall. intros i Hi.
  rewrite Forall_forall in HF. specialize (HF i Hi).
  unfold charge_index, Py.len in *. apply andb_true_iff. split; lia.
Qed.

(** X6: the decoding of a genome that lies in its domains never raises, for
    a horizon of at least one hour: the simulation receives [H] discharge
    values, [H] charge intensities, [H] charging currents when the EV is
    optimised and none otherwise, and the start hour of the appliance when
    there is one.  A failure of [evaluate_inner] on such a genome can only
    come from the simulation. *)
Theorem simulation_inputs_in_domain (currents : list Q)
  (self : optimization_problem) (setup_hour start_hour : Z)
  (genome : list Z) :
  set_up self setup_hour = true ->
  1 <= prediction_hours self ->
  in_domain self setup_hour (Py.len currents) genome = true ->
  exists inputs,
    simulation_inputs currents self genome start_hour = Ok inputs
    /\ Py.len (akku_discharge_hours inputs) = prediction_hours self
    /\ Py.len (akku_charge_hours inputs) = prediction_hours self
    /\ (if optimize_ev self
        then exists cs,
            eauto_charge_hours inputs = Some cs
            /\ Py.len cs = prediction_hours self
        else eauto_charge_hours inputs = None)
    /\ (if has_haushaltsgeraet self
        then exists x,
            haushaltsgeraet_start inputs = Some (Some x, start_hour)
            /\ setup_hour <= x <= 23
        else haushaltsgeraet_start inputs = None).
Proof.
  intros Hset HH Hdom.
  destruct (set_up_inv _ _ Hset) as (tb & n & _ & Hop & _).
  assert (0 <= prediction_hours self) as HH0 by lia.
  destruct (in_domain_inv _ _ _ _ HH0 Hdom)
    as (b & e & a & -> & Hb & HFb & He & Ha).
  assert (prediction_hours self = Py.len b) as HHb by (unfold Py.len; lia).
  assert (has_haushaltsgeraet self = (0 <? n)) as Hhg
    by (unfold has_haushaltsgeraet; now rewrite Hop).
  destruct (split_charge_discharge_nonempty b) as (c & d & Hcd & Hlc & Hld).
  { intros ->. cbn in Hb. lia. }
  assert (exists cs,
             (if optimize_ev self
              then bindR (charge_currents currents
                            (Py.slice (b ++ e ++ a)
                               (Some (prediction_hours self))
                               (Some (prediction_hours self * 2))))
                     (fun f => Ok (Some f))
              else Ok None) = Ok cs
             /\ (if optimize_ev self
                 then exists l, cs = Some l
                                /\ Py.len l = prediction_hours self
                 else cs = None)) as (cs & Hcs & HPcs).
  { destruct (optimize_ev self).
    - destruct He as [Hle HFe].
      rewrite (slice_middle_at b e a (prediction_hours self)
                 (prediction_hours self * 2))
        by (unfold Py.len in *; lia).
      destruct (charge_currents_in_domain currents e HFe) as (l & Hl & Hll).
      rewrite Hl. cbn [bindR]. eexists. split; [reflexivity|].
      exists l. split; [reflexivity | unfold Py.len; lia].
    - now exists None. }
  unfold simulation_inputs, split_individual.
  rewrite <- app_assoc, (slice_head_at b (e ++ a) _ HHb), Hop.
  rewrite Hhg in Ha |- *.
  destruct (0 <? n).
  - destruct Ha as (x & -> & Hx).
    replace (Py.getitem (b ++ e ++ [x]) (-1)) with (Ok x)
      by (rewrite app_assoc; symmetry; apply getitem_last).
    cbn [bindR]. rewrite Hcd. cbn [bindR]. rewrite Hcs. cbn [bindR].
    eexists. split; [reflexivity|].
    cbn [akku_discharge_hours akku_charge_hours eauto_charge_hours
           haushaltsgeraet_start].
    split; [unfold Py.len in *; lia|].
    split; [unfold Py.len in *; lia|].
    split; [exact HPcs|].
    exists x. split; [reflexivity | exact Hx].
  - cbn [bindR]. rewrite Hcd. cbn [bindR]. rewrite Hcs. cbn [bindR].
    eexists. split; [reflexivity|].
    cbn [akku_discharge_hours akku_charge_hours eauto_charge_hours
           haushaltsgeraet_start].
    split; [unfold Py.len in *; lia|].
    split; [unfold Py.len in *; lia|].
    split; [exact HPcs | reflexivity].
Qed.

Lemma simulation_inputs_in_domain_witness :
  exists inputs,
    simulation_inputs Demo.currents (Demo.problem 80 20 1)
      [-5; 1; 2; 0; 13] 8 = Ok inputs
    /\ Py.len (akku_charge_hours inputs) = 2.
Proof.
  destruct (simulation_inputs_in_domain Demo.currents (Demo.problem 80 20 1)
              8 8 [-5; 1; 2; 0; 13])
    as (inputs & Hin & _ & Hc & _);
    [reflexivity | vm_compute; discriminate | reflexivity |].
  exists inputs. split; [exact Hin | exact Hc].
Defined.

(** ** The fitness at the edges *)

Lemma slice_to_zero {A} (l : list A) : Py.slice l None (Some 0) = [].
Proof.
  unfold Py.slice, Py.bound, Py.norm_index. cbn [Z.ltb Z.compare].
  rewrite Z.min_l by (unfold Py.len; lia). reflexivity.
Qed.

Lemma slice_whole {A} (l : list A) (h : Z) :
  Py.len l <= h -> Py.slice l None (Some h) = l.
Proof.
  intros Hh. unfold Py.slice, Py.bound, Py.norm_index.
  destruct (Z.ltb_spec h 0); [unfold Py.len in *; lia|].
  rewrite Z.min_r, Z.sub_0_r by lia. unfold Py.len.
  rewrite Nat2Z.id. cbn [Z.to_nat skipn]. apply firstn_all.
Qed.

Lemma getitem_past_end {A} (l : list A) (i : Z) :
  Py.len l <= i -> Py.getitem l i = Raise IndexError.
Proof.
  intros Hi. pose proof (getitem_range l i) as H.
  destruct (Z.ltb_spec i (Py.len l)); [lia|].
  now rewrite andb_false_r in H.
Qed.

(** Counting the idle hours over more hours than the list has genes raises
    at the first hour past the end. *)
Lemma idle_penalty_overrun (pre rest : list Z) (k : nat) (acc : Q) :
  (length rest < k)%nat ->
  idle_penalty (pre ++ rest) (map Z.of_nat (seq (length pre) k)) acc
  = Raise IndexError.
Proof.
  revert pre k acc. induction rest as [|x rest IH]; intros pre k acc Hk.
  - destruct k as [|k]; [cbn in Hk; lia|].
    cbn [seq map idle_penalty]. rewrite app_nil_r.
    rewrite getitem_past_end by (unfold Py.len; lia). reflexivity.
  - destruct k as [|k]; [cbn in Hk; lia|].
    cbn [seq map idle_penalty]. rewrite getitem_middle. cbn [bindR].
    specialize (IH (pre ++ [x]) k
                  (if x =? 0 then (acc + (1 # 100))%Q else acc)).
    rewrite <- app_assoc, length_app, Nat.add_1_r in IH. cbn [app] in IH.
    apply IH. cbn [length] in Hk. lia.
Qed.

Section FitnessEdges.

Variable currents : list Q.
Variable EautoDict : Type.
Variable sim :
  EnergieManagementSystem -> ems_inputs -> Z -> result (Simulation EautoDict).

(** X7: with a horizon of zero hours the decoding always fails (there is no
    battery action to normalise), whatever the genome, the simulation and
    the remaining parameters are: every individual is given the sentinel
    fitness 100000 and no diagnostic tuple. *)
Theorem evaluate_zero_horizon (self : optimization_problem)
  (ind : Individual) (ems : EnergieManagementSystem)
  (parameter : ParameterDict) (start_hour : Z) (worst_case : bool) :
  prediction_hours self = 0 ->
  evaluate currents EautoDict sim self ind ems parameter start_hour
    worst_case
  = Ok (100000%Q, ind).
Proof.
  intros H0.
  assert (exists e,
             evaluate_inner currents EautoDict sim self (genes ind) ems
               start_hour = Raise e) as (e & He).
  { unfold evaluate_inner, simulation_inputs, split_individual.
    rewrite H0, slice_to_zero.
    destruct (has_haushaltsgeraet self).
    - destruct (Py.getitem (genes ind) (-1)); cbn [bindR];
        [|now eexists].
      destruct (opti_param self) as [n|]; [|now eexists].
      destruct (0 <? n); cbn [bindR]; now eexists.
    - cbn [bindR].
      destruct (opti_param self) as [n|]; [|now eexists].
      destruct (0 <? n); cbn [bindR]; now eexists. }
  unfold evaluate. now rewrite He.
Qed.

(** [evaluate] in the order of its operations, for a genome of at least
    [H] genes whose simulation succeeds. *)
Lemma evaluate_in_source_order (self : optimization_problem)
  (ind : Individual) (ems : EnergieManagementSystem)
  (parameter : ParameterDict) (start_hour : Z) (worst_case : bool)
  (o : Simulation EautoDict) :
  evaluate_inner currents EautoDict sim self (genes ind) ems start_hour
  = Ok o ->
  0 <= prediction_hours self <= Py.len (genes ind) ->
  exists idle,
    evaluate currents EautoDict sim self ind ems parameter start_hour
      worst_case
    = Ok ((add_charging_penalty (strafe self) (p_eauto_min_soc parameter)
             (ladezustand_in_prozent o)
             (Py.slice (genes ind) (Some (prediction_hours self))
                (Some (prediction_hours self * 2)%Z))
             (Gesamtbilanz_Euro o * (if worst_case then - (1) else 1)
              + idle)
           + (max0 ((p_eauto_min_soc parameter - ladezustand_in_prozent o)
                    * strafe self)
              - aktueller_energieinhalt o
                * p_preis_euro_pro_wh_akku parameter))%Q,
          set_extra_data ind
            (Gesamtbilanz_Euro o, Gesamt_Verluste o,
             (p_eauto_min_soc parameter - ladezustand_in_prozent o)%Q))
    /\ idle_penalty (Py.slice (genes ind) None (Some (prediction_hours self)))
         (py_range (prediction_hours self)) 0
       = Ok idle.
Proof.
  intros Hin HH.
  destruct (evaluate_inner_split _ _ _ _ _ _ _ _ Hin)
    as (sp & inputs & Hsp & _).
  destruct (idle_penalty_range
              (Py.slice (genes ind) None (Some (prediction_hours self))))
    as (q & Hq & _).
  rewrite len_slice_prefix in Hq by exact HH.
  exists q. split; [|exact Hq].
  unfold evaluate. rewrite Hin, Hsp. cbn [bindR].
  rewrite Hq. reflexivity.
Qed.

(** X8: the mode changes the factor of the balance and nothing else.  For
    a genome of at least [H] genes whose simulation succeeds, the two modes
    perform the same operations on the same operands in the same order,
    except that the balance enters multiplied by 1 in normal mode and by -1
    in worst-case mode; both store the same diagnostic tuple.  In exact
    arithmetic, which is how the embedding models the floats, the fitness
    in worst-case mode is therefore the fitness in normal mode minus twice
    the balance; in [float64] this last identity holds up to rounding
    only. *)
Theorem evaluate_worst_case_flips_balance (self : optimization_problem)
  (ind : Individual) (ems : EnergieManagementSystem)
  (parameter : ParameterDict) (start_hour : Z) (o : Simulation EautoDict) :
  evaluate_inner currents EautoDict sim self (genes ind) ems start_hour
  = Ok o ->
  0 <= prediction_hours self <= Py.len (genes ind) ->
  exists f_normal f_worst ind' idle,
    evaluate currents EautoDict sim self ind ems parameter start_hour false
    = Ok (f_normal, ind')
    /\ evaluate currents EautoDict sim self ind ems parameter start_hour true
       = Ok (f_worst, ind')
    /\ f_normal
       = (add_charging_penalty (strafe self) (p_eauto_min_soc parameter)
            (ladezustand_in_prozent o)
            (Py.slice (genes ind) (Some (prediction_hours self))
               (Some (prediction_hours self * 2)%Z))
            (Gesamtbilanz_Euro o * 1 + idle)
          + (max0 ((p_eauto_min_soc parameter - ladezustand_in_prozent o)
                   * strafe self)
             - aktueller_energieinhalt o
               * p_preis_euro_pro_wh_akku parameter))%Q
    /\ f_worst
       = (add_charging_penalty (strafe self) (p_eauto_min_soc parameter)
            (ladezustand_in_prozent o)
            (Py.slice (genes ind) (Some (prediction_hours self))
               (Some (prediction_hours self * 2)%Z))
            (Gesamtbilanz_Euro o * - (1) + idle)
          + (max0 ((p_eauto_min_soc parameter - ladezustand_in_prozent o)
                   * strafe self)
             - aktueller_energieinhalt o
               * p_preis_euro_pro_wh_akku parameter))%Q
    /\ (f_worst == f_normal - 2 * Gesamtbilanz_Euro o)%Q.
Proof.
  intros Hin HH.
  destruct (evaluate_in_source_order self ind ems parameter start_hour false
              o Hin HH) as (idle & Hn & Hidle).
  destruct (evaluate_in_source_order self ind ems parameter start_hour true
              o Hin HH) as (idle' & Hw & Hidle').
  assert (idle' = idle) as -> by congruence.
  destruct (evaluate_fitness currents EautoDict sim self ind ems parameter
              start_hour false o Hin HH) as (f1 & Hf1 & Heq1).
  destruct (evaluate_fitness currents EautoDict sim self ind ems parameter
              start_hour true o Hin HH) as (f2 & Hf2 & Heq2).
  exists f1, f2. eexists. exists idle.
  split; [exact Hf1|]. split; [exact Hf2|].
  split; [congruence|]. split; [congruence|].
  rewrite Heq1, Heq2. ring.
Qed.

(** X9: the [try] of [evaluate] covers the decoding and the simulation
    only.  When a genome has fewer than [H] genes and its simulation
    succeeds, counting the idle hours reads past the end of the genome and
    [evaluate] raises [IndexError] instead of returning the sentinel. *)
Theorem evaluate_raises_on_short_genome (self : optimization_problem)
  (ind : Individual) (ems : EnergieManagementSystem)
  (parameter : ParameterDict) (start_hour : Z) (worst_case : bool)
  (o : Simulation EautoDict) :
  evaluate_inner currents EautoDict sim self (genes ind) ems start_hour
  = Ok o ->
  Py.len (genes ind) < prediction_hours self ->
  evaluate currents EautoDict sim self ind ems parameter start_hour
    worst_case
  = Raise IndexError.
Proof.
  intros Hin Hshort.
  destruct (evaluate_inner_split _ _ _ _ _ _ _ _ Hin)
    as (sp & inputs & Hsp & _).
  unfold evaluate. rewrite Hin, Hsp. cbn [bindR].
  rewrite slice_whole by lia.
  unfold py_range.
  assert (length (genes ind) < Z.to_nat (prediction_hours self))%nat as Hk
    by (unfold Py.len in Hshort; lia).
  pose proof (idle_penalty_overrun [] (genes ind) _ 0 Hk) as Hov.
  cbn [app length] in Hov. now rewrite Hov.
Qed.

(** X10: with the EV taken out of the optimisation and an appliance
    present, the genome has [H] battery genes and the appliance gene.  When
    the final state of charge meets the target, the fitness contains one
    penalty [strafe] as soon as the start hour of the appliance is not 0:
    the appliance gene is counted as an hour of EV charging. *)
Theorem evaluate_counts_appliance_as_charging (self : optimization_problem)
  (b : list Z) (x : Z) (ind : Individual) (ems : EnergieManagementSystem)
  (parameter : ParameterDict) (start_hour : Z) (worst_case : bool)
  (o : Simulation EautoDict) :
  optimize_ev self = false ->
  has_haushaltsgeraet self = true ->
  1 <= prediction_hours self ->
  genes ind = b ++ [x] ->
  Py.len b = prediction_hours self ->
  x <> 0 ->
  (0 <= strafe self)%Q ->
  (p_eauto_min_soc parameter <= ladezustand_in_prozent o)%Q ->
  evaluate_inner currents EautoDict sim self (genes ind) ems start_hour
  = Ok o ->
  exists f ind',
    evaluate currents EautoDict sim self ind ems parameter start_hour
      worst_case
    = Ok (f, ind')
    /\ (f == (if worst_case then - (1) else 1) * Gesamtbilanz_Euro o
           + (1 # 100) * inject_Z (count_if (fun y => y =? 0) b)
           + strafe self
           - aktueller_energieinhalt o
             * p_preis_euro_pro_wh_akku parameter)%Q.
Proof.
  intros Hev Hhg HH Hg Hb Hx HP Hsoc Hin.
  destruct (evaluate_fitness currents EautoDict sim self ind ems parameter
              start_hour worst_case o Hin) as (f & Hf & Heq).
  { rewrite Hg. unfold Py.len in *. rewrite length_app. cbn [length]. lia. }
  exists f. eexists. split; [exact Hf|].
  rewrite Hg in Heq.
  rewrite (slice_head_at b [x] _ (eq_sym Hb)) in Heq.
  rewrite (slice_rest_at b [x] (prediction_hours self)
             (prediction_hours self * 2) (eq_sym Hb)) in Heq
    by (unfold Py.len in *; cbn [length] in *; lia).
  assert (count_if (fun y => negb (y =? 0)) [x] = 1) as Hc.
  { unfold count_if, Py.len. cbn [filter].
    destruct (Z.eqb_spec x 0); [contradiction | reflexivity]. }
  rewrite Hc in Heq. change (inject_Z 1) with 1%Q in Heq.
  assert (Qle_bool (p_eauto_min_soc parameter - ladezustand_in_prozent o) 0
          = true) as Hle by (apply Qle_bool_iff; lra).
  rewrite Hle in Heq. rewrite Heq.
  rewrite Q.max_l by nra. ring.
Qed.

End FitnessEdges.

Lemma evaluate_zero_horizon_witness :
  evaluate Demo.currents Q Demo.simuliere
    (setup_deap_environment (init 0 10 0 false) 0 8)
    (creator_Individual []) (Demo.ems 20) (Demo.parameter 80 20) 8 false
  = Ok (100000%Q, creator_Individual []).
Proof.
  exact (evaluate_zero_horizon Demo.currents Q Demo.simuliere
           (setup_deap_environment (init 0 10 0 false) 0 8)
           (creator_Individual []) (Demo.ems 20) (Demo.parameter 80 20)
           8 false eq_refl).
Defined.


Lemma evaluate_worst_case_flips_balance_witness :
  exists o f_normal f_worst ind',
    evaluate_inner Demo.currents Q Demo.simuliere (Demo.problem 80 20 0)
      [0; 1; 2; 0] (Demo.ems 20) 8 = Ok o
    /\ evaluate Demo.currents Q Demo.simuliere (Demo.problem 80 20 0)
         (creator_Individual [0; 1; 2; 0]) (Demo.ems 20)
         (Demo.parameter 80 20) 8 false = Ok (f_normal, ind')
    /\ evaluate Demo.currents Q Demo.simuliere (Demo.problem 80 20 0)
         (creator_Individual [0; 1; 2; 0]) (Demo.ems 20)
         (Demo.parameter 80 20) 8 true = Ok (f_worst, ind')
    /\ (f_worst == f_normal - 2 * Gesamtbilanz_Euro o)%Q.
Proof.
  assert (exists o,
             evaluate_inner Demo.currents Q Demo.simuliere
               (Demo.problem 80 20 0) [0; 1; 2; 0] (Demo.ems 20) 8 = Ok o)
    as (o & Ho) by (eexists; reflexivity).
  destruct (evaluate_worst_case_flips_balance Demo.currents Q Demo.simuliere
              (Demo.problem 80 20 0) (creator_Individual [0; 1; 2; 0])
              (Demo.ems 20) (Demo.parameter 80 20) 8 o Ho)
    as (f1 & f2 & ind' & idle & H1 & H2 & _ & _ & Heq).
  - split; vm_compute; discriminate.
  - exists o, f1, f2, ind'. repeat split; assumption.
Defined.

Lemma evaluate_raises_on_short_genome_witness :
  evaluate Demo.currents Q Demo.simuliere (Demo.problem 80 20 0)
    (creator_Individual [7]) (Demo.ems 20) (Demo.parameter 80 20) 8 false
  = Raise IndexError.
Proof.
  apply (evaluate_raises_on_short_genome Demo.currents Q Demo.simuliere
           (Demo.problem 80 20 0) (creator_Individual [7]) (Demo.ems 20)
           (Demo.parameter 80 20) 8 false _ eq_refl).
  reflexivity.
Defined.

Lemma evaluate_counts_appliance_as_charging_witness :
  exists f ind',
    evaluate Demo.currents Q Demo.simuliere (Demo.problem 20 50 1)
      (creator_Individual [-1; 0; 13]) (Demo.ems 50) (Demo.parameter 20 50)
      8 false = Ok (f, ind')
    /\ (f == 1001 # 100)%Q.
Proof.
  assert (exists o,
             evaluate_inner Demo.currents Q Demo.simuliere
               (Demo.problem 20 50 1) [-1; 0; 13] (Demo.ems 50) 8 = Ok o
             /\ (20 <= ladezustand_in_prozent o)%Q
             /\ (Gesamtbilanz_Euro o == 0)%Q
             /\ (aktueller_energieinhalt o == 0)%Q)
    as (o & Ho & Hsoc & HB & HE).
  { eexists. split; [reflexivity|]. repeat split; vm_compute; discriminate. }
  destruct (evaluate_counts_appliance_as_charging Demo.currents Q
              Demo.simuliere (Demo.problem 20 50 1) [-1; 0] 13
              (creator_Individual [-1; 0; 13]) (Demo.ems 50)
              (Demo.parameter 20 50) 8 false o)
    as (f & ind' & Hf & Heq);
    [reflexivity | reflexivity | vm_compute; discriminate | reflexivity
    | reflexivity | discriminate | vm_compute; discriminate | exact Hsoc
    | exact Ho |].
  exists f, ind'. split; [exact Hf|]. rewrite Heq, HB, HE. reflexivity.
Defined.

(** ** The operators at the edges *)

Lemma random_randint_empty (a b : Z) (g : random_state) :
  b < a -> random_randint a b g = Raise ValueError.
Proof.
  intros H. unfold random_randint. destruct (Z.leb_spec a b); [lia|].
  reflexivity.
Qed.

Lemma repeatM_raise {A} (m : M A) (k : nat) (g : random_state)
  (e : exception) :
  m g = Raise e -> repeatM (S k) m g = Raise e.
Proof. intros H. cbn [repeatM]. unfold bind. now rewrite H. Qed.

(** X11: after the set-up and for a horizon of at least one hour,
    [create_individual] returns exactly when every gene has a value to take:
    the table of charging currents is not empty when the EV is optimised,
    and the start hour is at most 23 when there is an appliance.  Otherwise
    the draw from the empty range raises [ValueError]. *)
Theorem create_individual_returns_iff_drawable (currents : list Q)
  (self : optimization_problem) (start_hour : Z) (g : random_state) :
  set_up self start_hour = true ->
  1 <= prediction_hours self ->
  if drawable self start_hour (Py.len currents)
  then exists ind g', create_individual currents self g = Ok (ind, g')
  else create_individual currents self g = Raise ValueError.
Proof.
  intros Hset HH.
  destruct (drawable self start_hour (Py.len currents)) eqn:Hdraw.
  - destruct (create_individual_parts currents self start_hour Hset Hdraw g)
      as (b & e & a & g' & Hc & _).
    exists (creator_Individual ((b ++ e) ++ a)), g'. exact Hc.
  - destruct (set_up_inv _ _ Hset) as (tb & n & Htb & Hop & Hsh & Hattr).
    assert (has_haushaltsgeraet self = (0 <? n)) as Hhg
      by (unfold has_haushaltsgeraet; now rewrite Hop).
    destruct (repeatM_ok battery_action (attr_discharge_state self)
                (Z.to_nat (prediction_hours self))
                (attr_discharge_state_ok self start_hour Hset) g)
      as (b & g1 & Hb & _).
    unfold create_individual. unfold bind at 1. rewrite Hb.
    unfold drawable in Hdraw. rewrite Hhg in Hdraw.
    destruct (Z.to_nat (prediction_hours self)) as [|k] eqn:Hk; [lia|].
    destruct (optimize_ev self) eqn:Hev.
    + destruct (Z.leb_spec 1 (Py.len currents)).
      * cbn [andb] in Hdraw.
        destruct (0 <? n) eqn:Hn; [|discriminate].
        destruct (repeatM_ok (charge_index (Py.len currents))
                    (attr_ev_charge_index currents self) (S k)) with (g := g1)
          as (e & g2 & He & _).
        { intros g0. unfold attr_ev_charge_index, the_toolbox, bind, lift.
          rewrite Htb, Hattr. apply random_randint_ok. lia. }
        unfold bind at 1. unfold bind at 1. rewrite He. unfold ret at 1.
        unfold bind at 1. unfold lift, haushaltsgeraete. rewrite Hop, Hn.
        unfold bind at 1. unfold attr_int, the_toolbox, bind, lift.
        rewrite Htb, Hsh, random_randint_empty; [reflexivity|].
        destruct (Z.leb_spec start_hour 23); [discriminate | lia].
      * unfold bind at 1. unfold bind at 1.
        rewrite (repeatM_raise _ k g1 ValueError); [reflexivity|].
        unfold attr_ev_charge_index, the_toolbox, bind, lift.
        rewrite Htb, Hattr. apply random_randint_empty. lia.
    + cbn [andb] in Hdraw.
      destruct (0 <? n) eqn:Hn; [|discriminate].
      unfold bind at 1. unfold ret at 1.
      unfold bind at 1. unfold lift, haushaltsgeraete. rewrite Hop, Hn.
      unfold bind at 1. unfold attr_int, the_toolbox, bind, lift.
      rewrite Htb, Hsh, random_randint_empty; [reflexivity|].
      destruct (Z.leb_spec start_hour 23); [discriminate | lia].
Qed.

Lemma create_individual_returns_iff_drawable_witness :
  create_individual [] (Demo.problem 80 20 0) [0; 0; 1; 2]
  = Raise ValueError.
Proof.
  exact (create_individual_returns_iff_drawable [] (Demo.problem 80 20 0) 8
           [0; 0; 1; 2] eq_refl ltac:(vm_compute; discriminate)).
Defined.

(** X12: when the whole horizon is locked for the EV
    ([fixed_eauto_hours = prediction_hours], that is no optimisation hours),
    every EV gene of a mutated individual is 0, whatever the genes were and
    whatever is drawn. *)
Theorem mutate_fully_locked (currents : list Q) (self : optimization_problem)
  (start_hour : Z) (ind : Individual) (g : random_state) :
  set_up self start_hour = true ->
  drawable self start_hour (Py.len currents) = true ->
  0 <= prediction_hours self ->
  fixed_eauto_hours self = prediction_hours self ->
  optimize_ev self = true ->
  in_domain self start_hour (Py.len currents) (genes ind) = true ->
  exists ind' g',
    mutate currents self ind g = Ok (ind', g')
    /\ Py.slice (genes ind') (Some (prediction_hours self))
         (Some (prediction_hours self * 2))
       = Py.replicate 0 (prediction_hours self).
Proof.
  intros Hset Hdraw HH Hfix Hev Hdom.
  destruct (in_domain_inv _ _ _ _ HH Hdom)
    as (b & e & a & Hl & Hb & HFb & He & Ha).
  destruct (mutate_genes_parts currents self start_hour Hset Hdraw HH
              ltac:(lia) b e a g Hb HFb He Ha)
    as (b' & e' & a' & g' & Hm & Hb' & _ & He' & _).
  rewrite Hev in He'. destruct He' as (Hle' & _ & pre & Hpre).
  exists (set_genes ind ((b' ++ e') ++ a')), g'. split.
  - unfold mutate, bind. now rewrite Hl, Hm.
  - cbn [genes set_genes]. rewrite <- app_assoc.
    rewrite (slice_middle_at b' e' a' (prediction_hours self)
               (prediction_hours self * 2))
      by (unfold Py.len; lia).
    assert (pre = []) as ->.
    { rewrite Hpre, length_app, repeat_length, Hfix in Hle'.
      destruct pre; [reflexivity | cbn [length] in Hle'; lia]. }
    rewrite Hpre, Hfix. reflexivity.
Qed.

Lemma mutate_fully_locked_witness :
  exists ind' g',
    mutate Demo.currents
      (setup_deap_environment (init 2 10 0 false) 0 8)
      (creator_Individual [-5; 1; 2; 1]) [0; 3; 1; 0]
    = Ok (ind', g')
    /\ Py.slice (genes ind') (Some 2) (Some 4) = [0; 0].
Proof.
  apply (mutate_fully_locked Demo.currents
           (setup_deap_environment (init 2 10 0 false) 0 8) 8
           (creator_Individual [-5; 1; 2; 1]) [0; 3; 1; 0]);
    try reflexivity.
  vm_compute. discriminate.
Defined.

(** ** Crossover on any two parents *)

Lemma setslice_slice_min (l1 l2 : list Z) (c1 c2 : Z) :
  0 <= c1 <= c2 -> c2 <= Py.len l1 -> c2 <= Py.len l2 ->
  Py.setslice l1 (Some c1) (Some c2) (Py.slice l2 (Some c1) (Some c2))
  = firstn (Z.to_nat c1) l1
    ++ firstn (Z.to_nat c2 - Z.to_nat c1) (skipn (Z.to_nat c1) l2)
    ++ skipn (Z.to_nat c2) l1.
Proof.
  intros Hc H1 H2.
  unfold Py.setslice, Py.slice, Py.bound, Py.norm_index.
  destruct (Z.ltb_spec c1 0); [lia|].
  destruct (Z.ltb_spec c2 0); [lia|].
  rewrite (Z.min_l c1 (Py.len l1)), (Z.min_l c2 (Py.len l1)),
    (Z.min_l c1 (Py.len l2)), (Z.min_l c2 (Py.len l2)), Z.max_r by lia.
  now rewrite Z2Nat.inj_sub by lia.
Qed.

Lemma nth_error_splice (l1 l2 : list Z) (a b i : nat) :
  (a <= b)%nat -> (b <= length l1)%nat -> (b <= length l2)%nat ->
  nth_error (firstn a l1 ++ firstn (b - a) (skipn a l2) ++ skipn b l1) i
  = if (a <=? i)%nat && (i <? b)%nat then nth_error l2 i
    else nth_error l1 i.
Proof.
  intros Hab H1 H2.
  assert (length (firstn a l1) = a) as La
    by (rewrite length_firstn; lia).
  assert (length (firstn (b - a) (skipn a l2)) = (b - a)%nat) as Lm
    by (rewrite length_firstn, length_skipn; lia).
  destruct (Nat.leb_spec a i), (Nat.ltb_spec i b); cbn [andb].
  - rewrite nth_error_app2, La by lia.
    rewrite nth_error_app1 by lia.
    rewrite nth_error_firstn, nth_error_skipn.
    destruct (Nat.ltb_spec (i - a) (b - a)); [|lia].
    f_equal. lia.
  - rewrite nth_error_app2, La by lia.
    rewrite nth_error_app2, Lm by lia.
    rewrite nth_error_skipn. f_equal. lia.
  - rewrite nth_error_app1 by lia.
    rewrite nth_error_firstn.
    destruct (Nat.ltb_spec i a); [reflexivity | lia].
  - lia.
Qed.

(** X13: [cxTwoPoint] needs two genes in the shorter parent: on a parent
    with fewer than two genes the draw of a cut point raises
    [ValueError]. *)
Theorem cxTwoPoint_short_raises (p1 p2 : list Z) (g : random_state) :
  Z.min (Py.len p1) (Py.len p2) < 2 ->
  cxTwoPoint p1 p2 g = Raise ValueError.
Proof.
  intros Hs. unfold cxTwoPoint.
  set (size := Z.min (Py.len p1) (Py.len p2)) in *.
  destruct (Z.le_gt_cases 1 size) as [H1|H0].
  - destruct (random_randint_ok 1 size g H1) as (c1 & g1 & Hc1 & _).
    unfold bind at 1. rewrite Hc1. unfold bind at 1.
    now rewrite random_randint_empty by lia.
  - unfold bind at 1. now rewrite random_randint_empty by lia.
Qed.

Lemma cxTwoPoint_short_raises_witness :
  cxTwoPoint [-5] [1] [3; 0] = Raise ValueError.
Proof.
  apply (cxTwoPoint_short_raises [-5] [1] [3; 0]). reflexivity.
Defined.

(** X14: on two parents with at least two genes each, of equal length or
    not, [cxTwoPoint] returns two children that keep the length of their
    parent.  At every position the children hold the two genes of the
    parents at that position, either as they were or exchanged, and the
    gene at position 0 is never exchanged. *)
Theorem cxTwoPoint_exchanges_genes (p1 p2 : list Z) (g : random_state) :
  2 <= Z.min (Py.len p1) (Py.len p2) ->
  exists c1 c2 g',
    cxTwoPoint p1 p2 g = Ok (c1, c2, g')
    /\ length c1 = length p1
    /\ length c2 = length p2
    /\ nth_error c1 0 = nth_error p1 0
    /\ nth_error c2 0 = nth_error p2 0
    /\ forall i,
         (nth_error c1 i = nth_error p1 i /\ nth_error c2 i = nth_error p2 i)
         \/ (nth_error c1 i = nth_error p2 i
             /\ nth_error c2 i = nth_error p1 i).
Proof.
  intros Hs. unfold cxTwoPoint.
  set (size := Z.min (Py.len p1) (Py.len p2)) in *.
  destruct (random_randint_ok 1 size g ltac:(lia))
    as (x1 & g1 & Hx1 & Hr1).
  destruct (random_randint_ok 1 (size - 1) g1 ltac:(lia))
    as (x2 & g2 & Hx2 & Hr2).
  unfold bind at 1. rewrite Hx1. unfold bind at 1. rewrite Hx2.
  unfold ret.
  assert (exists a b : Z,
             (if x1 <=? x2 then (x1, x2 + 1) else (x2, x1)) = (a, b)
             /\ 1 <= a < b /\ b <= size) as (a & b & Hab & Ha & Hb).
  { destruct (Z.leb_spec x1 x2); eexists; eexists;
      (split; [reflexivity | lia]). }
  rewrite Hab.
  rewrite !setslice_slice_min by (subst size; lia).
  eexists. eexists. exists g2. split; [reflexivity|].
  assert (Z.to_nat a <= Z.to_nat b)%nat as Hn by lia.
  assert (Z.to_nat b <= length p1)%nat as Hn1
    by (subst size; unfold Py.len in *; lia).
  assert (Z.to_nat b <= length p2)%nat as Hn2
    by (subst size; unfold Py.len in *; lia).
  split; [rewrite !length_app, !length_firstn, !length_skipn; lia|].
  split; [rewrite !length_app, !length_firstn, !length_skipn; lia|].
  rewrite !nth_error_splice by lia.
  split; [|split].
  - destruct (Nat.leb_spec (Z.to_nat a) 0); [lia | reflexivity].
  - destruct (Nat.leb_spec (Z.to_nat a) 0); [lia | reflexivity].
  - intros i. rewrite !nth_error_splice by lia.
    destruct ((Z.to_nat a <=? i)%nat && (i <? Z.to_nat b)%nat); auto.
Qed.

Lemma cxTwoPoint_exchanges_genes_witness :
  exists c1 c2 g',
    cxTwoPoint [-5; -5; 1; 2] [0; 1; 2; 1; 9] [3; 0] = Ok (c1, c2, g')
    /\ length c1 = 4%nat
    /\ length c2 = 5%nat.
Proof.
  destruct (cxTwoPoint_exchanges_genes [-5; -5; 1; 2] [0; 1; 2; 1; 9] [3; 0])
    as (c1 & c2 & g' & Hc & H1 & H2 & _).
  - vm_compute. discriminate.
  - exists c1, c2, g'. split; [exact Hc|]. split; [exact H1 | exact H2].
Defined.

(** ** The population and its diagnostics *)

Lemma population_fresh (currents : list Q) (self : optimization_problem)
  (start_hour : Z) (n : nat) (g : random_state) :
  set_up self start_hour = true ->
  drawable self start_hour (Py.len currents) = true ->
  0 <= prediction_hours self ->
  exists pop g',
    population currents self n g = Ok (pop, g')
    /\ length pop = n
    /\ Forall (fun ind =>
                 in_domain self start_hour (Py.len currents) (genes ind)
                 = true
                 /\ fitness_values ind = None
                 /\ extra_data ind = None) pop.
Proof.
  intros Hset Hdraw HH.
  destruct (set_up_inv _ _ Hset) as (tb & k & Htb & _).
  unfold population, bind, lift, the_toolbox. rewrite Htb.
  apply repeatM_ok. intros g0.
  destruct (create_individual_parts currents self start_hour Hset Hdraw g0)
    as (b & e & a & g' & Hc & Hb & HFb & He & Ha).
  exists (creator_Individual ((b ++ e) ++ a)), g'. split; [exact Hc|].
  split; [now apply in_domain_parts | now split].
Qed.

(** X15: after the set-up, with non-empty gene domains, the population the
    evolution starts from always exists: 300 drawn individuals, each in its
    domains and without fitness or diagnostic tuple, preceded by the three
    copies of the start solution when one is given (303 individuals). *)
Theorem initial_population_shape (currents : list Q)
  (self : optimization_problem) (start_hour : Z)
  (start_solution : StartSolution) (g : random_state) :
  set_up self start_hour = true ->
  drawable self start_hour (Py.len currents) = true ->
  0 <= prediction_hours self ->
  exists drawn g',
    initial_population currents self start_solution g
    = Ok (match start_solution with
          | StartGenome l =>
              [creator_Individual l; creator_Individual l;
               creator_Individual l]
          | _ => []
          end ++ drawn, g')
    /\ length drawn = 300%nat
    /\ Forall (fun ind =>
                 in_domain self start_hour (Py.len currents) (genes ind)
                 = true
                 /\ fitness_values ind = None
                 /\ extra_data ind = None) drawn.
Proof.
  intros Hset Hdraw HH.
  destruct (population_fresh currents self start_hour 300 g Hset Hdraw HH)
    as (drawn & g' & Hpop & Hlen & HF).
  exists drawn, g'. split; [|now split].
  destruct start_solution as [| |l].
  - destruct (initial_population_unseeded currents self g) as [Hn _].
    now rewrite Hn, Hpop.
  - destruct (initial_population_unseeded currents self g) as [_ Hm].
    now rewrite Hm, Hpop.
  - now rewrite initial_population_seeded, Hpop.
Qed.

Lemma initial_population_shape_witness :
  exists drawn g',
    initial_population Demo.currents (Demo.problem 80 20 1)
      (StartGenome [0; 1; 2; 0; 13]) [3; 4]
    = Ok ([creator_Individual [0; 1; 2; 0; 13];
           creator_Individual [0; 1; 2; 0; 13];
           creator_Individual [0; 1; 2; 0; 13]] ++ drawn, g')
    /\ length drawn = 300%nat.
Proof.
  destruct (initial_population_shape Demo.currents (Demo.problem 80 20 1) 8
              (StartGenome [0; 1; 2; 0; 13]) [3; 4])
    as (drawn & g' & Hp & Hlen & _);
    [reflexivity | reflexivity | vm_compute; discriminate |].
  exists drawn, g'. split; [exact Hp | exact Hlen].
Defined.

Lemma collect_extra_data_acc (population : list Individual) (acc : Member) :
  let m :=
    fold_left
      (fun member ind =>
         match extra_data ind with
         | Some d => member_append member d
         | None => member
         end) population acc in
  bilanz m
  = bilanz acc
    ++ flat_map (fun ind => match extra_data ind with
                            | Some (v, _, _) => [v]
                            | None => []
                            end) population
  /\ verluste m
     = verluste acc
       ++ flat_map (fun ind => match extra_data ind with
                               | Some (_, v, _) => [v]
                               | None => []
                               end) population
  /\ nebenbedingung m
     = nebenbedingung acc
       ++ flat_map (fun ind => match extra_data ind with
                               | Some (_, _, v) => [v]
                               | None => []
                               end) population.
Proof.
  revert acc. induction population as [|ind pop IH]; intros acc.
  - cbn. now rewrite !app_nil_r.
  - cbn [fold_left flat_map].
    destruct (extra_data ind) as [[[v1 v2] v3]|].
    + destruct (IH (member_append acc (v1, v2, v3))) as (H1 & H2 & H3).
      cbn zeta in *. rewrite H1, H2, H3. cbn [member_append bilanz verluste
                                                 nebenbedingung].
      now rewrite <- !app_assoc.
    + apply IH.
Qed.

(** X16: the three diagnostic lists [optimize] returns are aligned: they
    hold, in the order of the final population, the balance, the losses and
    the shortfall of exactly the individuals that carry a diagnostic tuple.
    Individuals without one (never evaluated with success) are skipped in
    all three lists, which therefore have the same length. *)
Theorem collect_extra_data_aligned (population : list Individual) :
  bilanz (collect_extra_data population)
  = flat_map (fun ind => match extra_data ind with
                         | Some (v, _, _) => [v]
                         | None => []
                         end) population
  /\ verluste (collect_extra_data population)
     = flat_map (fun ind => match extra_data ind with
                            | Some (_, v, _) => [v]
                            | None => []
                            end) population
  /\ nebenbedingung (collect_extra_data population)
     = flat_map (fun ind => match extra_data ind with
                            | Some (_, _, v) => [v]
                            | None => []
                            end) population
  /\ length (bilanz (collect_extra_data population))
     = length (verluste (collect_extra_data population))
  /\ length (verluste (collect_extra_data population))
     = length (nebenbedingung (collect_extra_data population)).
Proof.
  destruct (collect_extra_data_acc population
              {| bilanz := []; verluste := []; nebenbedingung := [] |})
    as (H1 & H2 & H3).
  cbn zeta in *. cbn [bilanz verluste nebenbedingung app] in *.
  unfold collect_extra_data. rewrite H1, H2, H3.
  repeat split.
  - clear. induction population as [|ind pop IH]; [reflexivity|].
    cbn [flat_map]. rewrite !length_app, IH.
    now destruct (extra_data ind) as [[[? ?] ?]|].
  - clear. induction population as [|ind pop IH]; [reflexivity|].
    cbn [flat_map]. rewrite !length_app, IH.
    now destruct (extra_data ind) as [[[? ?] ?]|].
Qed.

(** X17: [optimize] needs the fitness function in the toolbox.  Called
    after [setup_deap_environment] alone, before [optimierung_ems] has
    registered [evaluate], it draws the population and then raises
    [AttributeError], whatever the start solution is. *)
Theorem optimize_without_evaluate_raises (currents : list Q)
  (ea : list Individual -> (Individual -> result (Q * Individual))
        -> (list Z -> list Z -> M (list Z * list Z))
        -> (Individual -> M Individual)
        -> Z -> Z -> Q -> Q -> Z -> M (list Individual * list Individual))
  (self0 : optimization_problem) (op start_hour : Z)
  (start_solution : StartSolution) (ngen : Z) (g : random_state) :
  0 <= prediction_hours self0 ->
  (optimize_ev self0 = true -> 1 <= Py.len currents) ->
  (0 < op -> start_hour <= 23) ->
  optimize currents ea (setup_deap_environment self0 op start_hour)
    start_solution ngen g
  = Raise AttributeError.
Proof.
  intros HH Hev Hop.
  pose proof (set_up_setup self0 op start_hour) as Hset.
  pose proof (drawable_setup self0 op start_hour _ Hev Hop) as Hdraw.
  destruct (population_fresh currents _ start_hour 300 g Hset Hdraw HH)
    as (drawn & g' & Hpop & _).
  unfold optimize. unfold bind at 1.
  destruct start_solution as [| |l].
  - destruct (initial_population_unseeded currents
                (setup_deap_environment self0 op start_hour) g) as [Hn _].
    now rewrite Hn, Hpop.
  - destruct (initial_population_unseeded currents
                (setup_deap_environment self0 op start_hour) g) as [_ Hm].
    now rewrite Hm, Hpop.
  - now rewrite initial_population_seeded, Hpop.
Qed.

Lemma optimize_without_evaluate_raises_witness :
  optimize Demo.currents Demo.eaMuPlusLambda (Demo.problem 80 20 0)
    StartNone 1 []
  = Raise AttributeError.
Proof.
  apply (optimize_without_evaluate_raises Demo.currents Demo.eaMuPlusLambda
           (set_optimize_ev (init 2 10 1 false)
              (auto_optimize_ev (Demo.parameter 80 20))) 0 8 StartNone 1 []).
  - vm_compute. discriminate.
  - intros _. vm_compute. discriminate.
  - lia.
Defined.

(** ** The result of [optimierung_ems] *)

Lemma null_first_and_nan_ok (a : list np_float)
  (out : list (option np_float)) :
  null_first_and_nan a = Ok out ->
  length out = length a
  /\ nth_error out 0 = Some None
  /\ ~ In (Some np_nan) out.
Proof.
  destruct a as [|x a]; [discriminate|]. cbn [null_first_and_nan].
  intros H. inversion H. subst out. clear H.
  split; [cbn [length]; now rewrite length_map|].
  split; [reflexivity|].
  intros [Hin|Hin]; [discriminate|].
  apply in_map_iff in Hin. destruct Hin as (y & Hy & _).
  destruct y; discriminate.
Qed.

(** X18: the post-processing of one per-hour array raises [IndexError] on
    an empty array.  On any other array it keeps the length, replaces the
    first entry by [None] whatever it was, replaces every [nan] by [None]
    and keeps every other entry, so that no [nan] is left. *)
Theorem null_first_and_nan_spec (a : list np_float) :
  match a with
  | [] => null_first_and_nan a = Raise IndexError
  | _ :: _ =>
      exists out,
        null_first_and_nan a = Ok out
        /\ length out = length a
        /\ nth_error out 0 = Some None
        /\ ~ In (Some np_nan) out
        /\ forall i x,
             nth_error a (S i) = Some x ->
             nth_error out (S i)
             = Some (match x with np_nan => None | _ => Some x end)
  end.
Proof.
  destruct a as [|x a]; [reflexivity|].
  destruct (null_first_and_nan (x :: a)) as [out|] eqn:E; [|discriminate].
  exists out. split; [reflexivity|].
  destruct (null_first_and_nan_ok _ _ E) as (H1 & H2 & H3).
  repeat split; try assumption.
  intros i y Hy. cbn [null_first_and_nan] in E. inversion E. subst out.
  cbn [nth_error] in Hy |- *. now rewrite nth_error_map, Hy.
Qed.

Lemma null_all_ok (h : HourArrays np_float)
  (arrays : HourArrays (option np_float)) :
  null_all h = Ok arrays ->
  Forall (fun a => nth_error a 0 = Some None /\ ~ In (Some np_nan) a)
    [Last_Wh_pro_Stunde arrays; Netzeinspeisung_Wh_pro_Stunde arrays;
     akku_soc_pro_stunde arrays; Netzbezug_Wh_pro_Stunde arrays;
     Kosten_Euro_pro_Stunde arrays; Einnahmen_Euro_pro_Stunde arrays;
     E_Auto_SoC_pro_Stunde arrays; Verluste_Pro_Stunde arrays;
     Haushaltsgeraet_wh_pro_stunde arrays].
Proof.
  unfold null_all. intros H.
  repeat match type of H with
         | bindR (null_first_and_nan ?a) _ = _ =>
             let E := fresh "E" in
             destruct (null_first_and_nan a) eqn:E;
             cbn [bindR] in H; [|discriminate H];
             apply null_first_and_nan_ok in E
         end.
  inversion H. subst arrays. cbn.
  repeat constructor; tauto.
Qed.

Lemma bind_inv {A B} (m : M A) (k : A -> M B) (g : random_state)
  (r : B * random_state) :
  bind m k g = Ok r -> exists a g1, m g = Ok (a, g1) /\ k a g1 = Ok r.
Proof.
  unfold bind. destruct (m g) as [[a g1]|]; [|discriminate].
  intros H. now exists a, g1.
Qed.

Lemma lift_inv {A} (x : result A) (g g1 : random_state) (a : A) :
  lift x g = Ok (a, g1) -> x = Ok a /\ g1 = g.
Proof.
  unfold lift. destruct x; [|discriminate]. intros H. now inversion H.
Qed.

Section Results.

Variable currents : list Q.
Variable EautoDict : Type.
Variable sim :
  EnergieManagementSystem -> ems_inputs -> Z -> result (Simulation EautoDict).
Variable ea :
  list Individual -> (Individual -> result (Q * Individual)) ->
  (list Z -> list Z -> M (list Z * list Z)) ->
  (Individual -> M Individual) ->
  Z -> Z -> Q -> Q -> Z -> M (list Individual * list Individual).

(** X19: [optimierung_ems] reads nothing of an earlier run from the object:
    [optimize_ev], [opti_param] and the toolbox are overwritten before they
    are used.  Two objects with the same horizon, penalty, locked hours and
    verbosity give the same result and are left in the same state, whatever
    state an earlier run left them in. *)
Theorem optimierung_ems_ignores_previous_state {Any : Type}
  (self1 self2 : optimization_problem) (parameter : ParameterDict)
  (start_hour : Z) (worst_case : bool) (startdate : option Any) (ngen : Z)
  (g : random_state) :
  prediction_hours self1 = prediction_hours self2 ->
  strafe self1 = strafe self2 ->
  fixed_eauto_hours self1 = fixed_eauto_hours self2 ->
  verbose self1 = verbose self2 ->
  optimierung_ems currents EautoDict sim ea self1 parameter start_hour
    worst_case startdate ngen g
  = optimierung_ems currents EautoDict sim ea self2 parameter start_hour
      worst_case startdate ngen g.
Proof.
  destruct self1, self2. cbn [prediction_hours strafe fixed_eauto_hours
                                verbose].
  intros -> -> -> ->. reflexivity.
Qed.

(** X20: what a call of [optimierung_ems] that returns has done.  The
    horizon was not negative.  The object is left set up for the start
    hour, with the EV in the optimisation unless the target is below the
    start state of charge, and with an appliance gene exactly when the
    duration of the appliance is positive.  In the result, the battery
    actions and the EV part are the two slices of the returned genome (the
    EV part holds the genes, the indices into the table, not the currents),
    the start of the appliance is [None] exactly without an appliance,
    ["result"] and ["simulation_data"] are the same dictionary, and each
    of its nine per-hour arrays starts with [None] and holds no [nan]. *)
Theorem optimierung_ems_result_shape {Any : Type}
  (self : optimization_problem) (parameter : ParameterDict)
  (start_hour : Z) (worst_case : bool) (startdate : option Any) (ngen : Z)
  (g g' : random_state) (r : Ergebnis EautoDict)
  (self' : optimization_problem) :
  optimierung_ems currents EautoDict sim ea self parameter start_hour
    worst_case startdate ngen g = Ok (r, self', g') ->
  0 <= prediction_hours self
  /\ prediction_hours self' = prediction_hours self
  /\ set_up self' start_hour = true
  /\ optimize_ev self' = auto_optimize_ev parameter
  /\ has_haushaltsgeraet self' = (0 <? p_haushaltsgeraet_dauer parameter)
  /\ r_discharge_hours_bin r
     = Py.slice (genes (r_start_solution r)) None
         (Some (prediction_hours self))
  /\ r_eautocharge_hours_float r
     = Py.slice (genes (r_start_solution r)) (Some (prediction_hours self))
         (Some (prediction_hours self * 2))
  /\ (r_spuelstart r = None <-> p_haushaltsgeraet_dauer parameter <= 0)
  /\ r_simulation_data r = r_result r
  /\ Forall (fun a => nth_error a 0 = Some None /\ ~ In (Some np_nan) a)
       (let arrays := snd (r_result r) in
        [Last_Wh_pro_Stunde arrays; Netzeinspeisung_Wh_pro_Stunde arrays;
         akku_soc_pro_stunde arrays; Netzbezug_Wh_pro_Stunde arrays;
         Kosten_Euro_pro_Stunde arrays; Einnahmen_Euro_pro_Stunde arrays;
         E_Auto_SoC_pro_Stunde arrays; Verluste_Pro_Stunde arrays;
         Haushaltsgeraet_wh_pro_stunde arrays]).
Proof.
  intros H. unfold optimierung_ems in H.
  apply bind_inv in H. destruct H as (eins & g1 & H1 & H).
  apply lift_inv in H1. destruct H1 as [H1 ->].
  apply bind_inv in H. destruct H as (ones & g2 & H2 & H).
  apply lift_inv in H2. destruct H2 as [H2 ->].
  cbv zeta in H.
  apply bind_inv in H. destruct H as ([best member] & g3 & Hopt & H).
  apply bind_inv in H. destruct H as (o & g4 & Ho & H).
  apply lift_inv in Ho. destruct Ho as [Ho ->].
  apply bind_inv in H. destruct H as ([[d e] sp] & g5 & Hsp & H).
  apply lift_inv in Hsp. destruct Hsp as [Hsp ->].
  apply bind_inv in H. destruct H as (arrays & g6 & Harr & H).
  apply lift_inv in Harr. destruct Harr as [Harr ->].
  unfold ret in H. inversion H. subst r self' g'. clear H.
  assert (0 <= prediction_hours self) as HH.
  { unfold np_full in H2.
    destruct (Z.ltb_spec (prediction_hours self) 0); [discriminate | lia]. }
  split; [exact HH|].
  split; [reflexivity|].
  split.
  { unfold set_up. cbn. rewrite Z.eqb_refl.
    now destruct (auto_optimize_ev parameter). }
  split; [reflexivity|].
  split.
  { unfold has_haushaltsgeraet. cbn.
    now destruct (0 <? p_haushaltsgeraet_dauer parameter). }
  unfold split_individual in Hsp.
  cbn [r_discharge_hours_bin r_eautocharge_hours_float r_spuelstart
         r_simulation_data r_result r_start_solution snd].
  match type of Hsp with
  | bindR (if ?c then _ else _) _ = _ =>
      assert (c = (0 <? p_haushaltsgeraet_dauer parameter)) as Hc
        by (unfold has_haushaltsgeraet; cbn;
            now destruct (0 <? p_haushaltsgeraet_dauer parameter));
      rewrite Hc in Hsp
  end.
  destruct (Z.ltb_spec 0 (p_haushaltsgeraet_dauer parameter)).
  - destruct (Py.getitem (genes best) (-1)) as [last|];
      cbn [bindR] in Hsp; [|discriminate].
    inversion Hsp. subst d e sp.
    repeat split; try reflexivity; try discriminate; try lia.
    exact (null_all_ok _ _ Harr).
  - cbn [bindR] in Hsp. inversion Hsp. subst d e sp.
    repeat split; try reflexivity; try lia.
    exact (null_all_ok _ _ Harr).
Qed.

End Results.

Lemma optimierung_ems_ignores_previous_state_witness :
  optimierung_ems Demo.currents Q Demo.simuliere Demo.eaMuPlusLambda
    (init 2 10 1 false) (Demo.parameter 80 20) 8 false (Some 20240101) 1
    [6; 1; 2; 1]
  = optimierung_ems Demo.currents Q Demo.simuliere Demo.eaMuPlusLambda
      (Demo.registered 20 50 1) (Demo.parameter 80 20) 8 false
      (Some 20240101) 1 [6; 1; 2; 1].
Proof.
  apply (optimierung_ems_ignores_previous_state Demo.currents Q
           Demo.simuliere Demo.eaMuPlusLambda (init 2 10 1 false)
           (Demo.registered 20 50 1)); reflexivity.
Defined.

Lemma optimierung_ems_result_shape_witness :
  exists r self' g',
    optimierung_ems Demo.currents Q Demo.simuliere Demo.eaMuPlusLambda
      (init 2 10 1 false) (Demo.parameter 80 20) 8 false (Some 20240101) 1
      [6; 1; 2; 1]
    = Ok (r, self', g')
    /\ set_up self' 8 = true
    /\ r_simulation_data r = r_result r.
Proof.
  destruct (optimierung_ems Demo.currents Q Demo.simuliere
              Demo.eaMuPlusLambda (init 2 10 1 false) (Demo.parameter 80 20)
              8 false (Some 20240101) 1 [6; 1; 2; 1])
    as [[[r self'] g']|e] eqn:E.
  - exists r, self', g'. split; [reflexivity|].
    destruct (optimierung_ems_result_shape Demo.currents Q Demo.simuliere
                Demo.eaMuPlusLambda _ _ _ _ _ _ _ _ _ _ E)
      as (_ & _ & Hset & _ & _ & _ & _ & _ & Hsame & _).
    split; [exact Hset | exact Hsame].
  - exfalso. vm_compute in E. discriminate E.
Defined.

(** ** From the genome to the currents of the locked hours *)

Lemma all_at_nth (P : Z -> Z -> bool) (k : Z) (l : list Z) (i : nat)
  (x : Z) :
  all_at P k l = true -> nth_error l i = Some x ->
  P (k + Z.of_nat i) x = true.
Proof.
  revert k i. induction l as [|y l IH]; intros k i Hall Hx.
  - destruct i; discriminate.
  - cbn [all_at] in Hall. apply andb_true_iff in Hall.
    destruct Hall as [Hy Hl]. destruct i as [|i].
    + cbn in Hx. inversion Hx. subst. now rewrite Z.add_0_r.
    + cbn [nth_error] in Hx. specialize (IH (k + 1) i Hl Hx).
      now replace (k + Z.of_nat (S i)) with (k + 1 + Z.of_nat i) by lia.
Qed.

Lemma charge_currents_nth (currents : list Q) (l : list Z) (cs : list Q)
  (j : nat) (i : Z) :
  charge_currents currents l = Ok cs ->
  nth_error l j = Some i ->
  exists c, nth_error cs j = Some c /\ Py.getitem currents i = Ok c.
Proof.
  revert cs j. induction l as [|i0 l IH]; intros cs j Hcs Hj.
  - destruct j; discriminate.
  - cbn [charge_currents] in Hcs.
    destruct (Py.getitem currents i0) as [c0|] eqn:E0; [|discriminate].
    cbn [bindR] in Hcs.
    destruct (charge_currents currents l) as [cs'|]; [|discriminate].
    cbn [bindR] in Hcs. inversion Hcs. subst cs.
    destruct j as [|j].
    + cbn in Hj. inversion Hj. subst. now exists c0.
    + cbn [nth_error] in Hj |- *. now apply (IH cs' j eq_refl).
Qed.

Lemma simulation_inputs_ev (currents : list Q) (self : optimization_problem)
  (genome : list Z) (start_hour : Z) (inputs : ems_inputs) :
  optimize_ev self = true ->
  simulation_inputs currents self genome start_hour = Ok inputs ->
  exists cs,
    eauto_charge_hours inputs = Some cs
    /\ charge_currents currents
         (Py.slice genome (Some (prediction_hours self))
            (Some (prediction_hours self * 2))) = Ok cs.
Proof.
  intros Hev H. unfold simulation_inputs, split_individual in H.
  rewrite Hev in H.
  destruct (has_haushaltsgeraet self).
  - destruct (Py.getitem genome (-1)); cbn [bindR] in H; [|discriminate].
    destruct (opti_param self) as [n|]; [|discriminate].
    destruct (0 <? n); cbn [bindR] in H;
      (destruct (split_charge_discharge _) as [[c d]|]; [|discriminate]);
      cbn [bindR] in H;
      (destruct (charge_currents currents _) as [cs|]; [|discriminate]);
      cbn [bindR] in H; inversion H; now exists cs.
  - cbn [bindR] in H.
    destruct (opti_param self) as [n|]; [|discriminate].
    destruct (0 <? n); cbn [bindR] in H;
      (destruct (split_charge_discharge _) as [[c d]|]; [|discriminate]);
      cbn [bindR] in H;
      (destruct (charge_currents currents _) as [cs|]; [|discriminate]);
      cbn [bindR] in H; inversion H; now exists cs.
Qed.

(** X21: a genome whose locked tail is zero charges the EV with the first
    entry of the table in every locked hour.  When the EV is optimised and
    the decoding of such a genome (of at least [2H] genes) succeeds, the
    current handed to the simulation for each of the last
    [fixed_eauto_hours] hours is [possible_ev_charge_currents[0]]. *)
Theorem locked_hours_get_first_current (currents : list Q)
  (self : optimization_problem) (genome : list Z) (start_hour : Z)
  (inputs : ems_inputs) (cs : list Q) (j : nat) :
  optimize_ev self = true ->
  0 <= prediction_hours self ->
  prediction_hours self * 2 <= Py.len genome ->
  locked_tail_zero self genome = true ->
  simulation_inputs currents self genome start_hour = Ok inputs ->
  eauto_charge_hours inputs = Some cs ->
  prediction_hours self - fixed_eauto_hours self <= Z.of_nat j
  < prediction_hours self ->
  nth_error cs j = nth_error currents 0 /\ nth_error cs j <> None.
Proof.
  intros Hev HH Hlen Htail Hin Hcs Hj.
  destruct (simulation_inputs_ev currents self genome start_hour inputs
              Hev Hin) as (cs' & Hcs' & Hcc).
  rewrite Hcs in Hcs'. inversion Hcs'. subst cs'. clear Hcs'.
  assert (Py.slice genome (Some (prediction_hours self))
            (Some (prediction_hours self * 2))
          = firstn (Z.to_nat (prediction_hours self))
              (skipn (Z.to_nat (prediction_hours self)) genome)) as Hsl.
  { unfold Py.slice, Py.bound, Py.norm_index.
    destruct (Z.ltb_spec (prediction_hours self) 0); [lia|].
    destruct (Z.ltb_spec (prediction_hours self * 2) 0); [lia|].
    rewrite !Z.min_l by lia. f_equal. lia. }
  rewrite Hsl in Hcc.
  assert (exists x,
             nth_error genome (Z.to_nat (prediction_hours self) + j)
             = Some x) as (x & Hx).
  { destruct (nth_error genome (Z.to_nat (prediction_hours self) + j))
      eqn:E; [now eexists|].
    apply nth_error_None in E. unfold Py.len in Hlen. lia. }
  assert (x = 0) as ->.
  { pose proof (all_at_nth _ _ _ _ _ Htail Hx) as Hz.
    unfold locked_gene in Hz.
    destruct (Z.leb_spec
                (prediction_hours self * 2 - fixed_eauto_hours self)
                (0 + Z.of_nat (Z.to_nat (prediction_hours self) + j)));
      [|lia].
    destruct (Z.ltb_spec
                (0 + Z.of_nat (Z.to_nat (prediction_hours self) + j))
                (prediction_hours self * 2)); [|lia].
    cbn [andb] in Hz. now apply Z.eqb_eq in Hz. }
  assert (nth_error
            (firstn (Z.to_nat (prediction_hours self))
               (skipn (Z.to_nat (prediction_hours self)) genome)) j
          = Some 0) as Hnth.
  { rewrite nth_error_firstn, nth_error_skipn.
    destruct (Nat.ltb_spec j (Z.to_nat (prediction_hours self))); [|lia].
    exact Hx. }
  destruct (charge_currents_nth currents _ cs j 0 Hcc Hnth)
    as (c & Hc & Hget).
  rewrite Hc. split; [|discriminate].
  unfold Py.getitem, Py.position in Hget. cbn [Z.ltb Z.compare] in Hget.
  destruct ((0 <=? 0) && (0 <? Py.len currents)); [|discriminate].
  cbn [Z.to_nat] in Hget.
  destruct (nth_error currents 0); [|discriminate]. now inversion Hget.
Qed.

Lemma locked_hours_get_first_current_witness :
  exists inputs cs,
    simulation_inputs Demo.currents (Demo.problem 80 20 0) [-5; 1; 2; 0] 8
    = Ok inputs
    /\ eauto_charge_hours inputs = Some cs
    /\ nth_error cs 1 = nth_error Demo.currents 0.
Proof.
  assert (exists inputs cs,
             simulation_inputs Demo.currents (Demo.problem 80 20 0)
               [-5; 1; 2; 0] 8 = Ok inputs
             /\ eauto_charge_hours inputs = Some cs)
    as (inputs & cs & Hin & Hcs) by (do 2 eexists; split; reflexivity).
  exists inputs, cs. split; [exact Hin|]. split; [exact Hcs|].
  assert (0 <= 2) as H0 by (vm_compute; discriminate).
  assert (2 * 2 <= 4) as H4 by (vm_compute; discriminate).
  assert (2 - 1 <= Z.of_nat 1 < 2) as H1
    by (split; vm_compute; [discriminate | reflexivity]).
  exact (proj1 (locked_hours_get_first_current Demo.currents
                  (Demo.problem 80 20 0) [-5; 1; 2; 0] 8 inputs cs 1
                  eq_refl H0 H4 eq_refl Hin Hcs H1)).
Defined.

(** ** The fitness of a genome with an EV part *)

Section FitnessRegions.

Variable currents : list Q.
Variable EautoDict : Type.
Variable sim :
  EnergieManagementSystem -> ems_inputs -> Z -> result (Simulation EautoDict).

(** X22: the fitness as the code computes it, on a genome of [H] battery
    genes followed by [H] EV genes (and whatever follows) whose simulation
    succeeds: the balance with the sign of the mode, 0.01 for every battery
    gene that is 0, [strafe] for every EV gene that is not 0 when the final
    state of charge has reached the target (and nothing for them when it
    has not), [strafe] times the shortfall when that is positive, minus the
    energy left in the battery at its price.  The balance, the losses and
    the shortfall are stored as the diagnostic tuple. *)
Theorem evaluate_fitness_by_region (self : optimization_problem)
  (b e a : list Z) (ind : Individual) (ems : EnergieManagementSystem)
  (parameter : ParameterDict) (start_hour : Z) (worst_case : bool)
  (o : Simulation EautoDict) :
  genes ind = (b ++ e) ++ a ->
  Py.len b = prediction_hours self ->
  Py.len e = prediction_hours self ->
  evaluate_inner currents EautoDict sim self (genes ind) ems start_hour
  = Ok o ->
  let shortfall := (p_eauto_min_soc parameter - ladezustand_in_prozent o)%Q in
  exists f,
    evaluate currents EautoDict sim self ind ems parameter start_hour
      worst_case
    = Ok (f, set_extra_data ind
               (Gesamtbilanz_Euro o, Gesamt_Verluste o, shortfall))
    /\ (f == (if worst_case then - (1) else 1) * Gesamtbilanz_Euro o
           + (1 # 100) * inject_Z (count_if (fun x => x =? 0) b)
           + (if Qle_bool shortfall 0
              then strafe self
                   * inject_Z (count_if (fun x => negb (x =? 0)) e)
              else 0)
           + Qmax 0 (shortfall * strafe self)
           - aktueller_energieinhalt o
             * p_preis_euro_pro_wh_akku parameter)%Q.
Proof.
  intros Hg Hb He Hin shortfall.
  destruct (evaluate_fitness currents EautoDict sim self ind ems parameter
              start_hour worst_case o Hin) as (f & Hf & Heq).
  { rewrite Hg. unfold Py.len in *. rewrite !length_app. lia. }
  exists f. split; [exact Hf|].
  rewrite Hg, <- app_assoc in Heq.
  rewrite (slice_head_at b (e ++ a) _ (eq_sym Hb)) in Heq.
  rewrite (slice_middle_at b e a (prediction_hours self)
             (prediction_hours self * 2)) in Heq by lia.
  exact Heq.
Qed.

(** X23: [evaluate] returns, with a fitness or with the sentinel, on every
    genome of at least [H] genes, for a horizon that is not negative,
    whatever the simulation does: the only exception that can leave
    [evaluate] is the one raised on a genome shorter than the horizon. *)
Theorem evaluate_returns_on_full_genome (self : optimization_problem)
  (ind : Individual) (ems : EnergieManagementSystem)
  (parameter : ParameterDict) (start_hour : Z) (worst_case : bool) :
  0 <= prediction_hours self <= Py.len (genes ind) ->
  exists f ind',
    evaluate currents EautoDict sim self ind ems parameter start_hour
      worst_case
    = Ok (f, ind')
    /\ genes ind' = genes ind.
Proof.
  intros HH.
  destruct (evaluate_inner currents EautoDict sim self (genes ind) ems
              start_hour) as [o|e] eqn:Hin.
  - destruct (evaluate_fitness currents EautoDict sim self ind ems parameter
                start_hour worst_case o Hin HH) as (f & Hf & _).
    eexists. eexists. split; [exact Hf | reflexivity].
  - exists 100000%Q, ind. split; [|reflexivity].
    unfold evaluate. now rewrite Hin.
Qed.

End FitnessRegions.

Lemma evaluate_fitness_by_region_witness :
  exists o f,
    evaluate_inner Demo.currents Q Demo.simuliere (Demo.problem 50 50 0)
      [-1; 1; 2; 0] (Demo.ems 50) 8 = Ok o
    /\ evaluate Demo.currents Q Demo.simuliere (Demo.problem 50 50 0)
         (creator_Individual [-1; 1; 2; 0]) (Demo.ems 50)
         (Demo.parameter 50 50) 8 false
       = Ok (f, set_extra_data (creator_Individual [-1; 1; 2; 0])
                  (Gesamtbilanz_Euro o, Gesamt_Verluste o,
                   (50 - ladezustand_in_prozent o)%Q))
    /\ (f == 21 # 2)%Q.
Proof.
  assert (exists o,
             evaluate_inner Demo.currents Q Demo.simuliere
               (Demo.problem 50 50 0) [-1; 1; 2; 0] (Demo.ems 50) 8 = Ok o
             /\ (Gesamtbilanz_Euro o == 1 # 2)%Q
             /\ (ladezustand_in_prozent o == 60)%Q
             /\ (aktueller_energieinhalt o == 0)%Q)
    as (o & Ho & HB & HS & HE).
  { eexists. split; [reflexivity|]. repeat split. }
  destruct (evaluate_fitness_by_region Demo.currents Q Demo.simuliere
              (Demo.problem 50 50 0) [-1; 1] [2; 0] []
              (creator_Individual [-1; 1; 2; 0]) (Demo.ems 50)
              (Demo.parameter 50 50) 8 false o eq_refl eq_refl eq_refl Ho)
    as (f & Hf & Heq).
  exists o, f. split; [exact Ho|]. split; [exact Hf|].
  rewrite Heq. cbn [p_eauto_min_soc p_preis_euro_pro_wh_akku Demo.parameter
                      strafe Demo.problem].
  assert (Qle_bool (50 - ladezustand_in_prozent o) 0 = true) as Hle
    by (apply Qle_bool_iff; rewrite HS; discriminate).
  rewrite Hle, HB, HE, HS. reflexivity.
Defined.

Lemma evaluate_returns_on_full_genome_witness :
  exists f ind',
    evaluate Demo.currents Q Demo.simuliere (Demo.problem 80 20 0)
      (creator_Individual [-1; 1; 7; 0]) (Demo.ems 20) (Demo.parameter 80 20)
      8 false
    = Ok (f, ind')
    /\ genes ind' = [-1; 1; 7; 0].
Proof.
  apply (evaluate_returns_on_full_genome Demo.currents Q Demo.simuliere
           (Demo.problem 80 20 0) (creator_Individual [-1; 1; 7; 0])
           (Demo.ems 20) (Demo.parameter 80 20) 8 false).
  split; vm_compute; discriminate.
Defined.
